(** * browser_mcp: the session manager and the human-interaction helpers

    A shallow embedding of two source files of the repository:

    - the human-interaction helpers ([rand], [randf], [bezierPoint],
      [generateMousePath], [humanMouseMove], [humanType]), in [Module Human];
    - the [BrowserManager] class (connection strategies, page registry,
      telemetry buffers, storage state), in [Module Manager].

    The definitions come first; their properties follow in [HumanFacts] and
    [ManagerFacts].

    JavaScript numbers are modelled by exact rationals ([Q]) where the code
    computes with fractions and by [Z] where it only counts; [Math.random()]
    is an explicit sequence of draws in [[0,1)].  The one place where the
    rounding of double precision decides a count, the distance of a pointer
    move, takes its floating-point operations as parameters. *)

From Stdlib Require Import ZArith QArith Qround Qabs Qminmax Lia Lqa List String Ascii Bool.
From stdpp Require Import base gmap list strings pretty sorting.

Close Scope Q_scope.
Local Open Scope Z_scope.

(* ================================================================== *)
(** * Human-like interaction helpers *)
(* ================================================================== *)

Module Human.

(** ** The random source

    [Math.random()] is the only source of randomness.  The [k]-th call of a
    run returns [random k]; a computation that draws numbers is a function
    from the index of the next draw to its result and the index after it. *)

Definition Gen (A : Type) : Type := nat -> A * nat.

Definition gret {A} (a : A) : Gen A := fun k => (a, k).

Definition gbind {A B} (m : Gen A) (f : A -> Gen B) : Gen B :=
  fun k => let (a, k') := m k in f a k'.

Notation "'let*' x ':=' m 'in' f" := (gbind m (fun x => f))
  (at level 10, x name, m at level 100, f at level 200).

(** ** Floating-point operations

    The operations of double precision that the distance of a pointer move
    goes through, each with the value it returns for its operands.  Nothing
    is assumed about their rounding. *)
Record Float : Type := mkFloat {
  fsub : Q -> Q -> Q;          (* [a - b] *)
  fadd : Q -> Q -> Q;          (* [a + b] *)
  fdiv : Q -> Q -> Q;          (* [a / b] *)
  Math_pow : Q -> Z -> Q;      (* [Math.pow(a, n)] *)
  Math_sqrt : Q -> Q           (* [Math.sqrt(a)] *)
}.

Section WithRandom.

Variable random : nat -> Q.

(** [Math.random()] *)
Definition Math_random : Gen Q := fun k => (random k, S k).

(** [Math.round]: the nearest integer, ties towards plus infinity. *)
Definition Math_round (v : Q) : Z := Qfloor (v + (1 # 2))%Q.

(** [rand(min, max)]: [Math.floor(Math.random() * (max - min + 1)) + min]. *)
Definition rand (min max : Z) : Gen Z :=
  let* r := Math_random in
  gret (Qfloor (r * inject_Z (max - min + 1)) + min).

(** [randf(min, max)]: [Math.random() * (max - min) + min]. *)
Definition randf (min max : Q) : Gen Q :=
  let* r := Math_random in
  gret (r * (max - min) + min)%Q.

(** ** Mouse movement *)

Record Point : Type := mkPoint { px : Q; py : Q }.

(** [bezierPoint(p0, p1, p2, p3, t)] *)
Definition bezierPoint (p0 p1 p2 p3 : Point) (t : Q) : Point :=
  let u := (1 - t)%Q in
  {| px := (u * u * u * px p0 + 3 * u * u * t * px p1
            + 3 * u * t * t * px p2 + t * t * t * px p3)%Q;
     py := (u * u * u * py p0 + 3 * u * u * t * py p1
            + 3 * u * t * t * py p2 + t * t * t * py p3)%Q |}.

(** The easing of the loop body:
    [t < 0.5 ? 2 * t * t : 1 - Math.pow(-2 * t + 2, 2) / 2]. *)
Definition eased (t : Q) : Q :=
  if Qlt_le_dec t (1 # 2) then (2 * t * t)%Q
  else (1 - ((- (2) * t + 2) * (- (2) * t + 2)) / 2)%Q.

(** One iteration of the loop of [generateMousePath]: the sample for index
    [i], with its two jitter draws. *)
Definition pathSample (start cp1 cp2 end_ : Point) (steps i : Z) : Gen Point :=
  let t := (inject_Z i / inject_Z steps)%Q in
  let p := bezierPoint start cp1 cp2 end_ (eased t) in
  let* jx := randf (- (1)) 1 in
  let* jy := randf (- (1)) 1 in
  gret {| px := inject_Z (Math_round (px p + jx));
          py := inject_Z (Math_round (py p + jy)) |}.

(** [for (let i = i0; i <= steps; i++) points.push(...)], with [n] the
    number of iterations left. *)
Fixpoint pathLoop (start cp1 cp2 end_ : Point) (steps : Z) (n : nat) (i : Z)
  : Gen (list Point) :=
  match n with
  | O => gret []
  | S n' =>
      let* p := pathSample start cp1 cp2 end_ steps i in
      let* ps := pathLoop start cp1 cp2 end_ steps n' (i + 1) in
      gret (p :: ps)
  end.

(** [generateMousePath(start, end, steps)] *)
Definition generateMousePath (start end_ : Point) (steps : Z) : Gen (list Point) :=
  let dx := (px end_ - px start)%Q in
  let dy := (py end_ - py start)%Q in
  let* a1 := randf (2 # 10) (4 # 10) in
  let* b1 := randf (- (30)) 30 in
  let* a2 := randf (1 # 10) (3 # 10) in
  let* b2 := randf (- (30)) 30 in
  let cp1 := {| px := (px start + dx * a1 + b1)%Q;
                py := (py start + dy * a2 + b2)%Q |} in
  let* a3 := randf (6 # 10) (8 # 10) in
  let* b3 := randf (- (20)) 20 in
  let* a4 := randf (7 # 10) (9 # 10) in
  let* b4 := randf (- (20)) 20 in
  let cp2 := {| px := (px start + dx * a3 + b3)%Q;
                py := (py start + dy * a4 + b4)%Q |} in
  pathLoop start cp1 cp2 end_ steps (Z.to_nat (steps + 1)) 0.

Variable fp : Float.

(** [Math.sqrt(Math.pow(toX - currentPos.x, 2) + Math.pow(toY - currentPos.y, 2))] *)
Definition distance (from to : Point) : Q :=
  Math_sqrt fp (fadd fp (Math_pow fp (fsub fp (px to) (px from)) 2)
                        (Math_pow fp (fsub fp (py to) (py from)) 2)).

(** [Math.max(5, Math.min(25, Math.floor(distance / 30)))] *)
Definition stepsFor (from to : Point) : Z :=
  Z.max 5 (Z.min 25 (Qfloor (fdiv fp (distance from to) 30))).

Record Viewport : Type := mkViewport { width : Z; height : Z }.

(** What [humanMouseMove] does to the page: the pointer moves it issues,
    each followed by its sleep, and the position it stores afterwards. *)
Record MouseMove : Type := mkMouseMove {
  mm_start : Point;               (* currentPos *)
  mm_path : list Point;           (* the points passed to page.mouse.move *)
  mm_delays : list Z;             (* the sleep after each move *)
  mm_lastMousePos : Point         (* page.__lastMousePos afterwards *)
}.

(** [for (const point of path) { move; sleep(rand(2, 12)) }] *)
Fixpoint moveDelays (path : list Point) : Gen (list Z) :=
  match path with
  | [] => gret []
  | _ :: rest =>
      let* d := rand 2 12 in
      let* ds := moveDelays rest in
      gret (d :: ds)
  end.

(** [humanMouseMove(page, toX, toY)].  [viewportSize] is what
    [page.viewportSize()] returns and [lastMousePos] the page's
    [__lastMousePos] property, both possibly absent. *)
Definition humanMouseMove (viewportSize : option Viewport)
    (lastMousePos : option Point) (toX toY : Q) : Gen MouseMove :=
  let viewport := match viewportSize with
                  | Some v => v
                  | None => {| width := 1280; height := 720 |}
                  end in
  let* currentPos :=
    match lastMousePos with
    | Some p => gret p
    | None =>
        let* x := rand 0 (width viewport) in
        let* y := rand 0 (height viewport) in
        gret {| px := inject_Z x; py := inject_Z y |}
    end in
  let target := {| px := toX; py := toY |} in
  let steps := stepsFor currentPos target in
  let* path := generateMousePath currentPos target steps in
  let* delays := moveDelays path in
  gret {| mm_start := currentPos; mm_path := path; mm_delays := delays;
          mm_lastMousePos := target |}.

(** ** Typing *)

(** A character of a JavaScript string: one UTF-16 code unit. *)
Definition char : Type := N.

Definition code (a : ascii) : char := N_of_ascii a.

Definition chr_space : char := code " ".
Definition chr_newline : char := code "010".
Definition chr_dot : char := code ".".

(** [/[A-Z]/.test(char)] *)
Definition isUpper (c : char) : bool := (code "A" <=? c)%N && (c <=? code "Z")%N.

(** [/[0-9]/.test(char)] *)
Definition isDigit (c : char) : bool := (code "0" <=? c)%N && (c <=? code "9")%N.

(** The characters of the class [[!@#$%^&*()]]. *)
Definition symbolSet : list char :=
  map code (list_ascii_of_string "!@#$%^&*()").

(** [/[!@#$%^&*()]/.test(char)] *)
Definition isSymbol (c : char) : bool := existsb (N.eqb c) symbolSet.

(** The delay chosen by the chain of tests on the character. *)
Definition keyDelay (c : char) : Gen Z :=
  if (c =? chr_space)%N then rand 30 80
  else if (c =? chr_newline)%N || (c =? chr_dot)%N then rand 100 250
  else if isUpper c then rand 60 130
  else if isDigit c then rand 70 140
  else if isSymbol c then rand 80 160
  else rand 30 100.

(** [if (Math.random() < 0.05) delay += rand(200, 500)] *)
Definition thinkingPause (delay : Z) : Gen Z :=
  let* r := Math_random in
  if Qlt_le_dec r (5 # 100) then
    let* extra := rand 200 500 in
    gret (delay + extra)
  else gret delay.

(** One keystroke of [humanType]: the character typed, the delay chosen
    for its class, and the time actually slept after it. *)
Record Keystroke : Type := mkKeystroke {
  ks_char : char;
  ks_classDelay : Z;
  ks_sleep : Z
}.

(** [humanType(page, text)]: the loop over the characters of [text]. *)
Fixpoint humanType (text : list char) : Gen (list Keystroke) :=
  match text with
  | [] => gret []
  | c :: rest =>
      let* d := keyDelay c in
      let* d' := thinkingPause d in
      let* ks := humanType rest in
      gret ({| ks_char := c; ks_classDelay := d; ks_sleep := d' |} :: ks)
  end.

End WithRandom.

(** A random source for examples: every draw is 1/2. *)
Definition steady : nat -> Q := fun _ => (1 # 2)%Q.


(** Floating-point operations for examples: no rounding, and a square root
    that is exact on the squares of whole numbers (the whole part of the
    root of the whole part elsewhere). *)
Definition exactFloat : Float :=
  {| fsub := Qminus;
     fadd := Qplus;
     fdiv := Qdiv;
     Math_pow := Qpower;
     Math_sqrt := fun a => inject_Z (Z.sqrt (Qfloor a)) |}.

(** The code units of an ASCII text. *)
Definition codes (s : string) : list char := map code (list_ascii_of_string s).

End Human.

(* ================================================================== *)
(** * The browser manager *)
(* ================================================================== *)

Module Manager.

(** ** Values *)

(** A page object of the driver, and a JavaScript array object. *)
Definition PageHandle : Type := nat.
Definition Loc : Type := nat.

Inductive Engine : Type := chromium | firefox | webkit.

Definition engineName (e : Engine) : string :=
  match e with
  | chromium => "chromium"
  | firefox => "firefox"
  | webkit => "webkit"
  end.

(** A thrown value: its [message], when it has one, and the marker
    property [needsCdpFallback] that [launchPersistent] sets. *)
Record JsError : Type := mkError {
  message : option string;
  needsCdpFallback : bool
}.

(** [new Error(msg)] *)
Definition Error (msg : string) : JsError :=
  {| message := Some msg; needsCdpFallback := false |}.

(** The fields of [BrowserConnectionOptions] that the modelled methods read. *)
Module Opt.
Record t : Type := mk {
  cdpUrl : option string;
  userDataDir : option string;
  executablePath : option string;
  headless : option bool;
  browser : option Engine;
  proxyServer : option string;
  device : option string;
  recordVideo : option bool;
  channel : option string
}.
End Opt.

Record ConsoleLogEntry : Type := mkConsoleLogEntry {
  cl_type : string;
  cl_text : string;
  cl_url : string;
  cl_timestamp : Z
}.

Record NetworkLogEntry : Type := mkNetworkLogEntry {
  nl_url : string;
  nl_method : string;
  nl_status : option Z;
  nl_resourceType : string;
  nl_timestamp : Z;
  nl_duration : option Z
}.

(** The value stored in [pendingRequests] by the request listener. *)
Record PendingRequest : Type := mkPendingRequest {
  pr_url : string;
  pr_method : string;
  pr_resourceType : string;
  pr_timestamp : Z
}.

Record Cookie : Type := mkCookie {
  ck_name : string;
  ck_value : string;
  ck_domain : string
}.

(** One element of [state.origins]. *)
Record OriginState : Type := mkOriginState {
  os_origin : string;
  os_localStorage : option (list (string * string))
}.

(** The parsed storage-state file; a field is [None] when the JSON object
    lacks it. *)
Record StorageState : Type := mkStorageState {
  ss_cookies : option (list Cookie);
  ss_origins : option (list OriginState)
}.

(** ** Events of the driver *)

Record ConsoleMessage : Type := mkConsoleMessage {
  msg_type : string;
  msg_text : string;
  msg_location_url : option string
}.

Record Request : Type := mkRequest {
  req_url : string;
  req_method : string;
  req_resourceType : string
}.

Record Response : Type := mkResponse {
  resp_url : string;
  resp_status : Z
}.

(** An event emitted by a page, with the readings of [Date.now()] that its
    listener takes. *)
Inductive PageEvent : Type :=
  | EvConsole (msg : ConsoleMessage) (now : Z)
  | EvRequest (request : Request) (now : Z)
  | EvResponse (response : Response) (now now' : Z)
  | EvClose.

(** ** Calls made on the driver and on the operating system *)

Inductive Action : Type :=
  | ActConnectOverCDP (url : string)
  | ActNewContext
  | ActLaunchPersistentContext (e : Engine) (dir : string)
  | ActLaunch (e : Engine)
  | ActAddInitScript
  | ActRoute (pattern : string)
  | ActOnPage                                (* context.on("page", ...) *)
  | ActPageOn (page : PageHandle) (pageId : Z) (* the page.on(...) calls of setupPageTracking *)
  | ActSpawn (path : string) (args : list string)
  | ActFetch (url : string)
  | ActKill
  | ActNewPage (page : PageHandle)
  | ActGoto (page : PageHandle) (url : string)
  | ActClosePage (page : PageHandle)
  | ActBringToFront (page : PageHandle)
  | ActAddCookies (cookies : list Cookie)
  | ActEvaluate (page : PageHandle) (originUrl : string)
  | ActWriteFile (path : string) (state : StorageState)
  | ActCloseContext
  | ActCloseBrowser.

(** How the outside world answers: the outcome of every call that can fail
    or that returns data the manager did not produce. *)
Record Driver : Type := mkDriver {
  (** [chromium.connectOverCDP(url)]: rejects, or resolves to a browser
      whose contexts are given by the URLs of the pages open in each. *)
  connectOverCDP : string -> JsError + list (list string);
  (** [browserType.launchPersistentContext(dir, ...)]: rejects, or resolves
      to a context with the given pages open. *)
  launchPersistentContext : Engine -> string -> JsError + list string;
  (** [browserType.launch(...)]: [Some e] when it rejects with [e]. *)
  launch : Engine -> option JsError;
  (** whether the [n]-th poll of [/json/version] resolves with [resp.ok] *)
  fetchOk : nat -> bool;
  existsSync : string -> bool;
  (** [process.env.LOCALAPPDATA], as it prints in a template string *)
  LOCALAPPDATA : string;
  (** [page.goto(url)]: [Some e] when it rejects with [e] *)
  gotoError : PageHandle -> string -> option JsError;
  (** the origin of the document at a URL *)
  originOf : string -> string;
  (** whether the context emits its page event also for a page that the
      manager opens with [ctx.newPage()], before that call returns *)
  announcesNewPage : bool;
  (** whether [page.url()] / [page.title()] throws for this page *)
  pageGone : PageHandle -> bool;
  pageTitle : PageHandle -> string;
  (** [JSON.parse(readFileSync(path))] *)
  readJson : string -> JsError + StorageState
}.

(** ** The state *)

Inductive Browser : Type :=
  | CdpBrowser (url : string)
  | LaunchedBrowser (e : Engine).

Inductive Context : Type :=
  | ReusedContext (url : string)            (* contexts[0] of an attached browser *)
  | FreshContext (b : Browser)              (* browser.newContext(...) *)
  | PersistentContext (e : Engine) (dir : string).

(** The fields of the class. *)
Record BrowserManager : Type := mkBrowserManager {
  browser : option Browser;
  context : option Context;
  pages : gmap Z PageHandle;
  nextPageId : Z;
  options : Opt.t;
  consoleLogs : gmap Z Loc;
  networkLogs : gmap Z Loc;
  blockedPatterns : list string;
  isRecordingVideo : bool;
  chromeProcess : bool            (* whether a spawned process is held *)
}.

(** What lives outside the manager object: the arrays it allocates, the
    closures it registers, and the state of the browser. *)
Record Env : Type := mkEnv {
  consoleArrays : gmap Loc (list ConsoleLogEntry);
  networkArrays : gmap Loc (list NetworkLogEntry);
  nextLoc : Loc;
  (** the [pendingRequests] map of each call of [setupPageTracking], by the
      page id that call captured *)
  pendingRequests : gmap Z (gmap string PendingRequest);
  (** the page ids captured by the listeners installed on each page, in
      order of registration *)
  listeners : gmap PageHandle (list Z);
  nextHandle : PageHandle;
  (** [context.pages()] *)
  contextPages : list PageHandle;
  pageUrl : gmap PageHandle string;
  cookies : list Cookie;
  (** the local-storage area of each origin *)
  localStorage : gmap string (gmap string string);
  trace : list Action
}.

Record World : Type := mkWorld { mgr : BrowserManager; env : Env }.

(** Field updates. *)

Definition set_browser (v : option Browser) (m : BrowserManager) : BrowserManager :=
  mkBrowserManager v (context m) (pages m) (nextPageId m) (options m)
    (consoleLogs m) (networkLogs m) (blockedPatterns m) (isRecordingVideo m)
    (chromeProcess m).

Definition set_context (v : option Context) (m : BrowserManager) : BrowserManager :=
  mkBrowserManager (browser m) v (pages m) (nextPageId m) (options m)
    (consoleLogs m) (networkLogs m) (blockedPatterns m) (isRecordingVideo m)
    (chromeProcess m).

Definition set_pages (v : gmap Z PageHandle) (m : BrowserManager) : BrowserManager :=
  mkBrowserManager (browser m) (context m) v (nextPageId m) (options m)
    (consoleLogs m) (networkLogs m) (blockedPatterns m) (isRecordingVideo m)
    (chromeProcess m).

Definition set_nextPageId (v : Z) (m : BrowserManager) : BrowserManager :=
  mkBrowserManager (browser m) (context m) (pages m) v (options m)
    (consoleLogs m) (networkLogs m) (blockedPatterns m) (isRecordingVideo m)
    (chromeProcess m).

Definition set_consoleLogs (v : gmap Z Loc) (m : BrowserManager) : BrowserManager :=
  mkBrowserManager (browser m) (context m) (pages m) (nextPageId m) (options m)
    v (networkLogs m) (blockedPatterns m) (isRecordingVideo m)
    (chromeProcess m).

Definition set_networkLogs (v : gmap Z Loc) (m : BrowserManager) : BrowserManager :=
  mkBrowserManager (browser m) (context m) (pages m) (nextPageId m) (options m)
    (consoleLogs m) v (blockedPatterns m) (isRecordingVideo m)
    (chromeProcess m).

Definition set_blockedPatterns (v : list string) (m : BrowserManager) : BrowserManager :=
  mkBrowserManager (browser m) (context m) (pages m) (nextPageId m) (options m)
    (consoleLogs m) (networkLogs m) v (isRecordingVideo m)
    (chromeProcess m).

Definition set_isRecordingVideo (v : bool) (m : BrowserManager) : BrowserManager :=
  mkBrowserManager (browser m) (context m) (pages m) (nextPageId m) (options m)
    (consoleLogs m) (networkLogs m) (blockedPatterns m) v
    (chromeProcess m).

Definition set_chromeProcess (v : bool) (m : BrowserManager) : BrowserManager :=
  mkBrowserManager (browser m) (context m) (pages m) (nextPageId m) (options m)
    (consoleLogs m) (networkLogs m) (blockedPatterns m) (isRecordingVideo m)
    v.

Definition set_options (v : Opt.t) (m : BrowserManager) : BrowserManager :=
  mkBrowserManager (browser m) (context m) (pages m) (nextPageId m) v
    (consoleLogs m) (networkLogs m) (blockedPatterns m) (isRecordingVideo m)
    (chromeProcess m).

Definition set_consoleArrays (v : gmap Loc (list ConsoleLogEntry)) (e : Env) : Env :=
  mkEnv v (networkArrays e) (nextLoc e) (pendingRequests e) (listeners e)
    (nextHandle e) (contextPages e) (pageUrl e) (cookies e) (localStorage e)
    (trace e).

Definition set_networkArrays (v : gmap Loc (list NetworkLogEntry)) (e : Env) : Env :=
  mkEnv (consoleArrays e) v (nextLoc e) (pendingRequests e) (listeners e)
    (nextHandle e) (contextPages e) (pageUrl e) (cookies e) (localStorage e)
    (trace e).

Definition set_nextLoc (v : Loc) (e : Env) : Env :=
  mkEnv (consoleArrays e) (networkArrays e) v (pendingRequests e) (listeners e)
    (nextHandle e) (contextPages e) (pageUrl e) (cookies e) (localStorage e)
    (trace e).

Definition set_pendingRequests (v : gmap Z (gmap string PendingRequest)) (e : Env) : Env :=
  mkEnv (consoleArrays e) (networkArrays e) (nextLoc e) v (listeners e)
    (nextHandle e) (contextPages e) (pageUrl e) (cookies e) (localStorage e)
    (trace e).

Definition set_listeners (v : gmap PageHandle (list Z)) (e : Env) : Env :=
  mkEnv (consoleArrays e) (networkArrays e) (nextLoc e) (pendingRequests e) v
    (nextHandle e) (contextPages e) (pageUrl e) (cookies e) (localStorage e)
    (trace e).

Definition set_nextHandle (v : PageHandle) (e : Env) : Env :=
  mkEnv (consoleArrays e) (networkArrays e) (nextLoc e) (pendingRequests e)
    (listeners e) v (contextPages e) (pageUrl e) (cookies e) (localStorage e)
    (trace e).

Definition set_contextPages (v : list PageHandle) (e : Env) : Env :=
  mkEnv (consoleArrays e) (networkArrays e) (nextLoc e) (pendingRequests e)
    (listeners e) (nextHandle e) v (pageUrl e) (cookies e) (localStorage e)
    (trace e).

Definition set_pageUrl (v : gmap PageHandle string) (e : Env) : Env :=
  mkEnv (consoleArrays e) (networkArrays e) (nextLoc e) (pendingRequests e)
    (listeners e) (nextHandle e) (contextPages e) v (cookies e) (localStorage e)
    (trace e).

Definition set_cookies (v : list Cookie) (e : Env) : Env :=
  mkEnv (consoleArrays e) (networkArrays e) (nextLoc e) (pendingRequests e)
    (listeners e) (nextHandle e) (contextPages e) (pageUrl e) v (localStorage e)
    (trace e).

Definition set_localStorage (v : gmap string (gmap string string)) (e : Env) : Env :=
  mkEnv (consoleArrays e) (networkArrays e) (nextLoc e) (pendingRequests e)
    (listeners e) (nextHandle e) (contextPages e) (pageUrl e) (cookies e) v
    (trace e).

Definition set_trace (v : list Action) (e : Env) : Env :=
  mkEnv (consoleArrays e) (networkArrays e) (nextLoc e) (pendingRequests e)
    (listeners e) (nextHandle e) (contextPages e) (pageUrl e) (cookies e)
    (localStorage e) v.

(** ** Computations that read and write the world and may throw *)

Inductive Result (A : Type) : Type :=
  | Ok (a : A)
  | Throw (e : JsError).
Arguments Ok {A} a.
Arguments Throw {A} e.

Definition M (A : Type) : Type := World -> Result A * World.

Definition ret {A} (a : A) : M A := fun w => (Ok a, w).

Definition throw {A} (e : JsError) : M A := fun w => (Throw e, w).

Definition bind {A B} (m : M A) (f : A -> M B) : M B :=
  fun w =>
    match m w with
    | (Ok a, w') => f a w'
    | (Throw e, w') => (Throw e, w')
    end.

(** [try { m } catch (err) { h err }]: what [m] did before it threw stays
    done. *)
Definition tryCatch {A} (m : M A) (h : JsError -> M A) : M A :=
  fun w =>
    match m w with
    | (Ok a, w') => (Ok a, w')
    | (Throw e, w') => h e w'
    end.

Notation "'let*' x ':=' m 'in' f" := (bind m (fun x => f))
  (at level 10, x name, m at level 100, f at level 200).
Notation "m ';;' f" := (bind m (fun _ => f))
  (at level 100, f at level 200, right associativity).

Definition this : M BrowserManager := fun w => (Ok (mgr w), w).
Definition getEnv : M Env := fun w => (Ok (env w), w).

Definition update (f : BrowserManager -> BrowserManager) : M unit :=
  fun w => (Ok tt, mkWorld (f (mgr w)) (env w)).

Definition updateEnv (f : Env -> Env) : M unit :=
  fun w => (Ok tt, mkWorld (mgr w) (f (env w))).

(** Record a call on the driver. *)
Definition emit (a : Action) : M unit :=
  updateEnv (fun e => set_trace (trace e ++ [a]) e).

(** [for (const x of l) body(x)] *)
Fixpoint forEach {A} (l : list A) (body : A -> M unit) : M unit :=
  match l with
  | [] => ret tt
  | x :: rest => body x ;; forEach rest body
  end.

Definition when (b : bool) (m : M unit) : M unit := if b then m else ret tt.

(** ** JavaScript helpers *)

(** [hay.includes(needle)] *)
Fixpoint includes (needle hay : string) : bool :=
  String.prefix needle hay ||
  match hay with
  | EmptyString => false
  | String _ rest => includes needle rest
  end.

(** Truthiness of an optional string: absent and empty are falsy. *)
Definition truthy (s : option string) : bool :=
  match s with
  | Some s => negb (String.eqb s "")
  | None => false
  end.

(** [a ?? b] *)
Definition nullish {A} (a : option A) (b : A) : A :=
  match a with
  | Some v => v
  | None => b
  end.

(** [s || d] for an optional string *)
Definition orElse (s : option string) (d : string) : string :=
  if truthy s then nullish s d else d.

(** [Math.max(...l)]; [None] stands for [-Infinity]. *)
Definition Math_max (l : list Z) : option Z :=
  foldr (fun k acc => Some (match acc with Some a => Z.max k a | None => k end))
        None l.

(** ** The section of the driver *)

Section WithDriver.

Variable drv : Driver.

(** [constructor(options)]: the defaults, overridden by the given options. *)
Definition new_BrowserManager (o : Opt.t) : BrowserManager :=
  {| browser := None;
     context := None;
     pages := ∅;
     nextPageId := 1;
     options :=
       Opt.mk (Opt.cdpUrl o) (Opt.userDataDir o) (Opt.executablePath o)
         (Some (nullish (Opt.headless o) false))
         (Some (nullish (Opt.browser o) chromium))
         (Opt.proxyServer o) (Opt.device o) (Opt.recordVideo o) (Opt.channel o);
     consoleLogs := ∅;
     networkLogs := ∅;
     blockedPatterns := [];
     isRecordingVideo := false;
     chromeProcess := false |}.

Definition emptyEnv : Env :=
  {| consoleArrays := ∅; networkArrays := ∅; nextLoc := 0%nat;
     pendingRequests := ∅; listeners := ∅; nextHandle := 0%nat;
     contextPages := []; pageUrl := ∅; cookies := []; localStorage := ∅;
     trace := [] |}.

(** The world right after [new BrowserManager(options)]. *)
Definition initial (o : Opt.t) : World :=
  {| mgr := new_BrowserManager o; env := emptyEnv |}.

(** [getBrowserType()] *)
Definition getBrowserType (m : BrowserManager) : Engine :=
  match Opt.browser (options m) with
  | Some firefox => firefox
  | Some webkit => webkit
  | Some chromium | None => chromium
  end.

(** [buildContextOptions()].  The object it returns is only handed to the
    driver; what remains is its one write to the manager. *)
Definition buildContextOptions : M unit :=
  let* m := this in
  when (nullish (Opt.recordVideo (options m)) false)
       (update (set_isRecordingVideo true)).

(** *** Page tracking *)

(** [[]] as a new console buffer *)
Definition newConsoleArray : M Loc :=
  let* e := getEnv in
  let l := nextLoc e in
  updateEnv (fun e => set_nextLoc (S l) (set_consoleArrays (<[l := []]> (consoleArrays e)) e)) ;;
  ret l.

(** [[]] as a new network buffer *)
Definition newNetworkArray : M Loc :=
  let* e := getEnv in
  let l := nextLoc e in
  updateEnv (fun e => set_nextLoc (S l) (set_networkArrays (<[l := []]> (networkArrays e)) e)) ;;
  ret l.

(** [setupPageTracking(page, pageId)] *)
Definition setupPageTracking (page : PageHandle) (pageId : Z) : M unit :=
  let* c := newConsoleArray in
  update (fun m => set_consoleLogs (<[pageId := c]> (consoleLogs m)) m) ;;
  let* n := newNetworkArray in
  update (fun m => set_networkLogs (<[pageId := n]> (networkLogs m)) m) ;;
  updateEnv (fun e => set_pendingRequests (<[pageId := ∅]> (pendingRequests e)) e) ;;
  updateEnv (fun e =>
    set_listeners (<[page := default [] (listeners e !! page) ++ [pageId]]> (listeners e)) e) ;;
  emit (ActPageOn page pageId).

(** The three statements that every registration site repeats:
    [const id = this.nextPageId++; this.pages.set(id, page);
     this.setupPageTracking(page, id);] *)
Definition trackPage (page : PageHandle) : M Z :=
  let* m := this in
  let id := nextPageId m in
  update (set_nextPageId (id + 1)) ;;
  update (fun m => set_pages (<[id := page]> (pages m)) m) ;;
  setupPageTracking page id ;;
  ret id.

(** The entry that the console listener pushes. *)
Definition consoleEntry (msg : ConsoleMessage) (now : Z) : ConsoleLogEntry :=
  {| cl_type := msg_type msg;
     cl_text := msg_text msg;
     cl_url := orElse (msg_location_url msg) "";
     cl_timestamp := now |}.

(** The listener that every connection method installs with
    [context.on("page", ...)]. *)
Definition onPage (page : PageHandle) : M unit :=
  let* _ := trackPage page in
  ret tt.

(** The listener of the console event installed for [pageId]. *)
Definition onConsole (pageId : Z) (msg : ConsoleMessage) (now : Z) : M unit :=
  let* m := this in
  let* e := getEnv in
  match consoleLogs m !! pageId with
  | Some l =>
      let logs := default [] (consoleArrays e !! l) in
      if (Z.of_nat (length logs) <? 500) then
        updateEnv (fun e =>
          set_consoleArrays (<[l := logs ++ [consoleEntry msg now]]> (consoleArrays e)) e)
      else ret tt
  | None => ret tt
  end.

(** The listener of the request event installed for [pageId]. *)
Definition onRequest (pageId : Z) (request : Request) (now : Z) : M unit :=
  let info := {| pr_url := req_url request;
                 pr_method := req_method request;
                 pr_resourceType := req_resourceType request;
                 pr_timestamp := now |} in
  updateEnv (fun e =>
    set_pendingRequests
      (<[pageId := <[req_url request := info]> (default ∅ (pendingRequests e !! pageId))]>
         (pendingRequests e)) e).

(** The entry that the response listener pushes; [reqInfo] is what the
    pending map holds for the URL of the response. *)
Definition networkEntry (reqInfo : option PendingRequest) (response : Response)
    (now now' : Z) : NetworkLogEntry :=
  {| nl_url := resp_url response;
     nl_method := orElse (pr_method <$> reqInfo) "GET";
     nl_status := Some (resp_status response);
     nl_resourceType := orElse (pr_resourceType <$> reqInfo) "other";
     nl_timestamp := now;
     nl_duration := (fun r => now' - pr_timestamp r) <$> reqInfo |}.

(** The listener of the response event installed for [pageId]. *)
Definition onResponse (pageId : Z) (response : Response) (now now' : Z) : M unit :=
  let* m := this in
  let* e := getEnv in
  let pending := default ∅ (pendingRequests e !! pageId) in
  let reqInfo := pending !! resp_url response in
  match networkLogs m !! pageId with
  | Some l =>
      let logs := default [] (networkArrays e !! l) in
      if (Z.of_nat (length logs) <? 500) then
        updateEnv (fun e =>
          set_networkArrays
            (<[l := logs ++ [networkEntry reqInfo response now now']]> (networkArrays e)) e)
      else ret tt
  | None => ret tt
  end ;;
  updateEnv (fun e =>
    set_pendingRequests (<[pageId := delete (resp_url response) pending]> (pendingRequests e)) e).

(** The listener of the close event installed for [pageId]. *)
Definition onClose (pageId : Z) : M unit :=
  update (fun m => set_consoleLogs (delete pageId (consoleLogs m)) m) ;;
  update (fun m => set_networkLogs (delete pageId (networkLogs m)) m).

(** A page emits an event: every listener installed on it runs, in order
    of registration. *)
Definition pageEmit (page : PageHandle) (ev : PageEvent) : M unit :=
  let* e := getEnv in
  forEach (default [] (listeners e !! page)) (fun pageId =>
    match ev with
    | EvConsole msg now => onConsole pageId msg now
    | EvRequest request now => onRequest pageId request now
    | EvResponse response now now' => onResponse pageId response now now'
    | EvClose => onClose pageId
    end).

(** *** Connection methods *)

Definition STEALTH_ARGS : list string :=
  ["--disable-blink-features=AutomationControlled"].

Definition newline : string := String "010" EmptyString.

(** A context becomes the current one: its open pages, given by their
    URLs, are the pages that [context.pages()] lists from now on. *)
Definition openContext (urls : list string) : M unit :=
  updateEnv (set_contextPages []) ;;
  forEach urls (fun url =>
    updateEnv (fun e =>
      let page := nextHandle e in
      set_nextHandle (S page)
        (set_pageUrl (<[page := url]> (pageUrl e))
           (set_contextPages (contextPages e ++ [page]) e)))).

(** [for (const page of this.context.pages()) { ...register... }] *)
Definition trackExistingPages : M unit :=
  let* e := getEnv in
  forEach (contextPages e) (fun page => let* _ := trackPage page in ret tt).

(** [connectCDP(cdpUrl?)] *)
Definition connectCDP (cdpUrl : option string) : M unit :=
  let* m := this in
  let url := nullish cdpUrl (nullish (Opt.cdpUrl (options m)) "http://localhost:9222") in
  emit (ActConnectOverCDP url) ;;
  match connectOverCDP drv url with
  | inl err => throw err
  | inr contexts =>
      update (set_browser (Some (CdpBrowser url))) ;;
      match contexts with
      | ctx0 :: _ =>
          update (set_context (Some (ReusedContext url))) ;;
          openContext ctx0
      | [] =>
          emit ActNewContext ;;
          update (set_context (Some (FreshContext (CdpBrowser url)))) ;;
          openContext []
      end ;;
      trackExistingPages ;;
      emit ActOnPage
  end.

(** The candidate paths of [resolveChromePath] for a channel. *)
Definition chromeCandidates (channel : string) : list string :=
  let chrome :=
    ["C:\Program Files\Google\Chrome\Application\chrome.exe";
     "C:\Program Files (x86)\Google\Chrome\Application\chrome.exe";
     LOCALAPPDATA drv +:+ "\Google\Chrome\Application\chrome.exe"] in
  if String.eqb channel "chrome" then chrome
  else if String.eqb channel "chrome-beta" then
    ["C:\Program Files\Google\Chrome Beta\Application\chrome.exe";
     "C:\Program Files (x86)\Google\Chrome Beta\Application\chrome.exe"]
  else if String.eqb channel "msedge" then
    ["C:\Program Files (x86)\Microsoft\Edge\Application\msedge.exe";
     "C:\Program Files\Microsoft\Edge\Application\msedge.exe"]
  else if String.eqb channel "msedge-dev" then
    ["C:\Program Files (x86)\Microsoft\Edge Dev\Application\msedge.exe"]
  else chrome.

(** [resolveChromePath()] *)
Definition resolveChromePath (m : BrowserManager) : string :=
  if truthy (Opt.executablePath (options m)) then
    nullish (Opt.executablePath (options m)) ""
  else
    let channel := orElse (Opt.channel (options m)) "chrome" in
    match List.find (existsSync drv) (chromeCandidates channel) with
    | Some p => p
    | None => if String.eqb channel "msedge" then "msedge.exe" else "chrome.exe"
    end.

Definition maxWait : Z := 15000.
Definition interval : Z := 500.

(** The polling loop of [spawnChromeAndConnect]; it returns the final value
    of [waited].  [fuel] bounds the number of iterations. *)
Fixpoint pollLoop (fuel : nat) (cdpUrl : string) (attempt : nat) (waited : Z) : M Z :=
  match fuel with
  | O => ret waited
  | S fuel' =>
      if waited <? maxWait then
        emit (ActFetch (cdpUrl +:+ "/json/version")) ;;
        if fetchOk drv attempt then ret waited
        else pollLoop fuel' cdpUrl (S attempt) (waited + interval)
      else ret waited
  end.

(** [spawnChromeAndConnect(userDataDir, port)]; [port] is the port as it
    prints, ["9222"] by default. *)
Definition spawnChromeAndConnect (userDataDir : string) (port : string) : M string :=
  let* m := this in
  let chromePath := resolveChromePath m in
  let args :=
    ["--remote-debugging-port=" +:+ port; "--user-data-dir=" +:+ userDataDir]
      ++ STEALTH_ARGS
      ++ (if nullish (Opt.headless (options m)) false then ["--headless=new"] else []) in
  emit (ActSpawn chromePath args) ;;
  update (set_chromeProcess true) ;;
  let cdpUrl := "http://localhost:" +:+ port in
  let* waited := pollLoop (Z.to_nat (maxWait / interval)) cdpUrl 0 0 in
  if maxWait <=? waited then
    throw (Error "Chrome did not start within 15s. Ensure no other Chrome instances are running and try again.")
  else
    connectCDP (Some cdpUrl) ;;
    ret ("Launched real " +:+ orElse (Opt.channel (options m)) "chrome"
         +:+ " with your profile and connected via CDP at " +:+ cdpUrl).

(** [err.message?.includes(s)] *)
Definition messageIncludes (err : JsError) (s : string) : bool :=
  match message err with
  | Some msg => includes s msg
  | None => false
  end.

(** The text of the error thrown for a locked profile. *)
Definition profileLockedMessage (original : string) : string :=
  "Chrome profile is locked — close ALL Chrome windows first, then retry." +:+ newline
  +:+ "Or use CDP instead: start Chrome with --remote-debugging-port=9222 and use --cdp http://localhost:9222" +:+ newline
  +:+ "Original error: " +:+ original.

(** The [catch] block of [launchPersistent]: the error it throws for the
    error [err] of the launch. *)
Definition launchPersistentCatch (err : JsError) : JsError :=
  if messageIncludes err "non-default data directory"
     || messageIncludes err "remote debugging" then
    {| message := Some ("NEEDS_CDP_FALLBACK: " +:+ nullish (message err) "undefined");
       needsCdpFallback := true |}
  else if messageIncludes err "lock"
          || messageIncludes err "already running"
          || messageIncludes err "SingletonLock" then
    Error (profileLockedMessage (nullish (message err) "undefined"))
  else err.

(** [launchPersistent(userDataDir?)] *)
Definition launchPersistent (userDataDir : option string) : M unit :=
  let* m := this in
  let dir := nullish userDataDir (nullish (Opt.userDataDir (options m)) "") in
  if String.eqb dir "" then
    throw (Error "userDataDir is required for persistent launch")
  else
    let browserType := getBrowserType m in
    buildContextOptions ;;
    emit (ActLaunchPersistentContext browserType dir) ;;
    match launchPersistentContext drv browserType dir with
    | inl err => throw (launchPersistentCatch err)
    | inr urls =>
        update (set_context (Some (PersistentContext browserType dir))) ;;
        openContext urls ;;
        emit ActAddInitScript ;;
        trackExistingPages ;;
        emit ActOnPage
    end.

(** [getContext()] *)
Definition getContext : M Context :=
  let* m := this in
  match context m with
  | Some ctx => ret ctx
  | None => throw (Error "Browser not connected. Call browser_connect first.")
  end.

(** [applyRouteBlocking()] *)
Definition applyRouteBlocking : M unit :=
  let* _ := getContext in
  let* m := this in
  forEach (blockedPatterns m) (fun pattern => emit (ActRoute pattern)).

(** [launchTemporary()] *)
Definition launchTemporary : M unit :=
  let* m := this in
  let browserType := getBrowserType m in
  buildContextOptions ;;
  emit (ActLaunch browserType) ;;
  match launch drv browserType with
  | Some err => throw err
  | None =>
      update (set_browser (Some (LaunchedBrowser browserType))) ;;
      emit ActNewContext ;;
      update (set_context (Some (FreshContext (LaunchedBrowser browserType)))) ;;
      openContext [] ;;
      emit ActAddInitScript ;;
      let* m := this in
      when (0 <? Z.of_nat (length (blockedPatterns m))) applyRouteBlocking ;;
      emit ActOnPage
  end.

(** [this.options.browser || "chromium"] *)
Definition browserName (m : BrowserManager) : string :=
  engineName (nullish (Opt.browser (options m)) chromium).

(** [connect()] *)
Definition connect : M string :=
  let* m := this in
  if truthy (Opt.cdpUrl (options m)) then
    connectCDP None ;;
    ret ("Connected via CDP to " +:+ nullish (Opt.cdpUrl (options m)) "")
  else if truthy (Opt.userDataDir (options m)) then
    tryCatch
      (launchPersistent None ;;
       ret ("Launched persistent " +:+ browserName m +:+ " with profile: "
            +:+ nullish (Opt.userDataDir (options m)) ""))
      (fun err =>
         if needsCdpFallback err then
           spawnChromeAndConnect (nullish (Opt.userDataDir (options m)) "") "9222"
         else throw err)
  else
    tryCatch
      (connectCDP (Some "http://localhost:9222") ;;
       ret "Connected via CDP to http://localhost:9222")
      (fun _ =>
         launchTemporary ;;
         let device := if truthy (Opt.device (options m))
                       then " (device: " +:+ nullish (Opt.device (options m)) "" +:+ ")" else "" in
         let proxy := if truthy (Opt.proxyServer (options m))
                      then " (proxy: " +:+ nullish (Opt.proxyServer (options m)) "" +:+ ")" else "" in
         let channel := if truthy (Opt.channel (options m))
                        then " (channel: " +:+ nullish (Opt.channel (options m)) "" +:+ ")" else "" in
         ret ("Launched " +:+ browserName m +:+ channel +:+ device +:+ proxy)).

(** *** Page management *)

(** The value [{ id, page }] returned by [getOrCreatePage] and [newPage];
    [rp_page] is [None] when the JavaScript value is [undefined]. *)
Record RegisteredPage : Type := mkRegisteredPage {
  rp_id : Z;
  rp_page : option PageHandle
}.

(** [ctx.newPage()]: the browser opens a blank page in the context; when
    the driver announces the page to the context's listeners, the listener
    installed at connection runs before the call returns. *)
Definition ctx_newPage : M PageHandle :=
  let* e := getEnv in
  let page := nextHandle e in
  updateEnv (fun e =>
    set_nextHandle (S page)
      (set_pageUrl (<[page := "about:blank"]> (pageUrl e))
         (set_contextPages (contextPages e ++ [page]) e))) ;;
  emit (ActNewPage page) ;;
  when (announcesNewPage drv) (onPage page) ;;
  ret page.

(** [page.goto(url, ...)] *)
Definition page_goto (page : PageHandle) (url : string) : M unit :=
  emit (ActGoto page url) ;;
  match gotoError drv page url with
  | Some err => throw err
  | None => updateEnv (fun e => set_pageUrl (<[page := url]> (pageUrl e)) e)
  end.

(** [newPage(url?)] *)
Definition newPage (url : option string) : M RegisteredPage :=
  let* _ := getContext in
  let* page := ctx_newPage in
  let* id := trackPage page in
  when (truthy url) (page_goto page (nullish url "")) ;;
  ret {| rp_id := id; rp_page := Some page |}.

(** [getOrCreatePage(pageId?)] *)
Definition getOrCreatePage (pageId : option Z) : M RegisteredPage :=
  let* m := this in
  match pageId with
  | Some pageId =>
      match pages m !! pageId with
      | Some page => ret {| rp_id := pageId; rp_page := Some page |}
      | None =>
          throw (Error ("Page " +:+ pretty pageId
                        +:+ " not found. Use list_pages to see available pages."))
      end
  | None =>
      if (0 <? Z.of_nat (size (pages m))) then
        match Math_max (fst <$> map_to_list (pages m)) with
        | Some lastId => ret {| rp_id := lastId; rp_page := pages m !! lastId |}
        | None => ret {| rp_id := 0; rp_page := None |}  (* not reached: the map has a key *)
        end
      else newPage None
  end.

(** [page.close()] *)
Definition page_close (page : PageHandle) : M unit :=
  emit (ActClosePage page) ;;
  updateEnv (fun e => set_contextPages (List.filter (fun p => negb (Nat.eqb p page)) (contextPages e)) e).

(** [closePage(pageId)] *)
Definition closePage (pageId : Z) : M unit :=
  let* m := this in
  match pages m !! pageId with
  | Some page =>
      page_close page ;;
      update (fun m => set_pages (delete pageId (pages m)) m) ;;
      update (fun m => set_consoleLogs (delete pageId (consoleLogs m)) m) ;;
      update (fun m => set_networkLogs (delete pageId (networkLogs m)) m)
  | None => ret tt
  end.

(** [focusPage(pageId)] *)
Definition focusPage (pageId : Z) : M unit :=
  let* m := this in
  match pages m !! pageId with
  | Some page => emit (ActBringToFront page)
  | None => ret tt
  end.

Record PageSummary : Type := mkPageSummary {
  ps_id : Z;
  ps_url : string;
  ps_title : string
}.

(** [listPages()] and [listPagesWithTitles()] ([titles] tells which): a
    page whose query throws is deleted from the registry.  The entries come
    in the order of [map_to_list], not in the order of insertion. *)
Definition listPages (titles : bool) : M (list PageSummary) :=
  let* m := this in
  let* e := getEnv in
  let alive := filter (fun kv => pageGone drv kv.2 = false) (pages m) in
  update (fun m => set_pages (filter (fun kv => pageGone drv kv.2 = false) (pages m)) m) ;;
  ret ((fun kv => {| ps_id := kv.1;
                     ps_url := default "" (pageUrl e !! kv.2);
                     ps_title := if titles then pageTitle drv kv.2 else "" |})
       <$> map_to_list alive).

(** *** Console and network access *)

(** [getConsoleLogs(pageId)]: the array stored for the page, itself, or a
    new empty array. *)
Definition getConsoleLogs (pageId : Z) : M Loc :=
  let* m := this in
  match consoleLogs m !! pageId with
  | Some l => ret l
  | None => newConsoleArray
  end.

(** [clearConsoleLogs(pageId)] *)
Definition clearConsoleLogs (pageId : Z) : M unit :=
  let* l := newConsoleArray in
  update (fun m => set_consoleLogs (<[pageId := l]> (consoleLogs m)) m).

(** [getNetworkLogs(pageId)] *)
Definition getNetworkLogs (pageId : Z) : M Loc :=
  let* m := this in
  match networkLogs m !! pageId with
  | Some l => ret l
  | None => newNetworkArray
  end.

(** [clearNetworkLogs(pageId)] *)
Definition clearNetworkLogs (pageId : Z) : M unit :=
  let* l := newNetworkArray in
  update (fun m => set_networkLogs (<[pageId := l]> (networkLogs m)) m).

(** Reading an array through a reference held by a caller. *)
Definition readConsole (w : World) (l : Loc) : list ConsoleLogEntry :=
  default [] (consoleArrays (env w) !! l).

Definition readNetwork (w : World) (l : Loc) : list NetworkLogEntry :=
  default [] (networkArrays (env w) !! l).

(** *** Route blocking *)

Definition addBlockedPattern (pattern : string) : M unit :=
  update (fun m => set_blockedPatterns (blockedPatterns m ++ [pattern]) m).

Definition clearBlockedPatterns : M unit :=
  update (set_blockedPatterns []).

(** *** Storage state *)

(** [ctx.storageState()] *)
Definition ctx_storageState (e : Env) : StorageState :=
  {| ss_cookies := Some (cookies e);
     ss_origins :=
       Some ((fun kv => {| os_origin := kv.1;
                           os_localStorage := Some (map_to_list kv.2) |})
             <$> map_to_list (localStorage e)) |}.

(** [saveStorageState(filePath)] *)
Definition saveStorageState (filePath : string) : M unit :=
  let* _ := getContext in
  let* e := getEnv in
  emit (ActWriteFile filePath (ctx_storageState e)).

(** [window.location.origin] of a page *)
Definition pageOrigin (e : Env) (page : PageHandle) : string :=
  originOf drv (default "about:blank" (pageUrl e !! page)).

(** The function evaluated in the page by [loadStorageState]. *)
Definition replayEntries (page : PageHandle) (entries : list (string * string))
    (originUrl : string) : M unit :=
  emit (ActEvaluate page originUrl) ;;
  let* e := getEnv in
  if String.eqb (pageOrigin e page) originUrl then
    forEach entries (fun nv =>
      updateEnv (fun e =>
        set_localStorage
          (<[originUrl := <[nv.1 := nv.2]> (default ∅ (localStorage e !! originUrl))]>
             (localStorage e)) e))
  else ret tt.

(** [loadStorageState(filePath)] *)
Definition loadStorageState (filePath : string) : M unit :=
  if existsSync drv filePath then
    match readJson drv filePath with
    | inl err => throw err
    | inr state =>
        let* _ := getContext in
        let cs := nullish (ss_cookies state) [] in
        emit (ActAddCookies cs) ;;
        updateEnv (fun e => set_cookies (cookies e ++ cs) e) ;;
        forEach (nullish (ss_origins state) []) (fun origin =>
          let* e := getEnv in
          match contextPages e with
          | page0 :: _ =>
              replayEntries page0 (nullish (os_localStorage origin) []) (os_origin origin)
          | [] => ret tt
          end)
    end
  else throw (Error ("File not found: " +:+ filePath)).

(** *** Browser info and cleanup *)

(** The fields of [getBrowserInfo()] that depend on the modelled state. *)
Record BrowserInfo : Type := mkBrowserInfo {
  bi_engine : string;
  bi_pages : nat;
  bi_recordingVideo : bool;
  bi_blockedPatterns : nat;
  bi_connected : bool
}.

Definition getBrowserInfo (m : BrowserManager) : BrowserInfo :=
  {| bi_engine := browserName m;
     bi_pages := size (pages m);
     bi_recordingVideo := isRecordingVideo m;
     bi_blockedPatterns := length (blockedPatterns m);
     bi_connected := bool_decide (is_Some (context m)) |}.

(** [close()] *)
Definition close : M unit :=
  let* m := this in
  when (bool_decide (is_Some (context m))) (emit ActCloseContext) ;;
  when (bool_decide (is_Some (browser m))) (emit ActCloseBrowser) ;;
  when (chromeProcess m) (emit ActKill ;; update (set_chromeProcess false)) ;;
  update (set_pages ∅) ;;
  update (set_consoleLogs ∅) ;;
  update (set_networkLogs ∅) ;;
  update (set_context None) ;;
  update (set_browser None) ;;
  updateEnv (set_contextPages []).

(** *** A session as a sequence of calls and events *)

(** The browser opens a page in the current context by itself (a popup, a
    tab opened by the user): the listener [onPage] registers it. *)
Definition contextPageCreated (url : string) : M unit :=
  let* m := this in
  match context m with
  | Some _ =>
      let* e := getEnv in
      let page := nextHandle e in
      updateEnv (fun e =>
        set_nextHandle (S page)
          (set_pageUrl (<[page := url]> (pageUrl e))
             (set_contextPages (contextPages e ++ [page]) e))) ;;
      onPage page
  | None => ret tt
  end.

Inductive Op : Type :=
  | OpSetOptions (o : Opt.t)   (* [browser.options = ...], as the connect tool does *)
  | OpConnect
  | OpConnectCDP (cdpUrl : option string)
  | OpLaunchPersistent (userDataDir : option string)
  | OpLaunchTemporary
  | OpSpawnChromeAndConnect (userDataDir port : string)
  | OpNewPage (url : option string)
  | OpGetOrCreatePage (pageId : option Z)
  | OpClosePage (pageId : Z)
  | OpFocusPage (pageId : Z)
  | OpListPages (titles : bool)
  | OpGetConsoleLogs (pageId : Z)
  | OpClearConsoleLogs (pageId : Z)
  | OpGetNetworkLogs (pageId : Z)
  | OpClearNetworkLogs (pageId : Z)
  | OpAddBlockedPattern (pattern : string)
  | OpClearBlockedPatterns
  | OpApplyRouteBlocking
  | OpSaveStorageState (filePath : string)
  | OpLoadStorageState (filePath : string)
  | OpClose
  | EvPageCreated (url : string)
  | EvPage (page : PageHandle) (ev : PageEvent).

Definition discard {A} (m : M A) : M unit := let* _ := m in ret tt.

(** One call or event; the caller's use of the result is not modelled. *)
Definition exec (op : Op) : M unit :=
  match op with
  | OpSetOptions o => update (set_options o)
  | OpConnect => discard connect
  | OpConnectCDP cdpUrl => connectCDP cdpUrl
  | OpLaunchPersistent userDataDir => launchPersistent userDataDir
  | OpLaunchTemporary => launchTemporary
  | OpSpawnChromeAndConnect userDataDir port =>
      discard (spawnChromeAndConnect userDataDir port)
  | OpNewPage url => discard (newPage url)
  | OpGetOrCreatePage pageId => discard (getOrCreatePage pageId)
  | OpClosePage pageId => closePage pageId
  | OpFocusPage pageId => focusPage pageId
  | OpListPages titles => discard (listPages titles)
  | OpGetConsoleLogs pageId => discard (getConsoleLogs pageId)
  | OpClearConsoleLogs pageId => clearConsoleLogs pageId
  | OpGetNetworkLogs pageId => discard (getNetworkLogs pageId)
  | OpClearNetworkLogs pageId => clearNetworkLogs pageId
  | OpAddBlockedPattern pattern => addBlockedPattern pattern
  | OpClearBlockedPatterns => clearBlockedPatterns
  | OpApplyRouteBlocking => applyRouteBlocking
  | OpSaveStorageState filePath => saveStorageState filePath
  | OpLoadStorageState filePath => loadStorageState filePath
  | OpClose => close
  | EvPageCreated url => contextPageCreated url
  | EvPage page ev => pageEmit page ev
  end.

(** Running a session: a call that throws leaves what it did before. *)
Definition run (ops : list Op) (w : World) : World :=
  foldl (fun w op => (exec op w).2) w ops.

End WithDriver.

(** The page ids handed out so far, in order of assignment: every
    assignment is followed by [setupPageTracking], whose [page.on] calls
    carry the id. *)
Definition assignedIds (t : list Action) : list Z :=
  omap (fun a => match a with ActPageOn _ pageId => Some pageId | _ => None end) t.

(** The ids that a run assigns after the world [w]. *)
Definition idsAssignedSince (w w' : World) : list Z :=
  drop (length (assignedIds (trace (env w)))) (assignedIds (trace (env w'))).

(** The content of the buffers of a page, read through the manager. *)
Definition consoleBuffer (w : World) (pageId : Z) : option (list ConsoleLogEntry) :=
  l ← consoleLogs (mgr w) !! pageId; consoleArrays (env w) !! l.

Definition networkBuffer (w : World) (pageId : Z) : option (list NetworkLogEntry) :=
  l ← networkLogs (mgr w) !! pageId; networkArrays (env w) !! l.

(** The console listener of [pageId] runs once for each message, and the
    response listener once for each response, each with its clock
    readings. *)
Definition deliverConsole (pageId : Z) (msgs : list (ConsoleMessage * Z))
    (w : World) : World :=
  foldl (fun w mn => (onConsole pageId mn.1 mn.2 w).2) w msgs.

Definition deliverResponses (pageId : Z) (rs : list (Response * Z * Z))
    (w : World) : World :=
  foldl (fun w r => (onResponse pageId r.1.1 r.1.2 r.2 w).2) w rs.

(** [localStorage.setItem(name, value)] for each entry, on one storage area. *)
Definition setItems (entries : list (string * string))
    (area : gmap string string) : gmap string string :=
  foldl (fun a nv => <[nv.1 := nv.2]> a) area entries.

(** The entries of a snapshot recorded for the origin [o], in order. *)
Definition entriesFor (o : string) (origins : list OriginState)
  : list (string * string) :=
  flat_map (fun os => if String.eqb o (os_origin os)
                      then nullish (os_localStorage os) [] else [])
           origins.

(** ** Invariants of a session *)

(** Every id in use is at least 1 and below [nextPageId], and the ids were
    handed out in increasing order. *)
Definition registry_ok (w : World) : Prop :=
  1 <= nextPageId (mgr w) /\
  (forall id page, pages (mgr w) !! id = Some page -> 1 <= id < nextPageId (mgr w)) /\
  Forall (fun id => 1 <= id < nextPageId (mgr w)) (assignedIds (trace (env w))) /\
  StronglySorted Z.lt (assignedIds (trace (env w))).

(** Every array was allocated, holds at most 500 entries, and the buffers
    of the manager are arrays that exist. *)
Definition heap_ok (w : World) : Prop :=
  (forall l b, consoleArrays (env w) !! l = Some b ->
     (l < nextLoc (env w))%nat /\ (length b <= 500)%nat) /\
  (forall l b, networkArrays (env w) !! l = Some b ->
     (l < nextLoc (env w))%nat /\ (length b <= 500)%nat) /\
  (forall id l, consoleLogs (mgr w) !! id = Some l ->
     is_Some (consoleArrays (env w) !! l)) /\
  (forall id l, networkLogs (mgr w) !! id = Some l ->
     is_Some (networkArrays (env w) !! l)).

Definition invariant (w : World) : Prop := registry_ok w /\ heap_ok w.

(** [w'] comes after [w]: the counter did not go back, and the ids handed
    out in between start at the counter of [w]. *)
Definition extends (w w' : World) : Prop :=
  nextPageId (mgr w) <= nextPageId (mgr w') /\
  exists new : list Z,
    assignedIds (trace (env w')) = assignedIds (trace (env w)) ++ new /\
    Forall (fun id => nextPageId (mgr w) <= id) new.

Definition step_ok (w w' : World) : Prop :=
  extends w w' /\ (invariant w -> invariant w').

(** A computation that keeps the invariants, whatever it returns. *)
Definition safe {A} (m : M A) : Prop := forall w, step_ok w (m w).2.

(** What a replay into the storage area of the origin [o] leaves of the
    world: the entries set in that area, and everything else as it was. *)
Definition replayed (o : string) (entries : list (string * string))
    (w w' : World) : Prop :=
  mgr w' = mgr w /\
  contextPages (env w') = contextPages (env w) /\
  pageUrl (env w') = pageUrl (env w) /\
  cookies (env w') = cookies (env w) /\
  (forall o', o' <> o -> localStorage (env w') !! o' = localStorage (env w) !! o') /\
  default ∅ (localStorage (env w') !! o)
  = setItems entries (default ∅ (localStorage (env w) !! o)).

(** ** Example inputs *)

Definition noOptions : Opt.t :=
  Opt.mk None None None None None None None None None.

(** Nothing listens on any debug port; a persistent launch finds the
    profile locked; a plain launch works. *)
Definition offline : Driver :=
  {| connectOverCDP := fun _ => inl (Error "connect ECONNREFUSED");
     launchPersistentContext := fun _ _ =>
       inl (Error "Failed to create a ProcessSingleton for your profile directory: SingletonLock");
     launch := fun _ => None;
     fetchOk := fun _ => false;
     existsSync := fun _ => false;
     LOCALAPPDATA := "undefined";
     gotoError := fun _ _ => None;
     originOf := fun url => url;
     announcesNewPage := false;
     pageGone := fun _ => false;
     pageTitle := fun _ => "";
     readJson := fun _ => inl (Error "ENOENT") |}.

(** As [offline], but the context announces to its page listeners every
    page created in it, the pages opened with [ctx.newPage()] included. *)
Definition announcing : Driver :=
  {| connectOverCDP := connectOverCDP offline;
     launchPersistentContext := launchPersistentContext offline;
     launch := launch offline;
     fetchOk := fetchOk offline;
     existsSync := existsSync offline;
     LOCALAPPDATA := LOCALAPPDATA offline;
     gotoError := gotoError offline;
     originOf := originOf offline;
     announcesNewPage := true;
     pageGone := pageGone offline;
     pageTitle := pageTitle offline;
     readJson := readJson offline |}.

(** A snapshot with one cookie and one local-storage entry for the origin
    [https://b.example]. *)
Definition snapshot : StorageState :=
  {| ss_cookies := Some [ {| ck_name := "sid"; ck_value := "42"; ck_domain := "b.example" |} ];
     ss_origins := Some [ {| os_origin := "https://b.example";
                             os_localStorage := Some [("token", "abc")] |} ] |}.

(** A running browser with two tabs, the first at [https://a.example] and
    the second at [https://b.example], and the snapshot above on disk. *)
Definition twoTabs : Driver :=
  {| connectOverCDP := fun _ => inr [["https://a.example"; "https://b.example"]];
     launchPersistentContext := fun _ _ => inl (Error "unused");
     launch := fun _ => None;
     fetchOk := fun _ => true;
     existsSync := fun _ => true;
     LOCALAPPDATA := "undefined";
     gotoError := fun _ _ => None;
     originOf := fun url => url;
     announcesNewPage := false;
     pageGone := fun _ => false;
     pageTitle := fun _ => "";
     readJson := fun _ => inr snapshot |}.

(** [n] console messages, the [i]-th stamped with the time [i]. *)
Definition numbered (n : nat) : list (ConsoleMessage * Z) :=
  (fun i => ({| msg_type := "log"; msg_text := "tick"; msg_location_url := None |},
             Z.of_nat i)) <$> seq 0 n.

End Manager.

(* ================================================================== *)
(** * Delays, clicks, scrolling and hovering *)
(* ================================================================== *)

Module HumanActions.
Import Human.

Section WithRandom.

Variable random : nat -> Q.
Variable fp : Float.

(** [humanDelay(minMs, maxMs)]: the time slept.  The defaults of the two
    arguments are 50 and 300. *)
Definition humanDelay (minMs maxMs : Z) : Gen Z := rand random minMs maxMs.

(** [microDelay()] *)
Definition microDelay : Gen Z := humanDelay 30 120.

(** [thinkingPause()] *)
Definition thinkingPause : Gen Z := humanDelay 200 600.

(** [beforeAction()] *)
Definition beforeAction : Gen Z := humanDelay 80 250.

(** The [options] argument of [humanClick]. *)
Record ClickOptions : Type := mkClickOptions {
  button : option string;
  clickCount : option Z
}.

(** What [humanClick] does: the move, the pause before the click, the
    arguments of [page.mouse.click], and the pause after it. *)
Record Click : Type := mkClick {
  ck_move : MouseMove;
  ck_before : Z;
  ck_x : Q;
  ck_y : Q;
  ck_button : string;
  ck_clickCount : Z;
  ck_delay : Z;
  ck_after : Z
}.

(** [humanClick(page, x, y, options)] *)
Definition humanClick (viewportSize : option Viewport)
    (lastMousePos : option Point) (x y : Q) (options : ClickOptions) : Gen Click :=
  let* jx := rand random (- (3)) 3 in
  let jitterX := (x + inject_Z jx)%Q in
  let* jy := rand random (- (3)) 3 in
  let jitterY := (y + inject_Z jy)%Q in
  let* move := humanMouseMove random fp viewportSize lastMousePos jitterX jitterY in
  let* before := microDelay in
  let* delay := rand random 40 120 in
  let* after := microDelay in
  gret {| ck_move := move;
          ck_before := before;
          ck_x := jitterX;
          ck_y := jitterY;
          ck_button := match button options with Some b => b | None => "left" end;
          ck_clickCount := match clickCount options with Some n => n | None => 1 end;
          ck_delay := delay;
          ck_after := after |}.

(** One [page.mouse.wheel(scrollX, scrollY)] and the sleep after it. *)
Record Wheel : Type := mkWheel {
  wh_scrollX : Q;
  wh_scrollY : Q;
  wh_sleep : Z
}.

(** [Math.max(3, Math.min(12, Math.abs(deltaY) / 80))]; it is not rounded. *)
Definition totalStepsFor (deltaY : Q) : Q :=
  Qmax 3 (Qmin 12 (Qabs deltaY / 80)).

(** [for (let i = i0; i < totalSteps; i++) { ... }]; [fuel] bounds the
    number of iterations. *)
Fixpoint scrollLoop (fuel : nat) (i : Z) (totalSteps stepX stepY : Q)
  : Gen (list Wheel) :=
  match fuel with
  | O => gret []
  | S fuel' =>
      if Qlt_le_dec (inject_Z i) totalSteps then
        let* jy := randf random (- (10)) 10 in
        let* jx := randf random (- (5)) 5 in
        let* sleep := rand random 20 80 in
        let* rest := scrollLoop fuel' (i + 1) totalSteps stepX stepY in
        gret ({| wh_scrollX := (stepX + jx)%Q;
                 wh_scrollY := (stepY + jy)%Q;
                 wh_sleep := sleep |} :: rest)
      else gret []
  end.

Record Scroll : Type := mkScroll {
  sc_wheels : list Wheel;
  sc_pause : Z
}.

(** [humanScroll(page, deltaY, deltaX)].  The loop runs at most 12 times,
    since [totalSteps] is at most 12. *)
Definition humanScroll (deltaY deltaX : Q) : Gen Scroll :=
  let totalSteps := totalStepsFor deltaY in
  let stepY := (deltaY / totalSteps)%Q in
  let stepX := (deltaX / totalSteps)%Q in
  let* wheels := scrollLoop 12 0 totalSteps stepX stepY in
  let* pause := humanDelay 100 300 in
  gret {| sc_wheels := wheels; sc_pause := pause |}.

(** [humanHover(page, x, y)]: the move and the pause after it. *)
Definition humanHover (viewportSize : option Viewport)
    (lastMousePos : option Point) (x y : Q) : Gen (MouseMove * Z) :=
  let* jx := rand random (- (2)) 2 in
  let* jy := rand random (- (2)) 2 in
  let* move := humanMouseMove random fp viewportSize lastMousePos
                 (x + inject_Z jx)%Q (y + inject_Z jy)%Q in
  let* pause := humanDelay 150 400 in
  gret (move, pause).

End WithRandom.

(** The sum of a list of durations. *)
Definition total (l : list Z) : Z := foldr Z.add 0 l.

(** The vertical distance scrolled by a list of wheel events. *)
Definition scrolledY (ws : list Wheel) : Q :=
  foldr (fun w acc => (wh_scrollY w + acc)%Q) 0%Q ws.

(** A wheel event that stays within the jitter of its nominal step. *)
Definition wheel_ok (stepX stepY : Q) (w : Wheel) : Prop :=
  (Qabs (wh_scrollY w - stepY) <= 10)%Q /\
  (Qabs (wh_scrollX w - stepX) <= 5)%Q /\
  20 <= wh_sleep w <= 80.

End HumanActions.

(* ================================================================== *)
(** * The views of the log tools *)
(* ================================================================== *)

Module Tools.
Import Manager.

(** [l.slice(start, end)] of an array or a string, for integer arguments:
    a negative index counts from the end, and both are clamped to the
    length. *)
Definition sliceIndex (len i : Z) : Z :=
  if i <? 0 then Z.max (len + i) 0 else Z.min i len.

Definition slice {A} (start end_ : Z) (l : list A) : list A :=
  let len := Z.of_nat (length l) in
  let from := sliceIndex len start in
  let to := sliceIndex len end_ in
  take (Z.to_nat (to - from)) (drop (Z.to_nat from) l).

(** [l.slice(start)] *)
Definition sliceFrom {A} (start : Z) (l : list A) : list A :=
  slice start (Z.of_nat (length l)) l.

(** ["..."] *)
Definition dots : list Human.char := [Human.chr_dot; Human.chr_dot; Human.chr_dot].

(** [truncate(text, max)]; the text is given by its code units. *)
Definition truncate (text : list Human.char) (max : Z) : list Human.char :=
  if Z.of_nat (length text) <=? max then text
  else slice 0 max text ++ dots.

(** The entries that [get_console_logs] shows: those of the level asked
    for, when one other than [all] is given, and of these
    [slice(-(maxEntries ?? 50))]. *)
Definition consoleLogView (level : option string) (maxEntries : option Z)
    (logs : list ConsoleLogEntry) : list ConsoleLogEntry :=
  let logs :=
    if truthy level && negb (String.eqb (nullish level "") "all")
    then List.filter (fun l => String.eqb (cl_type l) (nullish level "")) logs
    else logs in
  sliceFrom (- (nullish maxEntries 50)) logs.

(** The entries that [get_network_log] shows. *)
Definition networkLogView (filter resourceType : option string) (maxEntries : option Z)
    (logs : list NetworkLogEntry) : list NetworkLogEntry :=
  let logs :=
    if truthy filter
    then List.filter (fun l => includes (nullish filter "") (nl_url l)) logs
    else logs in
  let logs :=
    if truthy resourceType
    then List.filter (fun l => String.eqb (nl_resourceType l) (nullish resourceType "")) logs
    else logs in
  sliceFrom (- (nullish maxEntries 50)) logs.

End Tools.

(* ================================================================== *)
(** * Worlds, messages and example inputs for sessions *)
(* ================================================================== *)

Module Scenarios.
Import Manager.
(** The world [w] after the calls [l] on the driver. *)
Definition after (l : list Action) (w : World) : World :=
  mkWorld (mgr w) (set_trace (trace (env w) ++ l) (env w)).

(** The arguments that [spawnChromeAndConnect] passes to the browser. *)
Definition spawnArgs (m : BrowserManager) (userDataDir port : string) : list string :=
  ["--remote-debugging-port=" +:+ port; "--user-data-dir=" +:+ userDataDir]
    ++ STEALTH_ARGS
    ++ (if nullish (Opt.headless (options m)) false then ["--headless=new"] else []).

(** The channels that the table of [resolveChromePath] lists. *)
Definition tableChannels : list string :=
  ["chrome"; "chrome-beta"; "msedge"; "msedge-dev"].

(** The options name an executable, or a channel of the table (none
    stands for [chrome]). *)
Definition tableChannel (m : BrowserManager) : bool :=
  truthy (Opt.executablePath (options m))
  || existsb (String.eqb (orElse (Opt.channel (options m)) "chrome")) tableChannels.

(** *** Example inputs *)

(** A profile directory is configured. *)
Definition withProfile : Opt.t :=
  Opt.mk None (Some "/home/me/profile") None None None None None None None.

(** The persistent launch is refused because the profile is the default
    data directory of the browser, and nothing answers on any port. *)
Definition pipeRefused : Driver :=
  {| connectOverCDP := fun _ => inl (Error "connect ECONNREFUSED");
     launchPersistentContext := fun _ _ =>
       inl (Error "DevTools remote debugging requires a non-default data directory.");
     launch := fun _ => None;
     fetchOk := fun _ => false;
     existsSync := fun _ => false;
     LOCALAPPDATA := "undefined";
     gotoError := fun _ _ => None;
     originOf := fun url => url;
     announcesNewPage := false;
     pageGone := fun _ => false;
     pageTitle := fun _ => "";
     readJson := fun _ => inl (Error "ENOENT") |}.


(** A new manager attached to the running browser of the driver. *)
Definition attachedTo (drv : Driver) : World :=
  run drv [OpConnectCDP None] (initial noOptions).

(** A connected session that holds exactly what [snapshot] records. *)
Definition savedSession : World :=
  mkWorld
    (set_context (Some (FreshContext (LaunchedBrowser chromium)))
       (new_BrowserManager noOptions))
    (set_localStorage {[ "https://b.example" := {[ "token" := "abc" ]} ]}
       (set_cookies [ {| ck_name := "sid"; ck_value := "42"; ck_domain := "b.example" |} ]
          emptyEnv)).

Definition notConnected : string :=
  "Browser not connected. Call browser_connect first.".

Definition spawnTimeout : string :=
  "Chrome did not start within 15s. Ensure no other Chrome instances are running and try again.".
End Scenarios.

(* ================================================================== *)
(** * Properties of the human-interaction helpers *)
(* ================================================================== *)

Module HumanFacts.
Import Human.

Section WithRandom.

Variable random : nat -> Q.
Hypothesis random_range : forall k, (0 <= random k < 1)%Q.
Variable fp : Float.

Lemma Qfloor_bounds (v : Q) (lo hi : Z) :
  (inject_Z lo <= v)%Q -> (v < inject_Z hi + 1)%Q -> lo <= Qfloor v <= hi.
Proof.
  intros Hlo Hhi. split.
  - apply (Qfloor_resp_le (inject_Z lo) v) in Hlo. now rewrite Qfloor_Z in Hlo.
  - pose proof (Qfloor_le v) as Hf.
    assert (H : (inject_Z (Qfloor v) < inject_Z (hi + 1))%Q).
    { rewrite inject_Z_plus. change (inject_Z 1) with 1%Q. lra. }
    rewrite <- Zlt_Qlt in H. lia.
Qed.

Lemma rand_range (min max : Z) (k : nat) :
  min <= max -> min <= fst (rand random min max k) <= max.
Proof.
  intros Hmm. unfold rand, gbind, Math_random, gret. cbn [fst].
  destruct (random_range k) as [H0 H1].
  remember (max - min + 1) as n eqn:En.
  assert (Hn : (1 <= inject_Z n)%Q).
  { change 1%Q with (inject_Z 1). rewrite <- Zle_Qle. lia. }
  assert (Hb : 0 <= Qfloor (random k * inject_Z n) <= n - 1).
  { apply Qfloor_bounds.
    - change (inject_Z 0) with 0%Q. apply Qmult_le_0_compat; lra.
    - unfold Z.sub. rewrite inject_Z_plus. change (inject_Z (- (1))) with (- (1))%Q.
      assert (random k * inject_Z n < 1 * inject_Z n)%Q.
      { apply Qmult_lt_compat_r; lra. }
      lra. }
  lia.
Qed.

(** *** Typing *)

Lemma isUpper_spec (c : char) : isUpper c = true <-> (65 <= c <= 90)%N.
Proof.
  unfold isUpper, code. cbn. rewrite andb_true_iff, !N.leb_le. reflexivity.
Qed.

Lemma isDigit_spec (c : char) : isDigit c = true <-> (48 <= c <= 57)%N.
Proof.
  unfold isDigit, code. cbn. rewrite andb_true_iff, !N.leb_le. reflexivity.
Qed.

Lemma isSymbol_spec (c : char) :
  isSymbol c = true <-> In c [33; 64; 35; 36; 37; 94; 38; 42; 40; 41]%N.
Proof.
  unfold isSymbol. rewrite existsb_exists. split.
  - intros [x [Hin Heq]]. apply N.eqb_eq in Heq. now subst.
  - intros Hin. exists c. split; [exact Hin | apply N.eqb_refl].
Qed.

Lemma classes_disjoint (c : char) :
  (isUpper c = true -> isDigit c = false /\ isSymbol c = false) /\
  (isDigit c = true -> isSymbol c = false).
Proof.
  split.
  - intros Hu%isUpper_spec. split.
    + destruct (isDigit c) eqn:E; [apply isDigit_spec in E; lia | reflexivity].
    + destruct (isSymbol c) eqn:E; [|reflexivity].
      apply isSymbol_spec in E. cbn in E. lia.
  - intros Hd%isDigit_spec.
    destruct (isSymbol c) eqn:E; [|reflexivity].
    apply isSymbol_spec in E. cbn in E. lia.
Qed.

Ltac class_cases :=
  repeat split; intros;
  try discriminate; try congruence; try (apply rand_range; lia);
  try match goal with H : _ \/ _ |- _ => destruct H; congruence || discriminate end.

Lemma keyDelay_ranges (c : char) (k : nat) :
  let d := fst (keyDelay random c k) in
  (c = chr_space -> 30 <= d <= 80) /\
  (c = chr_newline \/ c = chr_dot -> 100 <= d <= 250) /\
  (isUpper c = true -> 60 <= d <= 130) /\
  (isDigit c = true -> 70 <= d <= 140) /\
  (isSymbol c = true -> 80 <= d <= 160) /\
  (c <> chr_space -> c <> chr_newline -> c <> chr_dot ->
   isUpper c = false -> isDigit c = false -> isSymbol c = false ->
   30 <= d <= 100).
Proof.
  cbv zeta. unfold keyDelay.
  destruct (N.eqb_spec c chr_space) as [->|Hs]; [cbn; class_cases|].
  destruct (N.eqb_spec c chr_newline) as [->|Hn]; [cbn; class_cases|].
  destruct (N.eqb_spec c chr_dot) as [->|Hd]; [cbn; class_cases|].
  cbn [orb].
  destruct (classes_disjoint c) as [Hud Hds].
  destruct (isUpper c) eqn:Hu.
  { destruct (Hud eq_refl) as [Hdg Hsy]. rewrite Hdg, Hsy. class_cases. }
  destruct (isDigit c) eqn:Hdg.
  { rewrite (Hds eq_refl). class_cases. }
  destruct (isSymbol c) eqn:Hsy; class_cases.
Qed.

Lemma thinkingPause_cases (d : Z) (k : nat) :
  ((random k < 5 # 100)%Q -> 200 <= fst (thinkingPause random d k) - d <= 500) /\
  ((5 # 100 <= random k)%Q -> fst (thinkingPause random d k) = d).
Proof.
  unfold thinkingPause, gbind, Math_random, gret.
  destruct (Qlt_le_dec (random k) (5 # 100)) as [Hlt|Hge]; split; intros H.
  - pose proof (rand_range 200 500 (S k) ltac:(lia)) as Hr.
    unfold rand, gbind, Math_random, gret in *. cbn [fst] in *. lia.
  - lra.
  - lra.
  - reflexivity.
Qed.

(** *** Mouse paths *)

Lemma pathLoop_length start cp1 cp2 end_ steps (n : nat) (i : Z) (k : nat) :
  length (fst (pathLoop random start cp1 cp2 end_ steps n i k)) = n.
Proof.
  revert i k. induction n as [|n IH]; intros i k; [reflexivity|].
  cbn [pathLoop]. unfold gbind at 1.
  destruct (pathSample random start cp1 cp2 end_ steps i k) as [p k1].
  unfold gbind at 1. specialize (IH (i + 1) k1).
  destruct (pathLoop random start cp1 cp2 end_ steps n (i + 1) k1) as [ps k2].
  cbn in *. now rewrite IH.
Qed.

Lemma pathSample_next start cp1 cp2 end_ steps i k :
  snd (pathSample random start cp1 cp2 end_ steps i k) = S (S k).
Proof. reflexivity. Qed.

(** The [j]-th point of the loop is the sample for index [i + j], drawn
    with the draws [k + 2j] and [k + 2j + 1]. *)
Lemma pathLoop_lookup start cp1 cp2 end_ steps (n : nat) (i : Z) (k j : nat) :
  (j < n)%nat ->
  fst (pathLoop random start cp1 cp2 end_ steps n i k) !! j
  = Some (fst (pathSample random start cp1 cp2 end_ steps (i + Z.of_nat j) (k + 2 * j)%nat)).
Proof.
  revert i k j. induction n as [|n IH]; intros i k j Hj; [lia|].
  cbn [pathLoop]. unfold gbind at 1.
  destruct (pathSample random start cp1 cp2 end_ steps i k) as [p k1] eqn:Ep.
  pose proof (pathSample_next start cp1 cp2 end_ steps i k) as Hk.
  rewrite Ep in Hk. cbn [snd] in Hk. subst k1.
  unfold gbind at 1.
  specialize (IH (i + 1) (S (S k))).
  destruct (pathLoop random start cp1 cp2 end_ steps n (i + 1) (S (S k))) as [ps k2].
  cbn [gret fst] in *.
  destruct j as [|j].
  - replace (i + Z.of_nat 0) with i by lia.
    replace (k + 2 * 0)%nat with k by lia. rewrite Ep. reflexivity.
  - change ((p :: ps) !! S j) with (ps !! j). rewrite (IH j) by lia.
    do 3 f_equal; lia.
Qed.

(** Rounding a value within one of [v] lands within 3/2 of [v]. *)
Lemma Math_round_near (v a r : Q) :
  (a == v)%Q -> (0 <= r < 1)%Q ->
  (Qabs (inject_Z (Math_round (a + (r * (1 - - (1)) + - (1)))) - v) <= 3 # 2)%Q.
Proof.
  intros Ha Hr. unfold Math_round.
  set (w := (a + (r * (1 - - (1)) + - (1)) + (1 # 2))%Q).
  pose proof (Qfloor_le w) as Hle. pose proof (Qlt_floor w) as Hlt.
  rewrite inject_Z_plus in Hlt. change (inject_Z 1) with 1%Q in Hlt.
  assert (Hw : (w == v + 2 * r - (1 # 2))%Q) by (unfold w; rewrite Ha; ring).
  apply Qabs_Qle_condition. split; lra.
Qed.

Lemma eased_0 (t : Q) : (t == 0)%Q -> (eased t == 0)%Q.
Proof.
  intros Ht. unfold eased. destruct (Qlt_le_dec t (1 # 2)); [|lra].
  rewrite Ht. ring.
Qed.

Lemma eased_1 (t : Q) : (t == 1)%Q -> (eased t == 1)%Q.
Proof.
  intros Ht. unfold eased. destruct (Qlt_le_dec t (1 # 2)); [lra|].
  rewrite Ht. reflexivity.
Qed.

Lemma bezierPoint_0 p0 p1 p2 p3 (t : Q) :
  (t == 0)%Q ->
  (px (bezierPoint p0 p1 p2 p3 t) == px p0)%Q /\
  (py (bezierPoint p0 p1 p2 p3 t) == py p0)%Q.
Proof. intros Ht. cbn. rewrite !Ht. split; ring. Qed.

Lemma bezierPoint_1 p0 p1 p2 p3 (t : Q) :
  (t == 1)%Q ->
  (px (bezierPoint p0 p1 p2 p3 t) == px p3)%Q /\
  (py (bezierPoint p0 p1 p2 p3 t) == py p3)%Q.
Proof. intros Ht. cbn. rewrite !Ht. split; ring. Qed.

(** A sample lies within 3/2 of the point of the curve it was taken at. *)
Lemma pathSample_near start cp1 cp2 end_ steps i k (q : Point) :
  let t := (inject_Z i / inject_Z steps)%Q in
  (px (bezierPoint start cp1 cp2 end_ (eased t)) == px q)%Q ->
  (py (bezierPoint start cp1 cp2 end_ (eased t)) == py q)%Q ->
  let p := fst (pathSample random start cp1 cp2 end_ steps i k) in
  (Qabs (px p - px q) <= 3 # 2)%Q /\ (Qabs (py p - py q) <= 3 # 2)%Q.
Proof.
  intros t Hx Hy p. subst p. unfold pathSample, gbind, randf, Math_random, gret.
  cbn [fst px py]. fold t. split.
  - apply Math_round_near; [exact Hx | apply random_range].
  - apply Math_round_near; [exact Hy | apply random_range].
Qed.

Lemma Qsquare_nonneg (q : Q) : (0 <= q * q)%Q.
Proof.
  destruct (Qlt_le_dec q 0) as [Hneg|Hpos].
  - assert (H : (q * q == (- q) * (- q))%Q) by ring.
    rewrite H. apply Qmult_le_0_compat; lra.
  - apply Qmult_le_0_compat; exact Hpos.
Qed.




Lemma stepsFor_range (from to : Point) : 5 <= stepsFor fp from to <= 25.
Proof. unfold stepsFor. lia. Qed.

(** [generateMousePath] draws the eight numbers of its two control points
    and then runs the loop. *)
Lemma generateMousePath_loop (start end_ : Point) (steps : Z) (k : nat) :
  exists cp1 cp2,
    generateMousePath random start end_ steps k
    = pathLoop random start cp1 cp2 end_ steps (Z.to_nat (steps + 1)) 0 (k + 8)%nat.
Proof.
  unfold generateMousePath, gbind, randf, Math_random, gret.
  do 2 eexists. rewrite <- !Nat.add_succ_comm, Nat.add_0_r. reflexivity.
Qed.

(** The path of [generateMousePath] for a positive number of steps. *)
Lemma generateMousePath_ends (start end_ : Point) (steps : Z) (k : nat) :
  1 <= steps ->
  let path := fst (generateMousePath random start end_ steps k) in
  length path = Z.to_nat (steps + 1) /\
  (exists p, path !! 0%nat = Some p /\
     (Qabs (px p - px start) <= 3 # 2)%Q /\ (Qabs (py p - py start) <= 3 # 2)%Q) /\
  (exists p, path !! Z.to_nat steps = Some p /\
     (Qabs (px p - px end_) <= 3 # 2)%Q /\ (Qabs (py p - py end_) <= 3 # 2)%Q).
Proof.
  intros Hs path. subst path.
  destruct (generateMousePath_loop start end_ steps k) as (cp1 & cp2 & ->).
  split; [apply pathLoop_length|]. split.
  - eexists. split; [apply pathLoop_lookup; lia|].
    apply pathSample_near.
    + apply bezierPoint_0, eased_0.
      change (inject_Z (0 + Z.of_nat 0)) with 0%Q. unfold Qdiv. ring.
    + apply bezierPoint_0, eased_0.
      change (inject_Z (0 + Z.of_nat 0)) with 0%Q. unfold Qdiv. ring.
  - eexists. split; [apply pathLoop_lookup; lia|].
    assert (Ht : (inject_Z (0 + Z.of_nat (Z.to_nat steps)) / inject_Z steps == 1)%Q).
    { rewrite Z.add_0_l, Z2Nat.id by lia. field.
      change 0%Q with (inject_Z 0). rewrite inject_Z_injective. lia. }
    apply pathSample_near.
    + apply bezierPoint_1, eased_1, Ht.
    + apply bezierPoint_1, eased_1, Ht.
Qed.



Lemma keyDelay_draw (c : char) (k : nat) : snd (keyDelay random c k) = S k.
Proof.
  unfold keyDelay.
  repeat match goal with |- context [if ?b then _ else _] => destruct b end;
    reflexivity.
Qed.

Lemma thinkingPause_eq (d : Z) (k : nat) :
  thinkingPause random d k
  = if Qlt_le_dec (random k) (5 # 100)
    then (d + fst (rand random 200 500 (S k)), S (S k))
    else (d, S k).
Proof.
  unfold thinkingPause, gbind, Math_random.
  destruct (Qlt_le_dec (random k) (5 # 100)); reflexivity.
Qed.

(** C7 (amended): [humanType] issues one keystroke per character, in
    order.  The keystroke of a character uses its own draws of
    [Math.random()]: draw [j] decides the delay of the character's class,
    which lies in the range of the class (space 30..80, full stop or
    newline 100..250, uppercase letter 60..130, digit 70..140, one of the
    symbols [!@#$%^&*()] 80..160, anything else 30..100); draw [j + 1] is
    the pause draw: the time slept is the class delay plus an extra
    200..500, chosen by draw [j + 2], exactly when the pause draw is below
    0.05, and the class delay alone otherwise.  The first character starts
    at the first draw, and the next character starts right after the draws
    of this one, so no draw is used twice. *)
Theorem humanType_delay_by_class (text : list char) (k : nat) :
  let kss := fst (humanType random text k) in
  exists js : list nat,
    length kss = length text /\ length js = length text /\
    (forall j, js !! 0%nat = Some j -> j = k) /\
    (forall (i j j' : nat), js !! i = Some j -> js !! S i = Some j' ->
       j' = if Qlt_le_dec (random (S j)) (5 # 100) then (j + 3)%nat else (j + 2)%nat) /\
    forall (i : nat) (c : char), text !! i = Some c ->
      exists ks j,
        kss !! i = Some ks /\ js !! i = Some j /\
        ks_char ks = c /\
        ks_classDelay ks = fst (keyDelay random c j) /\
        (c = chr_space -> 30 <= ks_classDelay ks <= 80) /\
        (c = chr_newline \/ c = chr_dot -> 100 <= ks_classDelay ks <= 250) /\
        (isUpper c = true -> 60 <= ks_classDelay ks <= 130) /\
        (isDigit c = true -> 70 <= ks_classDelay ks <= 140) /\
        (isSymbol c = true -> 80 <= ks_classDelay ks <= 160) /\
        (c <> chr_space -> c <> chr_newline -> c <> chr_dot ->
         isUpper c = false -> isDigit c = false -> isSymbol c = false ->
         30 <= ks_classDelay ks <= 100) /\
        ((random (S j) < 5 # 100)%Q ->
         ks_sleep ks = ks_classDelay ks + fst (rand random 200 500 (S (S j))) /\
         200 <= ks_sleep ks - ks_classDelay ks <= 500) /\
        ((5 # 100 <= random (S j))%Q -> ks_sleep ks = ks_classDelay ks).
Proof.
  revert k. induction text as [|c rest IH]; intros k.
  - exists []. cbn. repeat split; try done.
  - cbv zeta. remember (humanType random (c :: rest) k) as res eqn:Eres.
    cbn [humanType] in Eres. unfold gbind at 1 in Eres.
    pose proof (keyDelay_draw c k) as Hk1.
    pose proof (keyDelay_ranges c k) as Hr.
    destruct (keyDelay random c k) as [d k1] eqn:Ed. cbn [fst snd] in Hk1, Hr.
    subst k1. unfold gbind at 1 in Eres.
    pose proof (thinkingPause_eq d (S k)) as Ep.
    pose proof (thinkingPause_cases d (S k)) as Hp.
    destruct (thinkingPause random d (S k)) as [d' k2]. cbn [fst] in Hp.
    unfold gbind at 1 in Eres.
    destruct (IH k2) as (js & Hlen & Hjs & Hhead & Hchain & Hall). cbv zeta in *.
    destruct (humanType random rest k2) as [kss k3]. cbn [gret fst] in *.
    subst res. cbn [gret fst].
    assert (Hk2 : k2 = if Qlt_le_dec (random (S k)) (5 # 100)
                       then (k + 3)%nat else (k + 2)%nat).
    { destruct (Qlt_le_dec (random (S k)) (5 # 100)); injection Ep as _ ->; lia. }
    exists (k :: js). cbn [length]. split; [by rewrite Hlen|].
    split; [by rewrite Hjs|]. split; [by intros j [= <-]|]. split.
    + intros [|i] j j' Hj Hj'.
      * injection Hj as <-. cbn in Hj'. rewrite (Hhead j' Hj'). exact Hk2.
      * exact (Hchain i j j' Hj Hj').
    + intros [|i] c' Hc'.
      * injection Hc' as <-. eexists _, k. split; [reflexivity|].
        split; [reflexivity|]. cbn [ks_char ks_classDelay ks_sleep].
        split; [reflexivity|]. split; [by rewrite Ed|].
        destruct Hr as (H1 & H2 & H3 & H4 & H5 & H6).
        repeat (split; [assumption|]). destruct Hp as [Hp1 Hp2]. split.
        -- intros Hlt. split; [|by apply Hp1].
           destruct (Qlt_le_dec (random (S k)) (5 # 100)); [|lra].
           by injection Ep as -> _.
        -- exact Hp2.
      * exact (Hall i c' Hc').
Qed.

End WithRandom.

(** The statement above at the text [Hi 5!.] with every draw equal to 1/2. *)
Lemma humanType_delay_by_class_witness :
  (forall k : nat, (0 <= steady k < 1)%Q) /\
  let kss := fst (humanType steady (codes "Hi 5!.") 0%nat) in
  exists js : list nat,
    length kss = length (codes "Hi 5!.") /\ length js = length (codes "Hi 5!.") /\
    (forall j, js !! 0%nat = Some j -> j = 0%nat) /\
    (forall (i j j' : nat), js !! i = Some j -> js !! S i = Some j' ->
       j' = if Qlt_le_dec (steady (S j)) (5 # 100) then (j + 3)%nat else (j + 2)%nat) /\
    forall (i : nat) (c : char), codes "Hi 5!." !! i = Some c ->
      exists ks j,
        kss !! i = Some ks /\ js !! i = Some j /\
        ks_char ks = c /\
        ks_classDelay ks = fst (keyDelay steady c j) /\
        (c = chr_space -> 30 <= ks_classDelay ks <= 80) /\
        (c = chr_newline \/ c = chr_dot -> 100 <= ks_classDelay ks <= 250) /\
        (isUpper c = true -> 60 <= ks_classDelay ks <= 130) /\
        (isDigit c = true -> 70 <= ks_classDelay ks <= 140) /\
        (isSymbol c = true -> 80 <= ks_classDelay ks <= 160) /\
        (c <> chr_space -> c <> chr_newline -> c <> chr_dot ->
         isUpper c = false -> isDigit c = false -> isSymbol c = false ->
         30 <= ks_classDelay ks <= 100) /\
        ((steady (S j) < 5 # 100)%Q ->
         ks_sleep ks = ks_classDelay ks + fst (rand steady 200 500 (S (S j))) /\
         200 <= ks_sleep ks - ks_classDelay ks <= 500) /\
        ((5 # 100 <= steady (S j))%Q -> ks_sleep ks = ks_classDelay ks).
Proof.
  assert (H : forall k : nat, (0 <= steady k < 1)%Q).
  { intros k. unfold steady. lra. }
  split; [exact H|].
  exact (humanType_delay_by_class steady H (codes "Hi 5!.") 0%nat).
Defined.

(** C7 as stated fails for a sentence terminator other than the full
    stop: the question mark is typed with a delay of the default class,
    here 65 ms, below the 100..250 of the claim. *)
Lemma humanType_terminator_counterexample :
  exists ks,
    fst (humanType steady (codes "?") 0%nat) = [ks] /\
    ks_char ks = code "?" /\
    ~ (100 <= ks_classDelay ks <= 250).
Proof.
  eexists. split; [vm_compute; reflexivity|]. split; [reflexivity|].
  cbn [ks_classDelay]. lia.
Qed.



End HumanFacts.

(* ================================================================== *)
(** * Properties of the browser manager *)
(* ================================================================== *)

Module ManagerFacts.
Import Manager.

Lemma extends_refl w : extends w w.
Proof. split; [lia|]. exists []. by rewrite app_nil_r. Qed.

Lemma extends_trans w1 w2 w3 : extends w1 w2 -> extends w2 w3 -> extends w1 w3.
Proof.
  intros [Hn1 (new1 & E1 & F1)] [Hn2 (new2 & E2 & F2)]. split; [lia|].
  exists (new1 ++ new2). split.
  - by rewrite E2, E1, app_assoc.
  - apply Forall_app. split; [exact F1|].
    eapply Forall_impl; [exact F2|]. cbn. intros. lia.
Qed.

Lemma step_ok_refl w : step_ok w w.
Proof. split; [apply extends_refl | auto]. Qed.

Lemma step_ok_trans w1 w2 w3 : step_ok w1 w2 -> step_ok w2 w3 -> step_ok w1 w3.
Proof.
  intros [E1 I1] [E2 I2]. split; [eapply extends_trans; eauto | auto].
Qed.

Lemma safe_ret {A} (a : A) : safe (ret a).
Proof. intros w. apply step_ok_refl. Qed.

Lemma safe_throw {A} e : safe (@throw A e).
Proof. intros w. apply step_ok_refl. Qed.

Lemma safe_bind {A B} (m : M A) (f : A -> M B) :
  safe m -> (forall a, safe (f a)) -> safe (bind m f).
Proof.
  intros Hm Hf w. unfold bind. specialize (Hm w).
  destruct (m w) as [[a|e] w1]; cbn in *; [|exact Hm].
  eapply step_ok_trans; [exact Hm | apply Hf].
Qed.

Lemma safe_tryCatch {A} (m : M A) (h : JsError -> M A) :
  safe m -> (forall e, safe (h e)) -> safe (tryCatch m h).
Proof.
  intros Hm Hh w. unfold tryCatch. specialize (Hm w).
  destruct (m w) as [[a|e] w1]; cbn in *; [exact Hm|].
  eapply step_ok_trans; [exact Hm | apply Hh].
Qed.

Lemma safe_this : safe this.
Proof. intros w. apply step_ok_refl. Qed.

Lemma safe_getEnv : safe getEnv.
Proof. intros w. apply step_ok_refl. Qed.

Lemma safe_when (b : bool) m : safe m -> safe (when b m).
Proof. intros Hm. destruct b; [exact Hm | apply safe_ret]. Qed.

Lemma safe_forEach {A} (l : list A) (body : A -> M unit) :
  (forall x, safe (body x)) -> safe (forEach l body).
Proof.
  intros Hb. induction l as [|x l IH]; cbn [forEach].
  - apply safe_ret.
  - apply safe_bind; [apply Hb | intros _; exact IH].
Qed.

Lemma safe_discard {A} (m : M A) : safe m -> safe (discard m).
Proof. intros Hm. apply safe_bind; [exact Hm | intros; apply safe_ret]. Qed.

(** Writes that leave alone what the invariant reads. *)
Lemma safe_update (f : BrowserManager -> BrowserManager) :
  (forall m, nextPageId (f m) = nextPageId m /\ pages (f m) ⊆ pages m /\
             consoleLogs (f m) ⊆ consoleLogs m /\ networkLogs (f m) ⊆ networkLogs m) ->
  safe (update f).
Proof.
  intros Hf w. destruct (Hf (mgr w)) as (Hn & Hp & Hc & Hnl).
  split.
  - split; cbn; [lia|]. exists []. by rewrite app_nil_r.
  - intros [(R1 & R2 & R3 & R4) (H1 & H2 & H3 & H4)]. cbn.
    split; [split; [|split; [|split]]|split; [|split; [|split]]]; cbn; rewrite ?Hn; auto.
    + intros id page Hl. eapply R2, lookup_weaken; eauto.
    + intros id l Hl. eapply H3, lookup_weaken; eauto.
    + intros id l Hl. eapply H4, lookup_weaken; eauto.
Qed.

Lemma safe_updateEnv (f : Env -> Env) :
  (forall e, trace (f e) = trace e /\ consoleArrays (f e) = consoleArrays e /\
             networkArrays (f e) = networkArrays e /\ nextLoc (f e) = nextLoc e) ->
  safe (updateEnv f).
Proof.
  intros Hf w. destruct (Hf (env w)) as (Ht & Hc & Hn & Hl).
  split.
  - split; cbn; [lia|]. exists []. by rewrite Ht, app_nil_r.
  - intros [(R1 & R2 & R3 & R4) (H1 & H2 & H3 & H4)].
    split; [split; [|split; [|split]]|split; [|split; [|split]]]; cbn;
      rewrite ?Ht, ?Hc, ?Hn, ?Hl; auto.
Qed.

Lemma assignedIds_snoc t a :
  assignedIds (t ++ [a]) =
  assignedIds t ++ match a with ActPageOn _ id => [id] | _ => [] end.
Proof. unfold assignedIds. rewrite omap_app. by destruct a. Qed.

Lemma safe_emit a :
  (forall page id, a <> ActPageOn page id) -> safe (emit a).
Proof.
  intros Ha w.
  assert (E : assignedIds (trace (env w) ++ [a]) = assignedIds (trace (env w))).
  { rewrite assignedIds_snoc. destruct a; try by rewrite app_nil_r. by destruct (Ha page pageId). }
  unfold step_ok, extends, invariant, registry_ok, emit, updateEnv, set_trace.
  cbn [snd mgr env trace]. rewrite E. split.
  - split; [lia|]. exists []. by rewrite app_nil_r.
  - intros [(R1 & R2 & R3 & R4) H]. split; [|exact H]. auto.
Qed.

Section WithDriver.

Variable drv : Driver.

(** What [trackPage] does, in one step. *)
Lemma trackPage_eq (page : PageHandle) (w : World) :
  trackPage page w =
  (Ok (nextPageId (mgr w)),
   let id := nextPageId (mgr w) in
   let l := nextLoc (env w) in
   {| mgr :=
        mkBrowserManager (browser (mgr w)) (context (mgr w))
          (<[id := page]> (pages (mgr w))) (id + 1) (options (mgr w))
          (<[id := l]> (consoleLogs (mgr w)))
          (<[id := S l]> (networkLogs (mgr w)))
          (blockedPatterns (mgr w)) (isRecordingVideo (mgr w))
          (chromeProcess (mgr w));
      env :=
        mkEnv (<[l := []]> (consoleArrays (env w)))
          (<[S l := []]> (networkArrays (env w)))
          (S (S l))
          (<[id := ∅]> (pendingRequests (env w)))
          (<[page := default [] (listeners (env w) !! page) ++ [id]]> (listeners (env w)))
          (nextHandle (env w)) (contextPages (env w)) (pageUrl (env w))
          (cookies (env w)) (localStorage (env w))
          (trace (env w) ++ [ActPageOn page id]) |}).
Proof. reflexivity. Qed.

Lemma safe_trackPage (page : PageHandle) : safe (trackPage page).
Proof.
  intros w. rewrite trackPage_eq. cbn [snd]. cbv zeta.
  unfold step_ok, extends, invariant, registry_ok, heap_ok.
  cbn [mgr env nextPageId pages consoleLogs networkLogs consoleArrays
       networkArrays nextLoc trace].
  rewrite assignedIds_snoc. split.
  - split; [lia|]. eexists. split; [reflexivity|]. constructor; [lia|constructor].
  - intros [(R1 & R2 & R3 & R4) (H1 & H2 & H3 & H4)].
    split; [split; [|split; [|split]]|split; [|split; [|split]]].
    + lia.
    + intros id p. rewrite lookup_insert. case_decide.
      * intros _. lia.
      * intros Hl. apply R2 in Hl. lia.
    + apply Forall_app. split.
      * eapply Forall_impl; [exact R3|]. cbn. intros. lia.
      * constructor; [lia|constructor].
    + apply StronglySorted_app_2; [|exact R4|repeat constructor].
      intros x y Hx Hy. apply list_elem_of_singleton in Hy. subst y.
      rewrite Forall_forall in R3. apply R3 in Hx. lia.
    + intros l b. rewrite lookup_insert. case_decide.
      * intros [= <-]. cbn. lia.
      * intros Hl. apply H1 in Hl. lia.
    + intros l b. rewrite lookup_insert. case_decide.
      * intros [= <-]. cbn. lia.
      * intros Hl. apply H2 in Hl. lia.
    + intros id l. rewrite lookup_insert. case_decide.
      * intros [= <-]. rewrite lookup_insert_eq. eauto.
      * intros Hl. destruct (H3 _ _ Hl) as [b Hb].
        rewrite lookup_insert_ne; [eauto|]. apply H1 in Hb. lia.
    + intros id l. rewrite lookup_insert. case_decide.
      * intros [= <-]. rewrite lookup_insert_eq. eauto.
      * intros Hl. destruct (H4 _ _ Hl) as [b Hb].
        rewrite lookup_insert_ne; [eauto|]. apply H2 in Hb. lia.
Qed.

Lemma safe_newConsoleArray : safe newConsoleArray.
Proof.
  intros w. unfold newConsoleArray, bind, getEnv, updateEnv, ret. cbn [snd].
  unfold step_ok, extends, invariant, registry_ok, heap_ok.
  cbn [mgr env nextPageId pages consoleLogs networkLogs consoleArrays
       networkArrays nextLoc trace set_nextLoc set_consoleArrays].
  split.
  - split; [lia|]. exists []. by rewrite app_nil_r.
  - intros [R (H1 & H2 & H3 & H4)]. split; [exact R|].
    split; [|split; [|split]].
    + intros l b. rewrite lookup_insert. case_decide.
      * intros [= <-]. cbn. lia.
      * intros Hl. apply H1 in Hl. lia.
    + intros l b Hl. apply H2 in Hl. lia.
    + intros id l Hl. destruct (H3 _ _ Hl) as [b Hb].
      rewrite lookup_insert_ne; [eauto|]. apply H1 in Hb. lia.
    + exact H4.
Qed.

Lemma safe_newNetworkArray : safe newNetworkArray.
Proof.
  intros w. unfold newNetworkArray, bind, getEnv, updateEnv, ret. cbn [snd].
  unfold step_ok, extends, invariant, registry_ok, heap_ok.
  cbn [mgr env nextPageId pages consoleLogs networkLogs consoleArrays
       networkArrays nextLoc trace set_nextLoc set_networkArrays].
  split.
  - split; [lia|]. exists []. by rewrite app_nil_r.
  - intros [R (H1 & H2 & H3 & H4)]. split; [exact R|].
    split; [|split; [|split]].
    + intros l b Hl. apply H1 in Hl. lia.
    + intros l b. rewrite lookup_insert. case_decide.
      * intros [= <-]. cbn. lia.
      * intros Hl. apply H2 in Hl. lia.
    + exact H3.
    + intros id l Hl. destruct (H4 _ _ Hl) as [b Hb].
      rewrite lookup_insert_ne; [eauto|]. apply H2 in Hb. lia.
Qed.

(** Storing an allocated array under a page id. *)
Lemma safe_store_console (pageId : Z) :
  safe (let* l := newConsoleArray in
        update (fun m => set_consoleLogs (<[pageId := l]> (consoleLogs m)) m)).
Proof.
  intros w. unfold newConsoleArray, bind, getEnv, updateEnv, update, ret. cbn [snd].
  pose proof (safe_newConsoleArray w) as [E I].
  unfold newConsoleArray, bind, getEnv, updateEnv, ret in E, I. cbn [snd] in E, I.
  split; [exact E|].
  intros Hinv. destruct (I Hinv) as [R (H1 & H2 & H3 & H4)].
  split; [exact R|]. split; [exact H1|]. split; [exact H2|]. split; [|exact H4].
  intros id l. cbn [mgr env consoleLogs set_consoleLogs consoleArrays set_nextLoc
                    set_consoleArrays].
  rewrite lookup_insert. case_decide.
  - intros [= <-]. rewrite lookup_insert_eq. eauto.
  - intros Hl. exact (H3 _ _ Hl).
Qed.

Lemma safe_store_network (pageId : Z) :
  safe (let* l := newNetworkArray in
        update (fun m => set_networkLogs (<[pageId := l]> (networkLogs m)) m)).
Proof.
  intros w. unfold newNetworkArray, bind, getEnv, updateEnv, update, ret. cbn [snd].
  pose proof (safe_newNetworkArray w) as [E I].
  unfold newNetworkArray, bind, getEnv, updateEnv, ret in E, I. cbn [snd] in E, I.
  split; [exact E|].
  intros Hinv. destruct (I Hinv) as [R (H1 & H2 & H3 & H4)].
  split; [exact R|]. split; [exact H1|]. split; [exact H2|]. split; [exact H3|].
  intros id l. cbn [mgr env networkLogs set_networkLogs networkArrays set_nextLoc
                    set_networkArrays].
  rewrite lookup_insert. case_decide.
  - intros [= <-]. rewrite lookup_insert_eq. eauto.
  - intros Hl. exact (H4 _ _ Hl).
Qed.

(** Appending to a buffer that holds fewer than 500 entries. *)
Lemma safe_push_console (pageId : Z) (l : Loc) entry (w : World) :
  consoleLogs (mgr w) !! pageId = Some l ->
  (Z.of_nat (length (default [] (consoleArrays (env w) !! l))) <? 500) = true ->
  step_ok w (updateEnv (fun e =>
               set_consoleArrays
                 (<[l := default [] (consoleArrays (env w) !! l) ++ [entry]]>
                    (consoleArrays e)) e) w).2.
Proof.
  intros Hid Hlen. apply Z.ltb_lt in Hlen.
  unfold step_ok, extends, invariant, registry_ok, heap_ok, updateEnv.
  cbn [snd mgr env nextPageId pages consoleLogs networkLogs consoleArrays
       networkArrays nextLoc trace set_consoleArrays].
  split.
  - split; [lia|]. exists []. by rewrite app_nil_r.
  - intros [R (H1 & H2 & H3 & H4)]. split; [exact R|].
    destruct (H3 _ _ Hid) as [logs Hl]. rewrite Hl in Hlen |- *. cbn [default from_option id] in Hlen |- *.
    split; [|split; [exact H2|split; [|exact H4]]].
    + intros l' b. rewrite lookup_insert. case_decide.
      * intros [= <-]. subst l'. apply H1 in Hl. rewrite length_app. cbn. lia.
      * apply H1.
    + intros id l' Hl'. rewrite lookup_insert. case_decide; [eauto|]. eapply H3, Hl'.
Qed.

Lemma safe_push_network (pageId : Z) (l : Loc) entry (w : World) :
  networkLogs (mgr w) !! pageId = Some l ->
  (Z.of_nat (length (default [] (networkArrays (env w) !! l))) <? 500) = true ->
  step_ok w (updateEnv (fun e =>
               set_networkArrays
                 (<[l := default [] (networkArrays (env w) !! l) ++ [entry]]>
                    (networkArrays e)) e) w).2.
Proof.
  intros Hid Hlen. apply Z.ltb_lt in Hlen.
  unfold step_ok, extends, invariant, registry_ok, heap_ok, updateEnv.
  cbn [snd mgr env nextPageId pages consoleLogs networkLogs consoleArrays
       networkArrays nextLoc trace set_networkArrays].
  split.
  - split; [lia|]. exists []. by rewrite app_nil_r.
  - intros [R (H1 & H2 & H3 & H4)]. split; [exact R|].
    destruct (H4 _ _ Hid) as [logs Hl]. rewrite Hl in Hlen |- *. cbn [default from_option id] in Hlen |- *.
    split; [exact H1|split; [|split; [exact H3|]]].
    + intros l' b. rewrite lookup_insert. case_decide.
      * intros [= <-]. subst l'. apply H2 in Hl. rewrite length_app. cbn. lia.
      * apply H2.
    + intros id l' Hl'. rewrite lookup_insert. case_decide; [eauto|]. eapply H4, Hl'.
Qed.

Lemma safe_onConsole pageId msg now : safe (onConsole pageId msg now).
Proof.
  intros w. unfold onConsole, bind, this, getEnv.
  destruct (consoleLogs (mgr w) !! pageId) as [l|] eqn:Hid; [|apply step_ok_refl].
  destruct (Z.of_nat (length (default [] (consoleArrays (env w) !! l))) <? 500) eqn:Hlen;
    [|apply step_ok_refl].
  eapply safe_push_console; eauto.
Qed.

Ltac side :=
  intros; cbn;
  repeat split;
  first [ done | discriminate | apply delete_subseteq | apply map_filter_subseteq
        | apply map_empty_subseteq ].

Ltac safe_step :=
  match goal with
  | |- safe (bind _ _) => apply safe_bind; [|intros ?]
  | |- safe (ret _) => apply safe_ret
  | |- safe (throw _) => apply safe_throw
  | |- safe this => apply safe_this
  | |- safe getEnv => apply safe_getEnv
  | |- safe (when _ _) => apply safe_when
  | |- safe (forEach _ _) => apply safe_forEach; intros ?
  | |- safe (tryCatch _ _) => apply safe_tryCatch; [|intros ?]
  | |- safe (discard _) => apply safe_discard
  | |- safe (emit _) => apply safe_emit; side
  | |- safe (update _) => apply safe_update; side
  | |- safe (updateEnv _) => apply safe_updateEnv; side
  | |- safe (trackPage _) => apply safe_trackPage
  | |- safe (onPage _) => unfold onPage
  | |- safe newConsoleArray => apply safe_newConsoleArray
  | |- safe newNetworkArray => apply safe_newNetworkArray
  | |- safe (onConsole _ _ _) => apply safe_onConsole
  | |- safe (match ?x with _ => _ end) => destruct x
  | |- safe (if ?b then _ else _) => destruct b
  end.

Lemma safe_onRequest pageId request now : safe (onRequest pageId request now).
Proof. unfold onRequest. repeat safe_step. Qed.

Lemma step_bind {A B} (m : M A) (f : A -> M B) (w : World) :
  step_ok w (m w).2 -> (forall a, safe (f a)) -> step_ok w (bind m f w).2.
Proof.
  intros Hm Hf. unfold bind. destruct (m w) as [[a|e] w1]; cbn in *; [|exact Hm].
  eapply step_ok_trans; [exact Hm | apply Hf].
Qed.

Lemma safe_bind_this {B} (f : BrowserManager -> M B) :
  (forall w, step_ok w (f (mgr w) w).2) -> safe (bind this f).
Proof. intros H w. exact (H w). Qed.

Lemma step_bind_getEnv {B} (f : Env -> M B) (w : World) :
  step_ok w (f (env w) w).2 -> step_ok w (bind getEnv f w).2.
Proof. intros H. exact H. Qed.

Lemma safe_onResponse pageId response now now' :
  safe (onResponse pageId response now now').
Proof.
  unfold onResponse. apply safe_bind_this. intros w.
  apply step_bind_getEnv. apply step_bind; [|intros; safe_step].
  destruct (networkLogs (mgr w) !! pageId) as [l|] eqn:Hid; [|apply step_ok_refl].
  destruct (Z.of_nat (length (default [] (networkArrays (env w) !! l))) <? 500) eqn:Hlen;
    [|apply step_ok_refl].
  eapply safe_push_network; eauto.
Qed.

Lemma safe_onClose pageId : safe (onClose pageId).
Proof. unfold onClose. repeat safe_step. Qed.

Lemma safe_pageEmit page ev : safe (pageEmit page ev).
Proof.
  unfold pageEmit. repeat safe_step;
    auto using safe_onRequest, safe_onResponse, safe_onClose.
Qed.

Lemma safe_buildContextOptions : safe buildContextOptions.
Proof. unfold buildContextOptions. repeat safe_step. Qed.

Lemma safe_openContext urls : safe (openContext urls).
Proof. unfold openContext. repeat safe_step. Qed.

Lemma safe_trackExistingPages : safe trackExistingPages.
Proof. unfold trackExistingPages. repeat safe_step. Qed.

Lemma safe_connectCDP cdpUrl : safe (connectCDP drv cdpUrl).
Proof.
  unfold connectCDP. repeat safe_step;
    auto using safe_openContext, safe_trackExistingPages.
Qed.

Lemma safe_pollLoop fuel cdpUrl attempt waited :
  safe (pollLoop drv fuel cdpUrl attempt waited).
Proof.
  revert attempt waited. induction fuel as [|fuel IH]; intros attempt waited;
    cbn [pollLoop]; repeat safe_step. apply IH.
Qed.

Lemma safe_spawnChromeAndConnect userDataDir port :
  safe (spawnChromeAndConnect drv userDataDir port).
Proof.
  unfold spawnChromeAndConnect. repeat safe_step;
    auto using safe_pollLoop, safe_connectCDP.
Qed.

Lemma safe_launchPersistent userDataDir : safe (launchPersistent drv userDataDir).
Proof.
  unfold launchPersistent. repeat safe_step;
    auto using safe_buildContextOptions, safe_openContext, safe_trackExistingPages.
Qed.

Lemma safe_getContext : safe getContext.
Proof. unfold getContext. repeat safe_step. Qed.

Lemma safe_applyRouteBlocking : safe applyRouteBlocking.
Proof. unfold applyRouteBlocking. repeat safe_step; apply safe_getContext. Qed.

Lemma safe_launchTemporary : safe (launchTemporary drv).
Proof.
  unfold launchTemporary. repeat safe_step;
    auto using safe_buildContextOptions, safe_openContext, safe_applyRouteBlocking.
Qed.

Lemma safe_connect : safe (connect drv).
Proof.
  unfold connect. repeat safe_step;
    auto using safe_connectCDP, safe_launchPersistent, safe_launchTemporary,
      safe_spawnChromeAndConnect.
Qed.

Lemma safe_newPage url : safe (newPage drv url).
Proof.
  unfold newPage, ctx_newPage, page_goto. repeat safe_step; apply safe_getContext.
Qed.

Lemma safe_getOrCreatePage pageId : safe (getOrCreatePage drv pageId).
Proof. unfold getOrCreatePage. repeat safe_step; apply safe_newPage. Qed.

Lemma safe_closePage pageId : safe (closePage pageId).
Proof. unfold closePage, page_close. repeat safe_step. Qed.

Lemma safe_focusPage pageId : safe (focusPage pageId).
Proof. unfold focusPage. repeat safe_step. Qed.

Lemma safe_listPages titles : safe (listPages drv titles).
Proof. unfold listPages. repeat safe_step. Qed.

Lemma safe_getConsoleLogs pageId : safe (getConsoleLogs pageId).
Proof. unfold getConsoleLogs. repeat safe_step. Qed.

Lemma safe_getNetworkLogs pageId : safe (getNetworkLogs pageId).
Proof. unfold getNetworkLogs. repeat safe_step. Qed.

Lemma safe_clearConsoleLogs pageId : safe (clearConsoleLogs pageId).
Proof. apply safe_store_console. Qed.

Lemma safe_clearNetworkLogs pageId : safe (clearNetworkLogs pageId).
Proof. apply safe_store_network. Qed.

Lemma safe_loadStorageState filePath : safe (loadStorageState drv filePath).
Proof.
  unfold loadStorageState, replayEntries. repeat safe_step; apply safe_getContext.
Qed.

Lemma safe_saveStorageState filePath : safe (saveStorageState filePath).
Proof. unfold saveStorageState. repeat safe_step; apply safe_getContext. Qed.

Lemma safe_close : safe close.
Proof. unfold close. repeat safe_step. Qed.

Lemma safe_contextPageCreated url : safe (contextPageCreated url).
Proof. unfold contextPageCreated. repeat safe_step. Qed.

Lemma safe_exec op : safe (exec drv op).
Proof.
  destruct op; cbn [exec]; try apply safe_discard;
    auto using safe_connect, safe_connectCDP, safe_launchPersistent,
      safe_launchTemporary, safe_spawnChromeAndConnect, safe_newPage,
      safe_getOrCreatePage, safe_closePage, safe_focusPage, safe_listPages,
      safe_getConsoleLogs, safe_clearConsoleLogs, safe_getNetworkLogs,
      safe_clearNetworkLogs, safe_applyRouteBlocking, safe_saveStorageState,
      safe_loadStorageState, safe_close, safe_contextPageCreated, safe_pageEmit.
  all: unfold addBlockedPattern, clearBlockedPatterns; safe_step.
Qed.

Lemma run_step_ok ops w : step_ok w (run drv ops w).
Proof.
  revert w. induction ops as [|op ops IH]; intros w; cbn [run foldl].
  - apply step_ok_refl.
  - eapply step_ok_trans; [apply safe_exec | apply IH].
Qed.

Lemma invariant_initial o : invariant (initial o).
Proof.
  split; [split; [|split; [|split]]|split; [|split; [|split]]]; cbn;
    try done; try constructor.
Qed.

Lemma invariant_run ops o : invariant (run drv ops (initial o)).
Proof. apply run_step_ok, invariant_initial. Qed.

(** *** The page registry *)

Lemma StronglySorted_lt_NoDup (l : list Z) : StronglySorted Z.lt l -> NoDup l.
Proof.
  induction 1 as [|x l Hs IH Hall]; constructor; [|exact IH].
  intros Hin. rewrite Forall_forall in Hall. apply Hall in Hin. lia.
Qed.

(** C4: in every session, the page ids handed out are at least 1, strictly
    increasing in order of assignment and so pairwise distinct; and once a
    tracked page is closed, no later call or event is given its id. *)
Theorem page_ids_increasing_never_reused (o : Opt.t) (ops : list Op) :
  let w := run drv ops (initial o) in
  let ids := assignedIds (trace (env w)) in
  Forall (fun id => 1 <= id) ids /\
  StronglySorted Z.lt ids /\
  NoDup ids /\
  forall (pageId : Z) (later : list Op),
    is_Some (pages (mgr w) !! pageId) ->
    pageId ∉ idsAssignedSince w (run drv (OpClosePage pageId :: later) w).
Proof.
  intros w ids.
  destruct (invariant_run ops o) as [(R1 & R2 & R3 & R4) _]. fold w in R1, R2, R3, R4.
  split; [|split; [exact R4|split; [apply StronglySorted_lt_NoDup, R4|]]].
  { eapply Forall_impl; [exact R3|]. cbn. intros. lia. }
  intros pageId later [page Hpage] Hin.
  destruct (run_step_ok (OpClosePage pageId :: later) w) as [[_ (new & E & F)] _].
  unfold idsAssignedSince in Hin. rewrite E, drop_app_length in Hin.
  rewrite Forall_forall in F. apply F in Hin. apply R2 in Hpage. lia.
Qed.

(** [Math.max] of a non-empty list is its greatest element. *)
Lemma Math_max_spec (l : list Z) :
  l <> [] ->
  exists m, Math_max l = Some m /\ m ∈ l /\ forall k, k ∈ l -> k <= m.
Proof.
  induction l as [|x l IH]; [done|]. intros _. cbn [Math_max foldr].
  destruct l as [|y l].
  - cbn. exists x. split; [done|]. split; [apply list_elem_of_here|].
    intros k Hk. apply list_elem_of_singleton in Hk. lia.
  - destruct IH as (m & Hm & Hin & Hmax); [done|].
    unfold Math_max in Hm. rewrite Hm. exists (Z.max x m). split; [done|]. split.
    + destruct (Z.max_spec x m) as [[_ Hmx]|[_ Hmx]]; rewrite Hmx;
        [apply list_elem_of_further, Hin | apply list_elem_of_here].
    + intros k Hk. apply elem_of_cons in Hk as [->|Hk]; [lia|].
      apply Hmax in Hk. lia.
Qed.

(** What [newPage()] does when a context is there and the driver does not
    announce the page to the context's listener. *)
Lemma newPage_eq (w : World) (ctx : Context) :
  context (mgr w) = Some ctx ->
  announcesNewPage drv = false ->
  newPage drv None w =
  (Ok {| rp_id := nextPageId (mgr w); rp_page := Some (nextHandle (env w)) |},
   let id := nextPageId (mgr w) in
   let page := nextHandle (env w) in
   let l := nextLoc (env w) in
   {| mgr :=
        mkBrowserManager (browser (mgr w)) (context (mgr w))
          (<[id := page]> (pages (mgr w))) (id + 1) (options (mgr w))
          (<[id := l]> (consoleLogs (mgr w)))
          (<[id := S l]> (networkLogs (mgr w)))
          (blockedPatterns (mgr w)) (isRecordingVideo (mgr w))
          (chromeProcess (mgr w));
      env :=
        mkEnv (<[l := []]> (consoleArrays (env w)))
          (<[S l := []]> (networkArrays (env w)))
          (S (S l))
          (<[id := ∅]> (pendingRequests (env w)))
          (<[page := default [] (listeners (env w) !! page) ++ [id]]> (listeners (env w)))
          (S page) (contextPages (env w) ++ [page])
          (<[page := "about:blank"]> (pageUrl (env w)))
          (cookies (env w)) (localStorage (env w))
          ((trace (env w) ++ [ActNewPage page]) ++ [ActPageOn page id]) |}).
Proof.
  intros Hctx Hquiet.
  assert (Hget : getContext w = (Ok ctx, w)).
  { unfold getContext, bind, this. by rewrite Hctx. }
  unfold newPage. unfold bind at 1. rewrite Hget.
  unfold ctx_newPage. rewrite Hquiet. reflexivity.
Qed.

(** The explicit result of [newPage] when the driver announces the page:
    the listener registers it first, [newPage] again. *)
Lemma newPage_announced_eq (w : World) (ctx : Context) :
  context (mgr w) = Some ctx ->
  announcesNewPage drv = true ->
  exists w',
    newPage drv None w
    = (Ok {| rp_id := nextPageId (mgr w) + 1; rp_page := Some (nextHandle (env w)) |}, w') /\
    pages (mgr w')
    = <[nextPageId (mgr w) + 1 := nextHandle (env w)]>
        (<[nextPageId (mgr w) := nextHandle (env w)]> (pages (mgr w))) /\
    nextPageId (mgr w') = nextPageId (mgr w) + 2 /\
    contextPages (env w') = contextPages (env w) ++ [nextHandle (env w)] /\
    trace (env w')
    = trace (env w) ++ [ActNewPage (nextHandle (env w));
                        ActPageOn (nextHandle (env w)) (nextPageId (mgr w));
                        ActPageOn (nextHandle (env w)) (nextPageId (mgr w) + 1)].
Proof.
  intros Hctx Hloud.
  assert (Hget : getContext w = (Ok ctx, w)).
  { unfold getContext, bind, this. by rewrite Hctx. }
  unfold newPage. unfold bind at 1. rewrite Hget.
  unfold ctx_newPage. rewrite Hloud.
  unfold when, onPage. unfold bind, getEnv, emit, updateEnv, ret. cbv beta iota.
  rewrite trackPage_eq. cbv beta iota zeta.
  rewrite trackPage_eq. cbv beta iota zeta.
  change (truthy None) with false. cbv beta iota.
  eexists. split; [reflexivity|]. cbn [mgr env pages nextPageId contextPages trace].
  split; [done|]. split; [lia|]. split; [done|].
  cbn. by rewrite <- !app_assoc.
Qed.

(** Without an id and with a page registered, [getOrCreatePage] returns
    the registered page with the greatest id. *)
Lemma getOrCreatePage_last (w : World) :
  pages (mgr w) <> ∅ ->
  exists lastId page,
    pages (mgr w) !! lastId = Some page /\
    (forall id, is_Some (pages (mgr w) !! id) -> id <= lastId) /\
    getOrCreatePage drv None w
    = (Ok {| rp_id := lastId; rp_page := Some page |}, w).
Proof.
  intros Hne. unfold getOrCreatePage, bind, this.
  assert (Hsize : (0 <? Z.of_nat (size (pages (mgr w)))) = true).
  { apply Z.ltb_lt. destruct (size (pages (mgr w))) eqn:E; [|lia].
    by apply map_size_empty_inv in E. }
  rewrite Hsize.
  destruct (Math_max_spec (fst <$> map_to_list (pages (mgr w))))
    as (lastId & Hmax & Hin & Hle).
  { intros E. apply fmap_nil_inv, map_to_list_empty_iff in E. done. }
  rewrite Hmax.
  apply list_elem_of_fmap in Hin as ([k page] & -> & Hin).
  apply elem_of_map_to_list in Hin. cbn [fst] in *.
  exists k, page. split; [exact Hin|]. split; [|by rewrite Hin].
  intros id [p Hp]. apply Hle. apply list_elem_of_fmap. exists (id, p).
  split; [done|]. by apply elem_of_map_to_list.
Qed.

(** C5: [getOrCreatePage] with an id returns the tracked page with that id
    and throws when there is none; without an id it returns the tracked
    page with the greatest id.  On an empty registry of a connected manager
    it opens exactly one page in the browser, and a second call without an
    id returns the same page and id again; but how the page is registered
    depends on the context.  When the context leaves the page to
    [newPage], it is registered once, under the next id (1 on a fresh
    session).  When the context announces the page to the listener that
    the connection installed, as it does for every page created in it, the
    listener registers the page under the next id and [newPage] registers
    it again under the one after: the page is tracked under two ids and
    the call returns the second (2 on a fresh session). *)
Theorem getOrCreatePage_spec (w : World) :
  (forall pageId page,
     pages (mgr w) !! pageId = Some page ->
     getOrCreatePage drv (Some pageId) w
     = (Ok {| rp_id := pageId; rp_page := Some page |}, w)) /\
  (forall pageId,
     pages (mgr w) !! pageId = None ->
     getOrCreatePage drv (Some pageId) w
     = (Throw (Error ("Page " +:+ pretty pageId
                      +:+ " not found. Use list_pages to see available pages.")), w)) /\
  (pages (mgr w) <> ∅ ->
   exists lastId page,
     pages (mgr w) !! lastId = Some page /\
     (forall id, is_Some (pages (mgr w) !! id) -> id <= lastId) /\
     getOrCreatePage drv None w
     = (Ok {| rp_id := lastId; rp_page := Some page |}, w)) /\
  (pages (mgr w) = ∅ -> is_Some (context (mgr w)) ->
   let id := nextPageId (mgr w) in
   let page := nextHandle (env w) in
   let returned := if announcesNewPage drv then id + 1 else id in
   exists w',
     getOrCreatePage drv None w
     = (Ok {| rp_id := returned; rp_page := Some page |}, w') /\
     pages (mgr w')
     = (if announcesNewPage drv then <[id + 1 := page]> {[ id := page ]}
        else {[ id := page ]}) /\
     contextPages (env w') = contextPages (env w) ++ [page] /\
     (announcesNewPage drv = false -> id = 1 -> pages (mgr w') = {[ 1 := page ]}) /\
     (announcesNewPage drv = true -> id = 1 ->
      returned = 2 /\ pages (mgr w') = <[2 := page]> {[ 1 := page ]}) /\
     getOrCreatePage drv None w'
     = (Ok {| rp_id := returned; rp_page := Some page |}, w')).
Proof.
  split; [|split; [|split]].
  - intros pageId page H. unfold getOrCreatePage, bind, this. by rewrite H.
  - intros pageId H. unfold getOrCreatePage, bind, this. by rewrite H.
  - apply getOrCreatePage_last.
  - intros Hempty [ctx Hctx] id page returned.
    assert (Hget : getOrCreatePage drv None w = newPage drv None w).
    { unfold getOrCreatePage, bind at 1, this at 1. by rewrite Hempty. }
    subst returned. destruct (announcesNewPage drv) eqn:Hann.
    + destruct (newPage_announced_eq w ctx Hctx Hann)
        as (w' & Hnew & Hpages & _ & Hcp & _).
      fold id page in Hnew, Hpages, Hcp. rewrite Hempty, insert_empty in Hpages.
      exists w'. rewrite Hget. split; [exact Hnew|]. split; [exact Hpages|].
      split; [exact Hcp|]. split; [done|]. split.
      { intros _ Hid. rewrite Hpages, Hid. done. }
      destruct (getOrCreatePage_last w') as (lastId & page' & Hl & Hmax & Hcall).
      { rewrite Hpages. apply insert_non_empty. }
      assert (Hle : id + 1 <= lastId).
      { apply Hmax. rewrite Hpages, lookup_insert_eq. eauto. }
      rewrite Hpages in Hl.
      destruct (decide (lastId = id + 1)) as [->|Hne].
      * rewrite lookup_insert_eq in Hl. injection Hl as <-. exact Hcall.
      * rewrite lookup_insert_ne in Hl by done.
        apply lookup_singleton_Some in Hl as [<- _]. lia.
    + rewrite Hget, (newPage_eq w ctx Hctx Hann). cbv zeta.
      eexists. split; [reflexivity|].
      cbn [mgr env pages contextPages nextPageId]. rewrite Hempty.
      split; [by rewrite insert_empty|]. split; [done|].
      split; [intros _ Hid; subst id page; by rewrite Hid, insert_empty|].
      split; [done|].
      unfold getOrCreatePage, bind, this. cbn [mgr pages].
      rewrite insert_empty, map_size_singleton, map_to_list_singleton. cbn.
      by rewrite Z.max_id || rewrite lookup_singleton_eq.
Qed.

(** C10: for a page id that the registry does not hold, [closePage] and
    [focusPage] return normally and change nothing at all (registry,
    buffers, browser), whereas [getOrCreatePage] with that id throws. *)
Theorem unknown_page_close_focus_noop (w : World) (pageId : Z) :
  pages (mgr w) !! pageId = None ->
  closePage pageId w = (Ok tt, w) /\
  focusPage pageId w = (Ok tt, w) /\
  getOrCreatePage drv (Some pageId) w
  = (Throw (Error ("Page " +:+ pretty pageId
                   +:+ " not found. Use list_pages to see available pages.")), w).
Proof.
  intros H. unfold closePage, focusPage, getOrCreatePage, bind, this.
  rewrite H. done.
Qed.

(** *** Connecting *)

Lemma truthy_Some (s : string) : s <> "" -> truthy (Some s) = true.
Proof. intros H. cbn. by apply negb_true_iff, String.eqb_neq. Qed.

(** [buildContextOptions] touches only the recording flag. *)
Lemma buildContextOptions_eq (w : World) :
  exists m',
    buildContextOptions w = (Ok tt, mkWorld m' (env w)) /\
    m' = (if nullish (Opt.recordVideo (options (mgr w))) false
          then set_isRecordingVideo true (mgr w) else mgr w).
Proof.
  unfold buildContextOptions, bind, this.
  destruct (nullish (Opt.recordVideo (options (mgr w))) false); cbn.
  - eexists. split; reflexivity.
  - exists (mgr w). split; [by destruct w|reflexivity].
Qed.

(** A persistent launch that the browser rejects: [launchPersistent]
    throws what its [catch] block makes of the error, after the one call
    of the driver. *)
Lemma launchPersistent_rejected (w : World) (dir : string) (err : JsError) :
  Opt.userDataDir (options (mgr w)) = Some dir -> dir <> "" ->
  launchPersistentContext drv (getBrowserType (mgr w)) dir = inl err ->
  exists w',
    launchPersistent drv None w = (Throw (launchPersistentCatch err), w') /\
    trace (env w') = trace (env w)
                     ++ [ActLaunchPersistentContext (getBrowserType (mgr w)) dir].
Proof.
  intros Hdir Hne Hlaunch.
  destruct (buildContextOptions_eq w) as (m' & Hb & _).
  unfold launchPersistent. unfold bind at 1. unfold this at 1.
  rewrite Hdir. cbn [nullish].
  apply String.eqb_neq in Hne. rewrite Hne.
  unfold bind at 1. rewrite Hb. unfold bind at 1, emit at 1, updateEnv at 1.
  rewrite Hlaunch. eexists. split; reflexivity.
Qed.

(** The text of the locked-profile error is longer than the message it
    quotes. *)
Lemma profileLockedMessage_longer (msg : string) : profileLockedMessage msg <> msg.
Proof.
  intros H. apply (f_equal String.length) in H.
  unfold profileLockedMessage, newline in H. vm_compute in H. lia.
Qed.

(** C2: when the attach URL is unset, a profile directory is configured
    and the persistent launch fails with an error of the locked-profile
    class (its message contains [lock], [already running] or
    [SingletonLock] and was not taken for the debugging-pipe rejection that
    the code tests first), [connect] throws the locked-profile error with
    its remediation text: the message reads that the profile is locked and
    that all windows are to be closed before a retry, proposes the attach
    to a browser started with the debugging port 9222 instead, and ends
    with the original message; the error carries no fallback mark.  The
    only call made on the driver is that launch: nothing is spawned,
    nothing is attached to, and no temporary browser is launched. *)
Theorem connect_profile_locked (w : World) (dir msg : string) (err : JsError) :
  truthy (Opt.cdpUrl (options (mgr w))) = false ->
  Opt.userDataDir (options (mgr w)) = Some dir -> dir <> "" ->
  launchPersistentContext drv (getBrowserType (mgr w)) dir = inl err ->
  message err = Some msg ->
  includes "non-default data directory" msg || includes "remote debugging" msg = false ->
  includes "lock" msg || includes "already running" msg
    || includes "SingletonLock" msg = true ->
  exists w',
    connect drv w = (Throw (Error (profileLockedMessage msg)), w') /\
    (forall e, (connect drv w).1 = Throw e ->
       message e
       = Some ("Chrome profile is locked — close ALL Chrome windows first, then retry."
               +:+ String "010"%char
                     ("Or use CDP instead: start Chrome with --remote-debugging-port=9222 and use --cdp http://localhost:9222"
                      +:+ String "010"%char ("Original error: " +:+ msg))) /\
       message e <> Some msg /\
       needsCdpFallback e = false) /\
    trace (env w') = trace (env w)
                     ++ [ActLaunchPersistentContext (getBrowserType (mgr w)) dir].
Proof.
  intros Hcdp Hdir Hne Hlaunch Hmsg Hpipe Hlock.
  destruct (launchPersistent_rejected w dir err Hdir Hne Hlaunch) as (w' & Hlp & Htrace).
  assert (Hcatch : launchPersistentCatch err = Error (profileLockedMessage msg)).
  { unfold launchPersistentCatch, messageIncludes. rewrite Hmsg, Hpipe, Hlock. done. }
  exists w'.
  assert (Hconnect : connect drv w = (Throw (Error (profileLockedMessage msg)), w'));
    [|split; [exact Hconnect|split; [|exact Htrace]];
      intros e He; rewrite Hconnect in He; injection He as <-;
      split; [reflexivity|split; [|reflexivity]];
      intros [= Heq]; by apply (profileLockedMessage_longer msg)].
  unfold connect. unfold bind at 1. unfold this at 1.
  rewrite Hcdp, Hdir, (truthy_Some dir Hne).
  unfold tryCatch. unfold bind at 1. rewrite Hlp, Hcatch. reflexivity.
Qed.

(** A loop of [ctx.route] calls only extends the trace. *)
Lemma forEach_route (patterns : list string) (w : World) :
  forEach patterns (fun pattern => emit (ActRoute pattern)) w
  = (Ok tt, mkWorld (mgr w)
              (set_trace (trace (env w) ++ (ActRoute <$> patterns)) (env w))).
Proof.
  revert w. induction patterns as [|p ps IH]; intros w.
  - cbn. unfold ret. rewrite app_nil_r. by destruct w as [m []].
  - cbn [forEach]. unfold bind at 1, emit at 1, updateEnv at 1.
    rewrite IH. cbn. by rewrite <- app_assoc.
Qed.

Lemma applyRouteBlocking_eq (w : World) (ctx : Context) :
  context (mgr w) = Some ctx ->
  applyRouteBlocking w
  = (Ok tt, mkWorld (mgr w)
              (set_trace (trace (env w) ++ (ActRoute <$> blockedPatterns (mgr w)))
                 (env w))).
Proof.
  intros Hctx. unfold applyRouteBlocking, getContext, bind, this.
  rewrite Hctx. apply forEach_route.
Qed.

(** A temporary launch that succeeds. *)
Lemma launchTemporary_launched (w : World) :
  launch drv (getBrowserType (mgr w)) = None ->
  exists w',
    launchTemporary drv w = (Ok tt, w') /\
    trace (env w') = trace (env w)
                     ++ [ActLaunch (getBrowserType (mgr w)); ActNewContext; ActAddInitScript]
                     ++ (ActRoute <$> blockedPatterns (mgr w)) ++ [ActOnPage] /\
    browser (mgr w') = Some (LaunchedBrowser (getBrowserType (mgr w))) /\
    context (mgr w')
    = Some (FreshContext (LaunchedBrowser (getBrowserType (mgr w)))) /\
    options (mgr w') = options (mgr w) /\
    pages (mgr w') = pages (mgr w) /\
    nextPageId (mgr w') = nextPageId (mgr w) /\
    contextPages (env w') = [].
Proof.
  intros Hlaunch.
  destruct (buildContextOptions_eq w) as (m' & Hb & Hm').
  assert (Hfields : options m' = options (mgr w) /\ pages m' = pages (mgr w) /\
                    nextPageId m' = nextPageId (mgr w) /\
                    blockedPatterns m' = blockedPatterns (mgr w)).
  { subst m'. by destruct (nullish _ false). }
  destruct Hfields as (Ho & Hp & Hn & Hbp).
  unfold launchTemporary. unfold bind at 1. unfold this at 1.
  unfold bind at 1. rewrite Hb.
  unfold bind at 1, emit at 1, updateEnv at 1. rewrite Hlaunch.
  destruct (blockedPatterns (mgr w)) as [|p ps] eqn:Epat.
  - eexists. split.
    { unfold bind, emit, update, updateEnv, openContext, this, when. cbn.
      rewrite Hbp. cbn. reflexivity. }
    cbn. rewrite Ho, Hp, Hn, <- !app_assoc. done.
  - eexists. split.
    { unfold bind, emit, update, updateEnv, openContext, this, when. cbn.
      rewrite Hbp. cbn [length].
      replace (0 <? Z.of_nat (S (length ps))) with true
        by (symmetry; apply Z.ltb_lt; lia).
      erewrite applyRouteBlocking_eq by reflexivity. cbn. rewrite Hbp.
      reflexivity. }
    cbn. rewrite Ho, Hp, Hn, <- !app_assoc. done.
Qed.

Lemma browserName_getBrowserType (m : BrowserManager) :
  engineName (getBrowserType m) = browserName m.
Proof.
  unfold getBrowserType, browserName. by destruct (Opt.browser (options m)) as [[]|].
Qed.

(** An attach that the endpoint refuses: [connectCDP] throws the error of
    the driver after the one call, and the manager is as before. *)
Lemma connectCDP_refused (w : World) (cdpUrl : option string) (url : string)
    (err : JsError) :
  nullish cdpUrl (nullish (Opt.cdpUrl (options (mgr w))) "http://localhost:9222") = url ->
  connectOverCDP drv url = inl err ->
  connectCDP drv cdpUrl w
  = (Throw err, mkWorld (mgr w)
                  (set_trace (trace (env w) ++ [ActConnectOverCDP url]) (env w))).
Proof.
  intros Hurl Hattach. unfold connectCDP, bind, this, emit, updateEnv.
  rewrite Hurl, Hattach. reflexivity.
Qed.

(** C3 (amended): when neither an attach URL nor a profile directory is
    configured and nothing listens on the default endpoint
    [http://localhost:9222], [connect] falls through to a temporary launch
    of the requested engine and, when that launch succeeds, returns
    normally with a session that reports that engine.  When an attach URL
    is configured and the attach fails, [connect] throws the error of the
    attach and launches nothing. *)
Theorem connect_falls_through_to_temporary (w : World) (err : JsError) :
  (truthy (Opt.cdpUrl (options (mgr w))) = false ->
   truthy (Opt.userDataDir (options (mgr w))) = false ->
   connectOverCDP drv "http://localhost:9222" = inl err ->
   launch drv (getBrowserType (mgr w)) = None ->
   exists suffix w',
     connect drv w = (Ok ("Launched " +:+ browserName (mgr w) +:+ suffix), w') /\
     trace (env w') = trace (env w)
       ++ [ActConnectOverCDP "http://localhost:9222";
           ActLaunch (getBrowserType (mgr w)); ActNewContext; ActAddInitScript]
       ++ (ActRoute <$> blockedPatterns (mgr w)) ++ [ActOnPage] /\
     browser (mgr w') = Some (LaunchedBrowser (getBrowserType (mgr w))) /\
     bi_engine (getBrowserInfo (mgr w')) = engineName (getBrowserType (mgr w)) /\
     bi_connected (getBrowserInfo (mgr w')) = true) /\
  (forall url,
     Opt.cdpUrl (options (mgr w)) = Some url -> url <> "" ->
     connectOverCDP drv url = inl err ->
     exists w',
       connect drv w = (Throw err, w') /\
       mgr w' = mgr w /\
       trace (env w') = trace (env w) ++ [ActConnectOverCDP url]).
Proof.
  split.
  - intros Hcdp Hdir Hattach Hlaunch.
    pose proof (connectCDP_refused w (Some "http://localhost:9222") _ err eq_refl Hattach)
      as Hc.
    set (w1 := mkWorld (mgr w) _) in Hc.
    destruct (launchTemporary_launched w1 Hlaunch)
      as (w' & Hl & Ht & Hb & Hctx & Ho & _).
    cbn [w1 mgr env trace set_trace] in Ht, Hb, Hctx, Ho.
    eexists _, w'. split.
    { unfold connect. unfold bind at 1. unfold this at 1. rewrite Hcdp, Hdir.
      unfold tryCatch. unfold bind at 1. rewrite Hc. unfold bind at 1. rewrite Hl.
      reflexivity. }
    split; [by rewrite Ht, <- app_assoc|].
    split; [exact Hb|]. split.
    + unfold getBrowserInfo, bi_engine, browserName. rewrite Ho.
      symmetry. apply browserName_getBrowserType.
    + unfold getBrowserInfo, bi_connected. rewrite Hctx. done.
  - intros url Hurl Hne Hattach. eexists. split.
    { unfold connect. unfold bind at 1. unfold this at 1.
      rewrite Hurl, (truthy_Some url Hne). unfold bind at 1.
      rewrite (connectCDP_refused w None url err); [reflexivity| |exact Hattach].
      by rewrite Hurl. }
    done.
Qed.

(** *** Storage state *)

Lemma replayed_nil o w w' :
  mgr w' = mgr w -> contextPages (env w') = contextPages (env w) ->
  pageUrl (env w') = pageUrl (env w) -> cookies (env w') = cookies (env w) ->
  localStorage (env w') = localStorage (env w) ->
  replayed o [] w w'.
Proof. intros ? ? ? ? Hls. unfold replayed. rewrite Hls. done. Qed.

Lemma replayed_app o e1 e2 w1 w2 w3 :
  replayed o e1 w1 w2 -> replayed o e2 w2 w3 -> replayed o (e1 ++ e2) w1 w3.
Proof.
  intros (A1 & A2 & A3 & A4 & A5 & A6) (B1 & B2 & B3 & B4 & B5 & B6).
  unfold replayed. rewrite B1, B2, B3, B4, A1, A2, A3, A4.
  repeat split; try done.
  - intros o' Hne. by rewrite B5, A5.
  - rewrite B6, A6. unfold setItems. by rewrite foldl_app.
Qed.

Lemma setItem_loop (o : string) (entries : list (string * string)) (w : World) :
  exists w',
    forEach entries (fun nv =>
      updateEnv (fun e =>
        set_localStorage
          (<[o := <[nv.1 := nv.2]> (default ∅ (localStorage e !! o))]> (localStorage e)) e)) w
    = (Ok tt, w') /\
    replayed o entries w w'.
Proof.
  revert w. induction entries as [|[n v] entries IH]; intros w.
  - exists w. split; [reflexivity|]. by apply replayed_nil.
  - cbn [forEach]. unfold bind at 1, updateEnv at 1.
    destruct (IH (mkWorld (mgr w)
                    (set_localStorage
                       (<[o := <[n := v]> (default ∅ (localStorage (env w) !! o))]>
                          (localStorage (env w))) (env w))))
      as (w' & Hrun & Hrel).
    exists w'. split; [exact Hrun|].
    eapply (replayed_app o [(n, v)] entries w); [|exact Hrel].
    unfold replayed. cbn. repeat split; try done.
    + intros o' Hne. by rewrite lookup_insert_ne.
    + by rewrite lookup_insert_eq.
Qed.

Lemma replayEntries_replayed (page : PageHandle) (entries : list (string * string))
    (originUrl : string) (w : World) :
  exists w',
    replayEntries drv page entries originUrl w = (Ok tt, w') /\
    replayed (pageOrigin drv (env w) page)
      (if String.eqb (pageOrigin drv (env w) page) originUrl then entries else [])
      w w'.
Proof.
  unfold replayEntries. unfold bind at 1, emit at 1, updateEnv at 1.
  unfold bind at 1, getEnv at 1. cbn [mgr env].
  change (pageOrigin drv (set_trace _ (env w)) page) with (pageOrigin drv (env w) page).
  destruct (String.eqb_spec (pageOrigin drv (env w) page) originUrl) as [<-|Hne].
  - destruct (setItem_loop (pageOrigin drv (env w) page) entries
                (mkWorld (mgr w)
                   (set_trace (trace (env w)
                               ++ [ActEvaluate page (pageOrigin drv (env w) page)])
                      (env w))))
      as (w' & Hrun & Hrel).
    exists w'. split; [exact Hrun|]. exact Hrel.
  - eexists. split; [reflexivity|]. by apply replayed_nil.
Qed.

(** The loop over the origins of [loadStorageState], when a page is open. *)
Lemma origins_loop (origins : list OriginState) (page0 : PageHandle)
    (rest : list PageHandle) (w : World) :
  contextPages (env w) = page0 :: rest ->
  exists w',
    forEach origins (fun origin =>
      let* e := getEnv in
      match contextPages e with
      | page0 :: _ =>
          replayEntries drv page0 (nullish (os_localStorage origin) [])
            (os_origin origin)
      | [] => ret tt
      end) w
    = (Ok tt, w') /\
    replayed (pageOrigin drv (env w) page0)
      (entriesFor (pageOrigin drv (env w) page0) origins) w w'.
Proof.
  revert w. induction origins as [|os origins IH]; intros w Hpages.
  - exists w. split; [reflexivity|]. by apply replayed_nil.
  - cbn [forEach]. unfold bind at 1. unfold bind at 1, getEnv at 1. rewrite Hpages.
    destruct (replayEntries_replayed page0 (nullish (os_localStorage os) [])
                (os_origin os) w) as (w1 & Hrun1 & Hrel1).
    rewrite Hrun1.
    pose proof Hrel1 as (_ & Hp1 & Hu1 & _).
    destruct (IH w1) as (w' & Hrun & Hrel); [by rewrite Hp1|].
    assert (Ho : pageOrigin drv (env w1) page0 = pageOrigin drv (env w) page0).
    { unfold pageOrigin. by rewrite Hu1. }
    rewrite Ho in Hrel.
    exists w'. split; [exact Hrun|].
    cbn [entriesFor flat_map]. eapply replayed_app; [exact Hrel1|exact Hrel].
Qed.

(** The loop over the origins when no page is open: nothing happens. *)
Lemma origins_loop_no_page (origins : list OriginState) (w : World) :
  contextPages (env w) = [] ->
  forEach origins (fun origin =>
    let* e := getEnv in
    match contextPages e with
    | page0 :: _ =>
        replayEntries drv page0 (nullish (os_localStorage origin) [])
          (os_origin origin)
    | [] => ret tt
    end) w
  = (Ok tt, w).
Proof.
  intros Hpages. induction origins as [|os origins IH]; [reflexivity|].
  cbn [forEach]. unfold bind at 1. unfold bind at 1, getEnv at 1.
  rewrite Hpages. exact IH.
Qed.

(** C8 (amended): [loadStorageState] of a file that exists and parses, on a
    connected manager, returns normally; it adds the cookies of the
    snapshot whatever pages are open; it replays local-storage entries
    only through the first open page, and only the entries of the origins
    equal to that page's origin; the storage of every other origin is left
    as it was, also when a later page has that origin, and with no page
    open nothing is replayed. *)
Theorem loadStorageState_replays_into_first_page (w : World) (filePath : string)
    (state : StorageState) (ctx : Context) :
  existsSync drv filePath = true ->
  readJson drv filePath = inr state ->
  context (mgr w) = Some ctx ->
  exists w',
    loadStorageState drv filePath w = (Ok tt, w') /\
    mgr w' = mgr w /\
    cookies (env w') = cookies (env w) ++ nullish (ss_cookies state) [] /\
    contextPages (env w') = contextPages (env w) /\
    match contextPages (env w) with
    | [] => localStorage (env w') = localStorage (env w)
    | page0 :: _ =>
        let o0 := pageOrigin drv (env w) page0 in
        (forall o, o <> o0 ->
           localStorage (env w') !! o = localStorage (env w) !! o) /\
        default ∅ (localStorage (env w') !! o0)
        = setItems (entriesFor o0 (nullish (ss_origins state) []))
            (default ∅ (localStorage (env w) !! o0))
    end.
Proof.
  intros Hexists Hread Hctx.
  unfold loadStorageState. rewrite Hexists, Hread.
  unfold bind at 1, getContext at 1. unfold bind at 1, this at 1. rewrite Hctx.
  cbn [ret]. unfold bind at 1, emit at 1, updateEnv at 1.
  unfold bind at 1, updateEnv at 1. cbn [mgr env].
  set (w1 := mkWorld (mgr w) _).
  destruct (contextPages (env w)) as [|page0 rest] eqn:Hpages.
  - rewrite origins_loop_no_page by done. exists w1. by subst w1.
  - destruct (origins_loop (nullish (ss_origins state) []) page0 rest w1)
      as (w' & Hrun & Hrel); [done|].
    exists w'. split; [exact Hrun|].
    destruct Hrel as (R1 & R2 & R3 & R4 & R5 & R6).
    split; [exact R1|]. split; [by rewrite R4|]. split; [by rewrite R2|].
    split; [exact R5|exact R6].
Qed.

(** *** Telemetry buffers *)



Lemma consoleBuffer_Some (w : World) (pageId : Z) (b : list ConsoleLogEntry) :
  consoleBuffer w pageId = Some b <->
  exists l, consoleLogs (mgr w) !! pageId = Some l /\ consoleArrays (env w) !! l = Some b.
Proof. unfold consoleBuffer. apply bind_Some. Qed.

Lemma networkBuffer_Some (w : World) (pageId : Z) (b : list NetworkLogEntry) :
  networkBuffer w pageId = Some b <->
  exists l, networkLogs (mgr w) !! pageId = Some l /\ networkArrays (env w) !! l = Some b.
Proof. unfold networkBuffer. apply bind_Some. Qed.

(** One console message: the entry is appended when the buffer holds fewer
    than 500 entries and dropped otherwise. *)
Lemma onConsole_buffer (w : World) (pageId : Z) (b : list ConsoleLogEntry) msg now :
  consoleBuffer w pageId = Some b ->
  consoleBuffer (onConsole pageId msg now w).2 pageId
  = Some (if Z.of_nat (length b) <? 500 then b ++ [consoleEntry msg now] else b).
Proof.
  intros (l & Hl & Hb)%consoleBuffer_Some.
  unfold onConsole, bind, this, getEnv. rewrite Hl, Hb. cbn [default from_option id].
  destruct (Z.of_nat (length b) <? 500); cbn [snd ret updateEnv].
  - apply consoleBuffer_Some. exists l. split; [exact Hl|]. cbn. apply lookup_insert_eq.
  - apply consoleBuffer_Some. eauto.
Qed.

(** One response: likewise for the network buffer. *)
Lemma onResponse_buffer (w : World) (pageId : Z) (b : list NetworkLogEntry)
    response now now' :
  networkBuffer w pageId = Some b ->
  exists entry,
    nl_url entry = resp_url response /\
    nl_status entry = Some (resp_status response) /\
    nl_timestamp entry = now /\
    networkBuffer (onResponse pageId response now now' w).2 pageId
    = Some (if Z.of_nat (length b) <? 500 then b ++ [entry] else b).
Proof.
  intros (l & Hl & Hb)%networkBuffer_Some.
  eexists (networkEntry _ response now now'). split; [reflexivity|].
  split; [reflexivity|]. split; [reflexivity|].
  unfold onResponse, bind, this, getEnv. rewrite Hl, Hb. cbn [default from_option id].
  destruct (Z.of_nat (length b) <? 500); cbn [snd ret updateEnv].
  - apply networkBuffer_Some. exists l. split; [exact Hl|]. cbn. apply lookup_insert_eq.
  - apply networkBuffer_Some. exists l. split; [exact Hl|exact Hb].
Qed.

Lemma take_500_step {A} (b rest : list A) (e : A) :
  (length b <= 500)%nat ->
  take 500 ((if Z.of_nat (length b) <? 500 then b ++ [e] else b) ++ rest)
  = take 500 (b ++ e :: rest).
Proof.
  intros Hlen. destruct (Z.ltb_spec (Z.of_nat (length b)) 500) as [Hlt|Hge].
  - by rewrite <- app_assoc.
  - rewrite !take_app_le by lia. done.
Qed.

Lemma keep_length_500 {A} (b : list A) (e : A) :
  (length b <= 500)%nat ->
  (length (if (Z.of_nat (length b) <? 500)%Z then b ++ [e] else b) <= 500)%nat.
Proof.
  intros Hlen. destruct (Z.ltb_spec (Z.of_nat (length b)) 500) as [Hlt|Hge];
    [rewrite length_app; cbn; lia | exact Hlen].
Qed.

(** Console messages delivered one after the other: the buffer keeps the
    first 500 entries. *)
Lemma deliverConsole_buffer (w : World) (pageId : Z) (b : list ConsoleLogEntry)
    (msgs : list (ConsoleMessage * Z)) :
  consoleBuffer w pageId = Some b -> (length b <= 500)%nat ->
  consoleBuffer (deliverConsole pageId msgs w) pageId
  = Some (take 500 (b ++ ((fun mn => consoleEntry mn.1 mn.2) <$> msgs))).
Proof.
  revert w b. induction msgs as [|[msg now] msgs IH]; intros w b Hb Hlen.
  - cbn. by rewrite app_nil_r, take_ge.
  - cbn [deliverConsole foldl fmap list_fmap fst snd].
    change (foldl _ ?w0 msgs) with (deliverConsole pageId msgs w0).
    rewrite (IH _ _ (onConsole_buffer w pageId b msg now Hb) (keep_length_500 _ _ Hlen)).
    f_equal. by apply take_500_step.
Qed.

Lemma deliverResponses_buffer (w : World) (pageId : Z) (b : list NetworkLogEntry)
    (rs : list (Response * Z * Z)) :
  networkBuffer w pageId = Some b -> (length b <= 500)%nat ->
  exists entries,
    Forall2 (fun e r => nl_url e = resp_url r.1.1 /\
                        nl_status e = Some (resp_status r.1.1) /\
                        nl_timestamp e = r.1.2) entries rs /\
    networkBuffer (deliverResponses pageId rs w) pageId
    = Some (take 500 (b ++ entries)).
Proof.
  revert w b. induction rs as [|[[response now] now'] rs IH]; intros w b Hb Hlen.
  - exists []. split; [constructor|]. cbn. by rewrite app_nil_r, take_ge.
  - destruct (onResponse_buffer w pageId b response now now' Hb)
      as (entry & Hu & Hs & Ht & Hstep).
    destruct (IH _ _ Hstep (keep_length_500 _ _ Hlen)) as (entries & HF & Hrest).
    exists (entry :: entries). split; [constructor; [done|exact HF]|].
    cbn [deliverResponses foldl fst snd].
    change (foldl _ ?w0 rs) with (deliverResponses pageId rs w0).
    rewrite Hrest. f_equal. by apply take_500_step.
Qed.

(** Reading through a reference: a console message changes the array of
    the page it belongs to, when it holds fewer than 500 entries, and no
    other array. *)
Lemma onConsole_read (w : World) (pageId : Z) (l : Loc) msg now :
  consoleLogs (mgr w) !! pageId = Some l ->
  let w' := (onConsole pageId msg now w).2 in
  consoleLogs (mgr w') = consoleLogs (mgr w) /\
  nextLoc (env w') = nextLoc (env w) /\
  ((length (readConsole w l) < 500)%nat ->
   readConsole w' l = readConsole w l ++ [consoleEntry msg now]) /\
  (forall l', l' <> l -> readConsole w' l' = readConsole w l').
Proof.
  intros Hl. unfold onConsole, bind, this, getEnv, readConsole. rewrite Hl.
  destruct (Z.ltb_spec (Z.of_nat (length (default [] (consoleArrays (env w) !! l)))) 500)
    as [Hlt|Hge]; cbn [snd ret updateEnv mgr env consoleArrays set_consoleArrays nextLoc].
  - split; [done|]. split; [done|]. split.
    + intros _. by rewrite lookup_insert_eq.
    + intros l' Hne. by rewrite lookup_insert_ne.
  - split; [done|]. split; [done|]. split; [lia|done].
Qed.

Lemma onResponse_read (w : World) (pageId : Z) (l : Loc) response now now' :
  networkLogs (mgr w) !! pageId = Some l ->
  let w' := (onResponse pageId response now now' w).2 in
  networkLogs (mgr w') = networkLogs (mgr w) /\
  nextLoc (env w') = nextLoc (env w) /\
  ((length (readNetwork w l) < 500)%nat ->
   exists entry, nl_url entry = resp_url response /\
                 readNetwork w' l = readNetwork w l ++ [entry]) /\
  (forall l', l' <> l -> readNetwork w' l' = readNetwork w l').
Proof.
  intros Hl. unfold onResponse, bind, this, getEnv, readNetwork. rewrite Hl.
  destruct (Z.ltb_spec (Z.of_nat (length (default [] (networkArrays (env w) !! l)))) 500)
    as [Hlt|Hge];
    cbn [snd ret updateEnv mgr env networkArrays set_networkArrays
         set_pendingRequests nextLoc].
  - split; [done|]. split; [done|]. split.
    + intros _. eexists (networkEntry _ response now now'). split; [reflexivity|].
      by rewrite lookup_insert_eq.
    + intros l' Hne. by rewrite lookup_insert_ne.
  - split; [done|]. split; [done|]. split; [lia|done].
Qed.

(** [clearConsoleLogs] stores a new empty array and touches no other. *)
Lemma clearConsoleLogs_read (w : World) (pageId : Z) :
  let w' := (clearConsoleLogs pageId w).2 in
  consoleLogs (mgr w') !! pageId = Some (nextLoc (env w)) /\
  readConsole w' (nextLoc (env w)) = [] /\
  (forall l, l <> nextLoc (env w) -> readConsole w' l = readConsole w l).
Proof.
  unfold clearConsoleLogs, newConsoleArray, bind, getEnv, updateEnv, update, ret,
    readConsole.
  cbn [snd mgr env consoleLogs set_consoleLogs consoleArrays set_consoleArrays
       set_nextLoc].
  split; [apply lookup_insert_eq|]. split; [by rewrite lookup_insert_eq|].
  intros l Hne. by rewrite lookup_insert_ne.
Qed.

Lemma clearNetworkLogs_read (w : World) (pageId : Z) :
  let w' := (clearNetworkLogs pageId w).2 in
  networkLogs (mgr w') !! pageId = Some (nextLoc (env w)) /\
  readNetwork w' (nextLoc (env w)) = [] /\
  (forall l, l <> nextLoc (env w) -> readNetwork w' l = readNetwork w l).
Proof.
  unfold clearNetworkLogs, newNetworkArray, bind, getEnv, updateEnv, update, ret,
    readNetwork.
  cbn [snd mgr env networkLogs set_networkLogs networkArrays set_networkArrays
       set_nextLoc].
  split; [apply lookup_insert_eq|]. split; [by rewrite lookup_insert_eq|].
  intros l Hne. by rewrite lookup_insert_ne.
Qed.

Lemma getConsoleLogs_tracked (w : World) (pageId : Z) (l : Loc) :
  consoleLogs (mgr w) !! pageId = Some l -> getConsoleLogs pageId w = (Ok l, w).
Proof. intros H. unfold getConsoleLogs, bind, this. by rewrite H. Qed.

Lemma getNetworkLogs_tracked (w : World) (pageId : Z) (l : Loc) :
  networkLogs (mgr w) !! pageId = Some l -> getNetworkLogs pageId w = (Ok l, w).
Proof. intros H. unfold getNetworkLogs, bind, this. by rewrite H. Qed.

(** C9 (amended): in every session, [getConsoleLogs] of a page with a
    buffer returns that buffer itself, not a copy: an entry appended later
    shows through the value returned before.  After [clearConsoleLogs] the
    getter returns a new, empty array; entries that arrive after the clear
    go to the new array and leave the cleared one as it was.  The same
    holds for [getNetworkLogs] and [clearNetworkLogs]. *)
Theorem log_getters_return_the_buffer (o : Opt.t) (ops : list Op) (pageId : Z) :
  let w := run drv ops (initial o) in
  (forall l,
     consoleLogs (mgr w) !! pageId = Some l ->
     getConsoleLogs pageId w = (Ok l, w) /\
     (forall msg now,
        (length (readConsole w l) < 500)%nat ->
        readConsole (onConsole pageId msg now w).2 l
        = readConsole w l ++ [consoleEntry msg now]) /\
     let w1 := (clearConsoleLogs pageId w).2 in
     exists l',
       l' <> l /\
       getConsoleLogs pageId w1 = (Ok l', w1) /\
       readConsole w1 l' = [] /\
       readConsole w1 l = readConsole w l /\
       forall msg now,
         let w2 := (onConsole pageId msg now w1).2 in
         readConsole w2 l' = [consoleEntry msg now] /\
         readConsole w2 l = readConsole w l) /\
  (forall l,
     networkLogs (mgr w) !! pageId = Some l ->
     getNetworkLogs pageId w = (Ok l, w) /\
     (forall response now now',
        (length (readNetwork w l) < 500)%nat ->
        exists entry,
          nl_url entry = resp_url response /\
          readNetwork (onResponse pageId response now now' w).2 l
          = readNetwork w l ++ [entry]) /\
     let w1 := (clearNetworkLogs pageId w).2 in
     exists l',
       l' <> l /\
       getNetworkLogs pageId w1 = (Ok l', w1) /\
       readNetwork w1 l' = [] /\
       readNetwork w1 l = readNetwork w l /\
       forall response now now',
         let w2 := (onResponse pageId response now now' w1).2 in
         (exists entry, nl_url entry = resp_url response /\
                        readNetwork w2 l' = [entry]) /\
         readNetwork w2 l = readNetwork w l).
Proof.
  intros w. destruct (invariant_run ops o) as [_ (H1 & H2 & H3 & H4)].
  fold w in H1, H2, H3, H4. split.
  - intros l Hl.
    assert (Hlt : (l < nextLoc (env w))%nat).
    { destruct (H3 _ _ Hl) as [b Hb]. by apply H1 in Hb as [? _]. }
    split; [by apply getConsoleLogs_tracked|]. split.
    { intros msg now. by apply onConsole_read. }
    destruct (clearConsoleLogs_read w pageId) as (Hnew & Hempty & Hother).
    cbv zeta. exists (nextLoc (env w)).
    split; [lia|]. split; [by apply getConsoleLogs_tracked|].
    split; [exact Hempty|]. split; [apply Hother; lia|].
    intros msg now.
    destruct (onConsole_read _ pageId _ msg now Hnew) as (_ & _ & Hpush & Hrest).
    cbv zeta in Hpush, Hrest. split.
    + rewrite Hpush; rewrite Hempty; [done|cbn; lia].
    + rewrite Hrest by lia. apply Hother. lia.
  - intros l Hl.
    assert (Hlt : (l < nextLoc (env w))%nat).
    { destruct (H4 _ _ Hl) as [b Hb]. by apply H2 in Hb as [? _]. }
    split; [by apply getNetworkLogs_tracked|]. split.
    { intros response now now'. by apply onResponse_read. }
    destruct (clearNetworkLogs_read w pageId) as (Hnew & Hempty & Hother).
    cbv zeta. exists (nextLoc (env w)).
    split; [lia|]. split; [by apply getNetworkLogs_tracked|].
    split; [exact Hempty|]. split; [apply Hother; lia|].
    intros response now now'.
    destruct (onResponse_read _ pageId _ response now now' Hnew)
      as (_ & _ & Hpush & Hrest).
    cbv zeta in Hpush, Hrest. split.
    + destruct Hpush as (entry & Hu & Hp); [rewrite Hempty; cbn; lia|].
      exists entry. split; [exact Hu|]. by rewrite Hp, Hempty.
    + rewrite Hrest by lia. apply Hother. lia.
Qed.

(** C1 (amended): in every session each telemetry buffer of each page
    holds at most 500 entries; a buffer that holds 500 entries drops what
    arrives: after the appends the buffer holds the first 500 entries, and
    of 500 + k entries the k newest are lost. *)
Theorem telemetry_buffers_keep_first_500 :
  (forall o ops pageId,
     (forall b, consoleBuffer (run drv ops (initial o)) pageId = Some b ->
                (length b <= 500)%nat) /\
     (forall b, networkBuffer (run drv ops (initial o)) pageId = Some b ->
                (length b <= 500)%nat)) /\
  (forall w pageId b msgs,
     consoleBuffer w pageId = Some b -> (length b <= 500)%nat ->
     consoleBuffer (deliverConsole pageId msgs w) pageId
     = Some (take 500 (b ++ ((fun mn => consoleEntry mn.1 mn.2) <$> msgs)))) /\
  (forall w pageId b rs,
     networkBuffer w pageId = Some b -> (length b <= 500)%nat ->
     exists entries,
       Forall2 (fun e r => nl_url e = resp_url r.1.1 /\
                           nl_status e = Some (resp_status r.1.1) /\
                           nl_timestamp e = r.1.2) entries rs /\
       networkBuffer (deliverResponses pageId rs w) pageId
       = Some (take 500 (b ++ entries))).
Proof.
  split; [|split].
  - intros o ops pageId. destruct (invariant_run ops o) as [_ (H1 & H2 & _)].
    split; intros b.
    + intros (l & _ & Hb)%consoleBuffer_Some. by apply H1 in Hb as [_ ?].
    + intros (l & _ & Hb)%networkBuffer_Some. by apply H2 in Hb as [_ ?].
  - apply deliverConsole_buffer.
  - apply deliverResponses_buffer.
Qed.

End WithDriver.

(** C1 as stated fails: after 501 console messages on a fresh page the
    buffer does not hold the 500 most recent entries; it holds the first
    500, and the newest one is lost. *)
Lemma console_buffer_eviction_counterexample :
  let w := run offline [OpConnect; OpNewPage None] (initial noOptions) in
  ~ (consoleBuffer (deliverConsole 1 (numbered 501) w) 1
     = Some (drop 1 ((fun mn => consoleEntry mn.1 mn.2) <$> numbered 501))).
Proof.
  intros w H.
  assert (Hb : consoleBuffer w 1 = Some []) by (vm_compute; reflexivity).
  rewrite (deliverConsole_buffer w 1 [] (numbered 501) Hb) in H by (cbn; lia).
  apply (f_equal (fun o => head <$> o)) in H. vm_compute in H. discriminate H.
Qed.

(** The statement of C1 for 501 console messages on a fresh page. *)
Lemma telemetry_buffers_keep_first_500_witness :
  let w := run offline [OpConnect; OpNewPage None] (initial noOptions) in
  consoleBuffer w 1 = Some [] /\
  consoleBuffer (deliverConsole 1 (numbered 501) w) 1
  = Some (take 500 ([] ++ ((fun mn => consoleEntry mn.1 mn.2) <$> numbered 501))).
Proof.
  intros w.
  assert (Hb : consoleBuffer w 1 = Some []) by (vm_compute; reflexivity).
  split; [exact Hb|].
  destruct (telemetry_buffers_keep_first_500 offline) as (_ & Hconsole & _).
  apply (Hconsole w 1 [] (numbered 501) Hb). cbn. lia.
Defined.

(** C9 as stated fails: the value that [getConsoleLogs] returned changes
    when a console message arrives afterwards. *)
Lemma getConsoleLogs_copy_counterexample :
  let w := run offline [OpConnect; OpNewPage None] (initial noOptions) in
  ~ (forall l w1,
       getConsoleLogs 1 w = (Ok l, w1) ->
       readConsole (deliverConsole 1 (numbered 1) w1) l = readConsole w1 l).
Proof.
  intros w H.
  specialize (H 0%nat w eq_refl). vm_compute in H. discriminate H.
Qed.

(** The statement of C9 for the first page of a fresh session. *)
Lemma log_getters_return_the_buffer_witness :
  let w := run offline [OpConnect; OpNewPage None] (initial noOptions) in
  consoleLogs (mgr w) !! 1 = Some 0%nat /\
  getConsoleLogs 1 w = (Ok 0%nat, w) /\
  forall msg now,
    (length (readConsole w 0%nat) < 500)%nat ->
    readConsole (onConsole 1 msg now w).2 0%nat
    = readConsole w 0%nat ++ [consoleEntry msg now].
Proof.
  intros w.
  assert (H : consoleLogs (mgr w) !! 1 = Some 0%nat) by (vm_compute; reflexivity).
  split; [exact H|].
  destruct (log_getters_return_the_buffer offline noOptions
              [OpConnect; OpNewPage None] 1) as [Hconsole _].
  destruct (Hconsole 0%nat H) as (Hget & Hpush & _).
  exact (conj Hget Hpush).
Defined.

(** The statement of C2 for a manager configured with a profile
    directory, when the browser reports the profile's singleton lock. *)
Lemma connect_profile_locked_witness :
  let w := initial (Opt.mk None (Some "/home/me/profile") None None None None None None None) in
  let msg := "Failed to create a ProcessSingleton for your profile directory: SingletonLock" in
  exists w',
    connect offline w = (Throw (Error (profileLockedMessage msg)), w') /\
    (forall e, (connect offline w).1 = Throw e ->
       message e
       = Some ("Chrome profile is locked — close ALL Chrome windows first, then retry."
               +:+ String "010"%char
                     ("Or use CDP instead: start Chrome with --remote-debugging-port=9222 and use --cdp http://localhost:9222"
                      +:+ String "010"%char ("Original error: " +:+ msg))) /\
       message e <> Some msg /\
       needsCdpFallback e = false) /\
    trace (env w') = [ActLaunchPersistentContext chromium "/home/me/profile"].
Proof.
  intros w msg.
  apply (connect_profile_locked offline w "/home/me/profile" msg (Error msg));
    try reflexivity. discriminate.
Defined.

(** C3 as stated fails: with an attach URL configured, no profile
    directory, and nothing listening at that URL, [connect] throws instead
    of launching a temporary browser. *)
Lemma connect_attach_url_counterexample :
  let w := initial (Opt.mk (Some "http://localhost:9333") None None None
                      (Some firefox) None None None None) in
  ~ (exists msg w',
       connect offline w = (Ok msg, w') /\
       In (ActLaunch firefox) (trace (env w'))).
Proof.
  intros w (msg & w' & H & _). vm_compute in H. discriminate H.
Qed.

(** The statement of C3 for a manager without options when nothing listens
    on the default endpoint. *)
Lemma connect_falls_through_to_temporary_witness :
  let w := initial (Opt.mk None None None None (Some firefox) None None None None) in
  exists suffix w',
    connect offline w = (Ok ("Launched firefox" +:+ suffix), w') /\
    trace (env w')
    = [ActConnectOverCDP "http://localhost:9222"; ActLaunch firefox;
       ActNewContext; ActAddInitScript; ActOnPage] /\
    browser (mgr w') = Some (LaunchedBrowser firefox) /\
    bi_engine (getBrowserInfo (mgr w')) = "firefox" /\
    bi_connected (getBrowserInfo (mgr w')) = true.
Proof.
  intros w.
  destruct (connect_falls_through_to_temporary offline w (Error "connect ECONNREFUSED"))
    as [Hfall _].
  exact (Hfall eq_refl eq_refl eq_refl eq_refl).
Defined.

(** C8 as stated fails: with tabs at [https://a.example] and
    [https://b.example] open, in this order, the entry that the snapshot
    holds for [https://b.example] is not replayed, although a page of that
    origin is open. *)
Lemma loadStorageState_matching_page_counterexample :
  let w := run twoTabs [OpConnect] (initial noOptions) in
  let w' := (loadStorageState twoTabs "state.json" w).2 in
  ~ (forall page os name value,
       In page (contextPages (env w')) ->
       In os (nullish (ss_origins snapshot) []) ->
       pageOrigin twoTabs (env w') page = os_origin os ->
       In (name, value) (nullish (os_localStorage os) []) ->
       localStorage (env w') !! os_origin os ≫= (fun area => area !! name)
       = Some value).
Proof.
  intros w w' H.
  specialize (H 1%nat {| os_origin := "https://b.example";
                         os_localStorage := Some [("token", "abc")] |}
                "token" "abc").
  assert (Hget : localStorage (env w') !! "https://b.example"
                 ≫= (fun area => area !! "token") = None)
    by (vm_compute; reflexivity).
  cbn [os_origin os_localStorage nullish] in H. rewrite Hget in H.
  assert (Hnone : None = Some "abc" -> False) by discriminate.
  apply Hnone, H.
  - vm_compute. auto.
  - vm_compute. auto.
  - vm_compute. reflexivity.
  - left. reflexivity.
Qed.

(** The statement of C8 for the two open tabs and the snapshot on disk. *)
Lemma loadStorageState_replays_into_first_page_witness :
  let w := run twoTabs [OpConnect] (initial noOptions) in
  exists w',
    loadStorageState twoTabs "state.json" w = (Ok tt, w') /\
    cookies (env w') = cookies (env w) ++ nullish (ss_cookies snapshot) [] /\
    localStorage (env w') !! "https://b.example"
    = localStorage (env w) !! "https://b.example".
Proof.
  intros w.
  destruct (loadStorageState_replays_into_first_page twoTabs w "state.json" snapshot
              (ReusedContext "http://localhost:9222") eq_refl eq_refl eq_refl)
    as (w' & Hrun & _ & Hcookies & _ & Hstorage).
  exists w'. split; [exact Hrun|]. split; [exact Hcookies|].
  change (contextPages (env w)) with [0%nat; 1%nat] in Hstorage.
  destruct Hstorage as [Hother _]. apply Hother. vm_compute. discriminate.
Defined.

(** The statement of C4 for a session that opens two pages and closes the
    first. *)
Lemma page_ids_increasing_never_reused_witness :
  let w := run offline [OpConnect; OpNewPage None; OpNewPage None] (initial noOptions) in
  is_Some (pages (mgr w) !! 1) /\
  1 ∉ idsAssignedSince w
        (run offline [OpClosePage 1; OpNewPage None; EvPageCreated "https://c.example"] w).
Proof.
  intros w.
  assert (H : is_Some (pages (mgr w) !! 1)) by (vm_compute; eauto).
  split; [exact H|].
  destruct (page_ids_increasing_never_reused offline noOptions
              [OpConnect; OpNewPage None; OpNewPage None]) as (_ & _ & _ & Hclose).
  exact (Hclose 1 [OpNewPage None; EvPageCreated "https://c.example"] H).
Defined.

(** The statement of C5 at the world that [connect] leaves when nothing
    listens on the debug port and a temporary browser is launched: for a
    context that leaves the new page to [newPage] the call returns id 1;
    for a context that announces it, the call returns id 2 and the one
    page is registered under the ids 1 and 2. *)
Lemma getOrCreatePage_spec_witness :
  (let w := (connect offline (initial noOptions)).2 in
   pages (mgr w) = ∅ /\ is_Some (context (mgr w)) /\
   exists w',
     getOrCreatePage offline None w
     = (Ok {| rp_id := 1; rp_page := Some 0%nat |}, w') /\
     pages (mgr w') = {[ 1 := 0%nat ]}) /\
  (let w := (connect announcing (initial noOptions)).2 in
   pages (mgr w) = ∅ /\ is_Some (context (mgr w)) /\
   exists w',
     getOrCreatePage announcing None w
     = (Ok {| rp_id := 2; rp_page := Some 0%nat |}, w') /\
     pages (mgr w') = <[2 := 0%nat]> {[ 1 := 0%nat ]} /\
     getOrCreatePage announcing None w'
     = (Ok {| rp_id := 2; rp_page := Some 0%nat |}, w')).
Proof.
  split.
  - intros w.
    assert (H1 : pages (mgr w) = ∅) by (vm_compute; reflexivity).
    assert (H2 : is_Some (context (mgr w))) by (vm_compute; eauto).
    split; [exact H1|]. split; [exact H2|].
    destruct (getOrCreatePage_spec offline w) as (_ & _ & _ & Hnew).
    destruct (Hnew H1 H2) as (w' & E1 & _ & _ & Hp & _).
    exists w'. split; [exact E1|exact (Hp eq_refl eq_refl)].
  - intros w.
    assert (H1 : pages (mgr w) = ∅) by (vm_compute; reflexivity).
    assert (H2 : is_Some (context (mgr w))) by (vm_compute; eauto).
    split; [exact H1|]. split; [exact H2|].
    destruct (getOrCreatePage_spec announcing w) as (_ & _ & _ & Hnew).
    destruct (Hnew H1 H2) as (w' & E1 & _ & _ & _ & Hp & E2).
    destruct (Hp eq_refl eq_refl) as [_ Hpages].
    exists w'. split; [exact E1|]. split; [exact Hpages|exact E2].
Defined.

(** The statement of C10 for page 7 of a session that tracks only page 1. *)
Lemma unknown_page_close_focus_noop_witness :
  let w := run offline [OpConnect; OpNewPage None] (initial noOptions) in
  pages (mgr w) !! 7 = None /\
  closePage 7 w = (Ok tt, w) /\
  focusPage 7 w = (Ok tt, w) /\
  getOrCreatePage offline (Some 7) w
  = (Throw (Error ("Page " +:+ pretty 7
                   +:+ " not found. Use list_pages to see available pages.")), w).
Proof.
  intros w.
  assert (H : pages (mgr w) !! 7 = None) by (vm_compute; reflexivity).
  split; [exact H|]. exact (unknown_page_close_focus_noop offline w 7 H).
Defined.

End ManagerFacts.

(* ================================================================== *)
(** * Properties of delays, clicks, scrolling and hovering *)
(* ================================================================== *)

Module HumanActionsFacts.
Import Human HumanActions HumanFacts.

Section WithRandom.

Variable random : nat -> Q.
Hypothesis random_range : forall k, (0 <= random k < 1)%Q.

Lemma randf_range (min max : Q) (k : nat) :
  (min <= max)%Q ->
  (min <= fst (randf random min max k) <= max)%Q.
Proof.
  intros H. destruct (random_range k) as [H0 H1].
  unfold randf, gbind, Math_random, gret. cbn [fst snd].
  assert (Hd : (0 <= max - min)%Q) by lra.
  assert (Hp : (0 <= random k * (max - min))%Q) by (apply Qmult_le_0_compat; lra).
  assert (Hq : (random k * (max - min) <= 1 * (max - min))%Q)
    by (apply Qmult_le_compat_r; lra).
  split; lra.
Qed.

(** X1: [rand(min, max)] with [min <= max] returns an integer between
    [min] and [max], both included, and [randf(min, max)] a number between
    [min] and [max], both included; each takes one draw. *)
Theorem rand_randf_within_bounds :
  (forall (min max : Z) (k : nat),
     min <= max ->
     min <= fst (rand random min max k) <= max /\
     snd (rand random min max k) = S k) /\
  (forall (min max : Q) (k : nat),
     (min <= max)%Q ->
     (min <= fst (randf random min max k) <= max)%Q /\
     snd (randf random min max k) = S k).
Proof.
  split.
  - intros min max k H. split; [by apply rand_range|reflexivity].
  - intros min max k H. pose proof (randf_range min max k H) as Hr.
    split; [exact Hr|reflexivity].
Qed.

End WithRandom.

Lemma Qprod_nonneg (a b : Q) : (0 <= a)%Q -> (0 <= b)%Q -> (0 <= a * b)%Q.
Proof. apply Qmult_le_0_compat. Qed.

Lemma eased_range (t : Q) : (0 <= t <= 1)%Q -> (0 <= eased t <= 1)%Q.
Proof.
  intros [H0 H1]. unfold eased. destruct (Qlt_le_dec t (1 # 2)) as [Hlt|Hge].
  - pose proof (Qprod_nonneg t t H0 H0) as Hsq.
    pose proof (Qprod_nonneg ((1 # 2) - t) ((1 # 2) + t) ltac:(lra) ltac:(lra)) as Hp.
    assert (E : (((1 # 2) - t) * ((1 # 2) + t) == (1 # 4) - t * t)%Q) by ring.
    assert (E2 : (2 * t * t == 2 * (t * t))%Q) by ring.
    rewrite E in Hp. rewrite E2. lra.
  - set (s := (- (2) * t + 2)%Q).
    assert (Hs : (0 <= s <= 1)%Q) by (unfold s; lra).
    pose proof (Qprod_nonneg s s ltac:(lra) ltac:(lra)) as Hsq.
    pose proof (Qprod_nonneg (1 - s) (1 + s) ltac:(lra) ltac:(lra)) as Hp.
    assert (E : ((1 - s) * (1 + s) == 1 - s * s)%Q) by ring.
    rewrite E in Hp.
    assert (E2 : (1 - s * s / 2 == 1 - (1 # 2) * (s * s))%Q) by field.
    rewrite E2. lra.
Qed.

Lemma eased_symmetric (t : Q) : (eased (1 - t) == 1 - eased t)%Q.
Proof.
  unfold eased.
  destruct (Qlt_le_dec (1 - t) (1 # 2)) as [H1|H1];
    destruct (Qlt_le_dec t (1 # 2)) as [H2|H2]; try lra; try field.
  assert (E : (t == 1 # 2)%Q) by lra. rewrite E. reflexivity.
Qed.

Lemma eased_monotone (t u : Q) :
  (0 <= t)%Q -> (t <= u)%Q -> (u <= 1)%Q -> (eased t <= eased u)%Q.
Proof.
  intros H0 Htu H1.
  destruct (Qlt_le_dec u (1 # 2)) as [Hu|Hu].
  - unfold eased. destruct (Qlt_le_dec t (1 # 2)) as [Ht|Ht]; [|lra].
    destruct (Qlt_le_dec u (1 # 2)) as [Hu'|Hu']; [|lra].
    pose proof (Qprod_nonneg (u - t) (u + t) ltac:(lra) ltac:(lra)) as Hp.
    assert (E : ((u - t) * (u + t) == u * u - t * t)%Q) by ring. rewrite E in Hp.
    assert (E1 : (2 * t * t == 2 * (t * t))%Q) by ring.
    assert (E2 : (2 * u * u == 2 * (u * u))%Q) by ring.
    rewrite E1, E2. lra.
  - destruct (Qlt_le_dec t (1 # 2)) as [Ht|Ht].
    + (* the first half stays below 1/2, the second half at or above it *)
      assert (A : (eased t <= 1 # 2)%Q).
      { unfold eased. destruct (Qlt_le_dec t (1 # 2)) as [_|?]; [|lra].
        pose proof (Qprod_nonneg ((1 # 2) - t) ((1 # 2) + t) ltac:(lra) ltac:(lra)) as Hp.
        assert (E : (((1 # 2) - t) * ((1 # 2) + t) == (1 # 4) - t * t)%Q) by ring.
        rewrite E in Hp.
        assert (E1 : (2 * t * t == 2 * (t * t))%Q) by ring. rewrite E1. lra. }
      assert (B : (1 # 2 <= eased u)%Q).
      { unfold eased. destruct (Qlt_le_dec u (1 # 2)) as [?|_]; [lra|].
        set (s := (- (2) * u + 2)%Q).
        assert (Hs : (0 <= s <= 1)%Q) by (unfold s; lra).
        pose proof (Qprod_nonneg (1 - s) (1 + s) ltac:(lra) ltac:(lra)) as Hp.
        assert (E : ((1 - s) * (1 + s) == 1 - s * s)%Q) by ring. rewrite E in Hp.
        assert (E2 : (1 - s * s / 2 == 1 - (1 # 2) * (s * s))%Q) by field.
        rewrite E2. lra. }
      lra.
    + unfold eased. destruct (Qlt_le_dec t (1 # 2)) as [?|_]; [lra|].
      destruct (Qlt_le_dec u (1 # 2)) as [?|_]; [lra|].
      set (a := (- (2) * u + 2)%Q). set (b := (- (2) * t + 2)%Q).
      assert (Hab : (0 <= a /\ a <= b)%Q) by (unfold a, b; lra).
      pose proof (Qprod_nonneg (b - a) (b + a) ltac:(lra) ltac:(lra)) as Hp.
      assert (E : ((b - a) * (b + a) == b * b - a * a)%Q) by ring. rewrite E in Hp.
      assert (E1 : (1 - a * a / 2 == 1 - (1 # 2) * (a * a))%Q) by field.
      assert (E2 : (1 - b * b / 2 == 1 - (1 # 2) * (b * b))%Q) by field.
      rewrite E1, E2. lra.
Qed.

(** X2: the easing maps the unit interval into itself, fixing 0 and 1, is
    monotone on it and symmetric about its centre; and whatever the control
    points, the curve starts at its first point and ends at its last. *)
Theorem easing_and_curve_ends (t u : Q) (p0 p1 p2 p3 : Point) :
  ((0 <= t <= 1)%Q -> (0 <= eased t <= 1)%Q) /\
  ((0 <= t)%Q -> (t <= u)%Q -> (u <= 1)%Q -> (eased t <= eased u)%Q) /\
  (eased (1 - t) == 1 - eased t)%Q /\
  (eased 0 == 0)%Q /\ (eased 1 == 1)%Q /\
  (px (bezierPoint p0 p1 p2 p3 (eased 0)) == px p0)%Q /\
  (py (bezierPoint p0 p1 p2 p3 (eased 0)) == py p0)%Q /\
  (px (bezierPoint p0 p1 p2 p3 (eased 1)) == px p3)%Q /\
  (py (bezierPoint p0 p1 p2 p3 (eased 1)) == py p3)%Q.
Proof.
  split; [apply eased_range|]. split; [apply eased_monotone|].
  split; [apply eased_symmetric|].
  split; [by apply eased_0|]. split; [by apply eased_1|].
  destruct (bezierPoint_0 p0 p1 p2 p3 (eased 0)) as [? ?]; [by apply eased_0|].
  destruct (bezierPoint_1 p0 p1 p2 p3 (eased 1)) as [? ?]; [by apply eased_1|].
  done.
Qed.

Lemma easing_and_curve_ends_witness :
  (0 <= 1 # 4 <= 1)%Q /\ (0 <= 1 # 4)%Q /\ (1 # 4 <= 3 # 4)%Q /\ (3 # 4 <= 1)%Q /\
  (0 <= eased (1 # 4) <= 1)%Q /\ (eased (1 # 4) <= eased (3 # 4))%Q.
Proof.
  assert (H1 : (0 <= 1 # 4 <= 1)%Q) by lra.
  assert (H2 : (0 <= 1 # 4)%Q) by lra.
  assert (H3 : (1 # 4 <= 3 # 4)%Q) by lra.
  assert (H4 : (3 # 4 <= 1)%Q) by lra.
  destruct (easing_and_curve_ends (1 # 4) (3 # 4)
              (mkPoint 0 0) (mkPoint 0 0) (mkPoint 0 0) (mkPoint 0 0))
    as (Hr & Hm & _).
  exact (conj H1 (conj H2 (conj H3 (conj H4 (conj (Hr H1) (Hm H2 H3 H4)))))).
Defined.

Section Moves.

Variable random : nat -> Q.
Hypothesis random_range : forall k, (0 <= random k < 1)%Q.
Variable fp : Float.

Lemma moveDelays_spec (path : list Point) (k : nat) :
  length (fst (moveDelays random path k)) = length path /\
  Forall (fun d => 2 <= d <= 12) (fst (moveDelays random path k)).
Proof.
  revert k. induction path as [|p rest IH]; intros k; [by split|].
  cbn [moveDelays]. unfold gbind.
  pose proof (rand_range random random_range 2 12 k ltac:(lia)) as Hd.
  destruct (rand random 2 12 k) as [d k1].
  destruct (IH k1) as [Hlen Hall].
  destruct (moveDelays random rest k1) as [ds k2].
  cbn [gret fst] in *. split; [cbn; by rewrite Hlen|by constructor].
Qed.

(** Everything [humanMouseMove] returns, in one statement. *)
Lemma humanMouseMove_summary (viewportSize : option Viewport)
    (lastMousePos : option Point) (toX toY : Q) (k : nat) :
  let r := fst (humanMouseMove random fp viewportSize lastMousePos toX toY k) in
  mm_lastMousePos r = mkPoint toX toY /\
  length (mm_delays r) = length (mm_path r) /\
  Forall (fun d => 2 <= d <= 12) (mm_delays r) /\
  (6 <= length (mm_path r) <= 26)%nat /\
  (exists p, head (mm_path r) = Some p /\
     (Qabs (px p - px (mm_start r)) <= 3 # 2)%Q /\
     (Qabs (py p - py (mm_start r)) <= 3 # 2)%Q) /\
  (exists p, last (mm_path r) = Some p /\
     (Qabs (px p - toX) <= 3 # 2)%Q /\ (Qabs (py p - toY) <= 3 # 2)%Q) /\
  match lastMousePos with
  | Some q => mm_start r = q
  | None =>
      let v := match viewportSize with
               | Some v => v
               | None => {| width := 1280; height := 720 |}
               end in
      0 <= width v -> 0 <= height v ->
      exists x y : Z,
        mm_start r = mkPoint (inject_Z x) (inject_Z y) /\
        0 <= x <= width v /\ 0 <= y <= height v
  end.
Proof.
  intros r. remember (humanMouseMove random fp viewportSize lastMousePos toX toY k)
    as res eqn:Eres.
  unfold humanMouseMove in Eres. unfold gbind at 1 in Eres.
  set (cur := match lastMousePos with Some p => _ | None => _ end) in Eres.
  destruct (cur k) as [currentPos k1] eqn:Ecur.
  unfold gbind at 1 in Eres.
  pose proof (stepsFor_range fp currentPos (mkPoint toX toY)) as Hsteps.
  pose proof (generateMousePath_ends random random_range currentPos (mkPoint toX toY)
                (stepsFor fp currentPos (mkPoint toX toY)) k1 ltac:(lia)) as Hends.
  cbv zeta in Hends.
  destruct (generateMousePath random currentPos (mkPoint toX toY)
              (stepsFor fp currentPos (mkPoint toX toY)) k1) as [path k2] eqn:Epath.
  unfold gbind at 1 in Eres.
  pose proof (moveDelays_spec path k2) as [Hdl Hdr].
  destruct (moveDelays random path k2) as [delays k3].
  subst r res. cbn [gret fst mm_start mm_path mm_delays mm_lastMousePos] in *.
  destruct Hends as (Hlen & (p0 & Hp0 & Hx0 & Hy0) & (pn & Hpn & Hxn & Hyn)).
  split; [reflexivity|]. split; [exact Hdl|]. split; [exact Hdr|].
  split; [lia|]. split.
  { exists p0. split; [|by split]. by rewrite head_lookup. }
  split.
  { exists pn. split; [|by split]. rewrite last_lookup, Hlen, <- Hpn. f_equal. lia. }
  subst cur. destruct lastMousePos as [q|].
  - cbn in Ecur. by inversion Ecur.
  - cbv zeta.
    set (v := match viewportSize with
              | Some v => v
              | None => {| width := 1280; height := 720 |}
              end) in *.
    intros Hw Hh. unfold gbind at 1 in Ecur.
    pose proof (rand_range random random_range 0 (width v) k Hw) as Hx.
    destruct (rand random 0 (width v) k) as [x kx]. unfold gbind at 1 in Ecur.
    pose proof (rand_range random random_range 0 (height v) kx Hh) as Hy.
    destruct (rand random 0 (height v) kx) as [y ky].
    cbn [gret fst] in *. inversion Ecur. by exists x, y.
Qed.

(** X3: a move sleeps once after every point it passes, each time between
    2 and 12 ms; it stores the requested target, not the last jittered
    point, as the pointer position; so the next move on the page starts at
    the previous target, and its first point lies within 2px of it.  On a
    page without a stored position the move starts at a point with integer
    coordinates inside the viewport (1280 by 720 when there is none). *)
Theorem humanMouseMove_chains (viewportSize : option Viewport)
    (lastMousePos : option Point) (toX toY toX' toY' : Q) (k k' : nat) :
  let r := fst (humanMouseMove random fp viewportSize lastMousePos toX toY k) in
  let r' := fst (humanMouseMove random fp viewportSize (Some (mm_lastMousePos r))
                   toX' toY' k') in
  length (mm_delays r) = length (mm_path r) /\
  Forall (fun d => 2 <= d <= 12) (mm_delays r) /\
  mm_lastMousePos r = mkPoint toX toY /\
  mm_start r' = mkPoint toX toY /\
  (exists p, head (mm_path r') = Some p /\
     (Qabs (px p - toX) <= 2)%Q /\ (Qabs (py p - toY) <= 2)%Q) /\
  (lastMousePos = None ->
   let v := match viewportSize with
            | Some v => v
            | None => {| width := 1280; height := 720 |}
            end in
   0 <= width v -> 0 <= height v ->
   exists x y : Z,
     mm_start r = mkPoint (inject_Z x) (inject_Z y) /\
     0 <= x <= width v /\ 0 <= y <= height v).
Proof.
  intros r r'.
  destruct (humanMouseMove_summary viewportSize lastMousePos toX toY k)
    as (Hlast & Hdl & Hdr & _ & _ & _ & Hstart).
  fold r in Hlast, Hdl, Hdr, Hstart.
  destruct (humanMouseMove_summary viewportSize (Some (mm_lastMousePos r)) toX' toY' k')
    as (_ & _ & _ & _ & (p & Hp & Hx & Hy) & _ & Hstart').
  fold r' in Hp, Hx, Hy, Hstart'. cbv zeta in Hstart'.
  rewrite Hlast in Hstart'.
  split; [exact Hdl|]. split; [exact Hdr|]. split; [exact Hlast|].
  split; [exact Hstart'|]. split.
  { exists p. rewrite Hstart' in Hx, Hy. cbn [px py] in Hx, Hy.
    split; [exact Hp|]. split; lra. }
  intros ->. exact Hstart.
Qed.

(** X4: [humanClick] clicks at a point whose coordinates differ from the
    requested ones by whole numbers between -3 and 3; the pointer is moved
    to that same point first (its path ends within 2px of it and the stored
    position is exactly it); the pauses before and after the click last 30
    to 120 ms and the button is held 40 to 120 ms; the button defaults to
    the left one and the click count to 1. *)
Theorem humanClick_spec (viewportSize : option Viewport)
    (lastMousePos : option Point) (x y : Q) (options : ClickOptions) (k : nat) :
  let c := fst (humanClick random fp viewportSize lastMousePos x y options k) in
  (exists jx jy : Z,
      -3 <= jx <= 3 /\ -3 <= jy <= 3 /\
      ck_x c = (x + inject_Z jx)%Q /\ ck_y c = (y + inject_Z jy)%Q) /\
  mm_lastMousePos (ck_move c) = mkPoint (ck_x c) (ck_y c) /\
  (exists p, last (mm_path (ck_move c)) = Some p /\
     (Qabs (px p - ck_x c) <= 2)%Q /\ (Qabs (py p - ck_y c) <= 2)%Q) /\
  30 <= ck_before c <= 120 /\
  40 <= ck_delay c <= 120 /\
  30 <= ck_after c <= 120 /\
  ck_button c = default "left" (button options) /\
  ck_clickCount c = default 1 (clickCount options).
Proof.
  intros c. remember (humanClick random fp viewportSize lastMousePos x y options k)
    as res eqn:Eres.
  unfold humanClick, microDelay, humanDelay, gbind in Eres.
  pose proof (rand_range random random_range (- (3)) 3 k ltac:(lia)) as Hjx.
  destruct (rand random (- (3)) 3 k) as [jx k1].
  pose proof (rand_range random random_range (- (3)) 3 k1 ltac:(lia)) as Hjy.
  destruct (rand random (- (3)) 3 k1) as [jy k2].
  cbn [fst] in Hjx, Hjy.
  pose proof (humanMouseMove_summary viewportSize lastMousePos
                (x + inject_Z jx)%Q (y + inject_Z jy)%Q k2)
    as (Hlast & _ & _ & _ & _ & (p & Hp & Hx & Hy) & _).
  destruct (humanMouseMove random fp viewportSize lastMousePos
              (x + inject_Z jx)%Q (y + inject_Z jy)%Q k2) as [move k3].
 
  pose proof (rand_range random random_range 30 120 k3 ltac:(lia)) as Hb.
  destruct (rand random 30 120 k3) as [before k4].
  pose proof (rand_range random random_range 40 120 k4 ltac:(lia)) as Hd.
  destruct (rand random 40 120 k4) as [delay k5].
  pose proof (rand_range random random_range 30 120 k5 ltac:(lia)) as Ha.
  destruct (rand random 30 120 k5) as [after k6].
  subst c res. cbn [gret fst] in *.
  cbn [ck_move ck_before ck_x ck_y ck_button ck_clickCount ck_delay ck_after].
  split; [exists jx, jy; repeat split; lia|]. split; [exact Hlast|]. split.
  { exists p. split; [exact Hp|]. split; lra. }
  split; [exact Hb|]. split; [exact Hd|]. split; [exact Ha|].
  split; [by destruct (button options)|by destruct (clickCount options)].
Qed.

(** X5: the named delays stay in their ranges: [humanDelay] between its
    arguments, [microDelay] 30 to 120 ms, [thinkingPause] 200 to 600 ms,
    [beforeAction] 80 to 250 ms; and [humanHover] moves the pointer to a
    point whose coordinates differ from the requested ones by whole numbers
    between -2 and 2, then pauses 150 to 400 ms. *)
Theorem delays_and_hover (viewportSize : option Viewport)
    (lastMousePos : option Point) (x y : Q) (minMs maxMs : Z) (k : nat) :
  (minMs <= maxMs -> minMs <= fst (humanDelay random minMs maxMs k) <= maxMs) /\
  30 <= fst (microDelay random k) <= 120 /\
  200 <= fst (thinkingPause random k) <= 600 /\
  80 <= fst (beforeAction random k) <= 250 /\
  let h := fst (humanHover random fp viewportSize lastMousePos x y k) in
  (exists jx jy : Z,
      -2 <= jx <= 2 /\ -2 <= jy <= 2 /\
      mm_lastMousePos h.1 = mkPoint (x + inject_Z jx)%Q (y + inject_Z jy)%Q) /\
  150 <= h.2 <= 400.
Proof.
  split; [intros H; by apply rand_range|].
  split; [apply rand_range; [done|lia]|].
  split; [apply rand_range; [done|lia]|].
  split; [apply rand_range; [done|lia]|].
  intros h. remember (humanHover random fp viewportSize lastMousePos x y k) as res eqn:Eres.
  unfold humanHover, humanDelay, gbind in Eres.
  pose proof (rand_range random random_range (- (2)) 2 k ltac:(lia)) as Hjx.
  destruct (rand random (- (2)) 2 k) as [jx k1].
  pose proof (rand_range random random_range (- (2)) 2 k1 ltac:(lia)) as Hjy.
  destruct (rand random (- (2)) 2 k1) as [jy k2].
  cbn [fst] in Hjx, Hjy.
  pose proof (humanMouseMove_summary viewportSize lastMousePos
                (x + inject_Z jx)%Q (y + inject_Z jy)%Q k2) as (Hlast & _).
  destruct (humanMouseMove random fp viewportSize lastMousePos
              (x + inject_Z jx)%Q (y + inject_Z jy)%Q k2) as [move k3].
 
  pose proof (rand_range random random_range 150 400 k3 ltac:(lia)) as Hp.
  destruct (rand random 150 400 k3) as [pause k4].
  subst h res. cbn [gret fst snd] in *. split; [exists jx, jy; repeat split; [lia..|exact Hlast]|exact Hp].
Qed.

End Moves.

Section Scrolling.

Variable random : nat -> Q.
Hypothesis random_range : forall k, (0 <= random k < 1)%Q.

Lemma totalStepsFor_range (deltaY : Q) : (3 <= totalStepsFor deltaY <= 12)%Q.
Proof.
  unfold totalStepsFor. split; [apply Q.le_max_l|].
  apply Q.max_lub; [lra|apply Q.le_min_l].
Qed.

Lemma guard_iff_ceiling (i : Z) (T : Q) :
  (inject_Z i < T)%Q <-> i < Qceiling T.
Proof.
  split.
  - intros H. pose proof (Qle_ceiling T) as Hc. rewrite Zlt_Qlt. lra.
  - intros H. pose proof (Qceiling_lt T) as Hc.
    assert (Hi : (inject_Z i <= inject_Z (Qceiling T - 1))%Q)
      by (rewrite <- Zle_Qle; lia).
    lra.
Qed.

Lemma scrollLoop_spec (T stepX stepY : Q) (fuel : nat) :
  forall (i : Z) (k : nat),
    (Z.to_nat (Qceiling T - i) <= fuel)%nat ->
    let ws := fst (scrollLoop random fuel i T stepX stepY k) in
    length ws = Z.to_nat (Qceiling T - i) /\ Forall (wheel_ok stepX stepY) ws.
Proof.
  induction fuel as [|fuel IH]; intros i k Hfuel ws; subst ws.
  - cbn. split; [lia|constructor].
  - cbn [scrollLoop]. destruct (Qlt_le_dec (inject_Z i) T) as [Hlt|Hge].
    + apply guard_iff_ceiling in Hlt. unfold gbind.
      pose proof (randf_range random random_range (- (10)) 10 k ltac:(lra)) as Hy.
      destruct (randf random (- (10)) 10 k) as [jy k1].
      pose proof (randf_range random random_range (- (5)) 5 k1 ltac:(lra)) as Hx.
      destruct (randf random (- (5)) 5 k1) as [jx k2].
      pose proof (rand_range random random_range 20 80 k2 ltac:(lia)) as Hs.
      destruct (rand random 20 80 k2) as [sleep k3].
      specialize (IH (i + 1) k3 ltac:(lia)). cbn zeta in IH.
      destruct (scrollLoop random fuel (i + 1) T stepX stepY k3) as [rest k4].
      cbn [gret fst snd] in *. destruct IH as [IHl IHf]. split.
      * cbn [length]. rewrite IHl. lia.
      * constructor; [|exact IHf]. unfold wheel_ok. cbn [wh_scrollX wh_scrollY wh_sleep].
        split; [|split; [|exact Hs]]; apply Qabs_Qle_condition; lra.
    + cbn [gret fst]. split; [|constructor].
      apply Qceiling_resp_le in Hge. rewrite Qceiling_Z in Hge. cbn [length]. lia.
Qed.

Lemma scrolledY_near (stepX stepY : Q) (ws : list Wheel) :
  Forall (wheel_ok stepX stepY) ws ->
  (Qabs (scrolledY ws - inject_Z (Z.of_nat (length ws)) * stepY)
   <= 10 * inject_Z (Z.of_nat (length ws)))%Q.
Proof.
  induction 1 as [|w ws [Hy _] _ IH].
  - cbn [scrolledY foldr length]. change (inject_Z (Z.of_nat 0)) with 0%Q.
    apply Qabs_Qle_condition. split; lra.
  - cbn [scrolledY foldr length]. fold (scrolledY ws).
    rewrite Nat2Z.inj_succ, <- Z.add_1_r, inject_Z_plus.
    change (inject_Z 1) with 1%Q.
    apply Qabs_Qle_condition in Hy. apply Qabs_Qle_condition in IH.
    apply Qabs_Qle_condition. remember (inject_Z (Z.of_nat (length ws))) as n.
    assert (E : ((n + 1) * stepY == n * stepY + stepY)%Q) by ring.
    rewrite E. split; lra.
Qed.

Lemma humanScroll_parts (deltaY deltaX : Q) (k : nat) :
  let s := fst (humanScroll random deltaY deltaX k) in
  let T := totalStepsFor deltaY in
  length (sc_wheels s) = Z.to_nat (Qceiling T) /\
  3 <= Qceiling T <= 12 /\
  Forall (wheel_ok (deltaX / T) (deltaY / T)) (sc_wheels s) /\
  100 <= sc_pause s <= 300.
Proof.
  intros s T. pose proof (totalStepsFor_range deltaY) as [H3 H12]. fold T in H3, H12.
  assert (Hc : 3 <= Qceiling T <= 12).
  { split.
    - apply (Qceiling_resp_le 3 T) in H3. exact H3.
    - apply (Qceiling_resp_le T 12) in H12. exact H12. }
  remember (humanScroll random deltaY deltaX k) as res eqn:Eres.
  unfold humanScroll, humanDelay, gbind in Eres. fold T in Eres.
  pose proof (scrollLoop_spec T (deltaX / T) (deltaY / T) 12 0 k) as Hloop.
  rewrite Z.sub_0_r in Hloop. specialize (Hloop ltac:(lia)). cbn zeta in Hloop.
  destruct (scrollLoop random 12 0 T (deltaX / T) (deltaY / T) k) as [ws k1].
  pose proof (rand_range random random_range 100 300 k1 ltac:(lia)) as Hp.
  destruct (rand random 100 300 k1) as [pause k2].
  subst s res. cbn [gret fst snd sc_wheels sc_pause] in *.
  destruct Hloop as [Hl Hf].
  split; [exact Hl|]. split; [exact Hc|]. split; [exact Hf|exact Hp].
Qed.

(** X6: [humanScroll] sends as many wheel events as the least integer not
    below [totalSteps = max(3, min(12, |deltaY| / 80))], so between 3 and
    12 (the loop is ended by its guard); every event scrolls vertically
    within 10 of [deltaY / totalSteps] and horizontally within 5 of
    [deltaX / totalSteps] and is followed by a sleep of 20 to 80 ms; the
    closing pause lasts 100 to 300 ms. *)
Theorem humanScroll_wheels (deltaY deltaX : Q) (k : nat) :
  let s := fst (humanScroll random deltaY deltaX k) in
  let T := totalStepsFor deltaY in
  length (sc_wheels s) = Z.to_nat (Qceiling T) /\
  (3 <= length (sc_wheels s) <= 12)%nat /\
  Forall (wheel_ok (deltaX / T) (deltaY / T)) (sc_wheels s) /\
  100 <= sc_pause s <= 300.
Proof.
  intros s T. destruct (humanScroll_parts deltaY deltaX k) as (Hl & Hc & Hf & Hp).
  fold s T in Hl, Hc, Hf, Hp. split; [exact Hl|]. split; [lia|]. by split.
Qed.

(** X7: the vertical distance scrolled by [humanScroll] differs from the
    nominal distance [n * deltaY / totalSteps] ([n] the number of wheel
    events) by at most 10 per event.  The nominal distance is never
    shorter than [deltaY] and at most 4/3 of it; it equals [deltaY] when
    [totalSteps] is a whole number and is strictly longer otherwise,
    because the loop then runs one more, full, step. *)
Theorem humanScroll_distance (deltaY deltaX : Q) (k : nat) :
  let s := fst (humanScroll random deltaY deltaX k) in
  let T := totalStepsFor deltaY in
  let n := inject_Z (Z.of_nat (length (sc_wheels s))) in
  let nominal := (n * (deltaY / T))%Q in
  (Qabs (scrolledY (sc_wheels s) - nominal) <= 10 * n)%Q /\
  (Qabs deltaY <= Qabs nominal <= (4 # 3) * Qabs deltaY)%Q /\
  (n == T -> nominal == deltaY)%Q /\
  (~ (n == T)%Q -> ~ (deltaY == 0)%Q -> (Qabs deltaY < Qabs nominal)%Q).
Proof.
  intros s T n nominal.
  destruct (humanScroll_parts deltaY deltaX k) as (Hl & Hc & Hf & _).
  fold s T in Hl, Hc, Hf.
  pose proof (totalStepsFor_range deltaY) as [H3 H12]. fold T in H3, H12.
  assert (Hn : n = inject_Z (Qceiling T)).
  { unfold n. rewrite Hl, Z2Nat.id by lia. reflexivity. }
  pose proof (scrolledY_near _ _ _ Hf) as Hs. fold n in Hs.
  pose proof (Qle_ceiling T) as Hle. pose proof (Qceiling_lt T) as Hlt.
  rewrite <- Hn in Hle. subst nominal. clearbody n T.
  assert (Hlt' : (n < T + 1)%Q).
  { rewrite Hn. unfold Z.sub in Hlt. rewrite inject_Z_plus in Hlt.
    change (inject_Z (- (1))) with (- (1))%Q in Hlt. lra. }
  clear Hlt Hn.
  remember (n / T)%Q as r eqn:Er.
  assert (HT : ~ (T == 0)%Q) by lra.
  assert (Hr1 : (1 <= r)%Q) by (subst r; apply Qle_shift_div_l; lra).
  assert (Hr2 : (r <= 4 # 3)%Q) by (subst r; apply Qle_shift_div_r; lra).
  assert (En : (n * (deltaY / T) == deltaY * r)%Q) by (subst r; field; exact HT).
  assert (Ea : (Qabs (n * (deltaY / T)) == Qabs deltaY * r)%Q).
  { rewrite En, Qabs_Qmult, (Qabs_pos r) by lra. reflexivity. }
  pose proof (Qabs_nonneg deltaY) as Hd.
  split; [|split; [|split]].
  - exact Hs.
  - rewrite Ea.
    pose proof (Qprod_nonneg (Qabs deltaY) (r - 1) Hd ltac:(lra)) as P1.
    pose proof (Qprod_nonneg (Qabs deltaY) ((4 # 3) - r) Hd ltac:(lra)) as P2.
    assert (E1 : (Qabs deltaY * (r - 1) == Qabs deltaY * r - Qabs deltaY)%Q) by ring.
    assert (E2 : (Qabs deltaY * ((4 # 3) - r)
                  == (4 # 3) * Qabs deltaY - Qabs deltaY * r)%Q) by ring.
    rewrite E1 in P1. rewrite E2 in P2. split; lra.
  - intros E. rewrite En. subst r. rewrite E. field. exact HT.
  - intros Hne Hd0. rewrite Ea.
    assert (Hr : (1 < r)%Q).
    { subst r. apply Qlt_shift_div_l; [lra|].
      destruct (Qlt_le_dec T n) as [?|Hge]; [lra|].
      exfalso. apply Hne. apply Qle_antisym; assumption. }
    assert (Hpos : (0 < Qabs deltaY)%Q).
    { destruct (Qlt_le_dec 0 (Qabs deltaY)) as [?|Hle0]; [assumption|].
      exfalso. apply Hd0. apply Qabs_Qle_condition in Hle0. lra. }
    assert (P : (0 < Qabs deltaY * (r - 1))%Q)
      by (apply Qmult_lt_0_compat; lra).
    assert (E1 : (Qabs deltaY * (r - 1) == Qabs deltaY * r - Qabs deltaY)%Q) by ring.
    rewrite E1 in P. lra.
Qed.

End Scrolling.

Section Typing.

Variable random : nat -> Q.
Hypothesis random_range : forall k, (0 <= random k < 1)%Q.

Lemma keyDelay_overall (c : char) (k : nat) :
  30 <= fst (keyDelay random c k) <= 250 /\ snd (keyDelay random c k) = S k.
Proof.
  unfold keyDelay.
  repeat match goal with
         | |- context [if ?b then _ else _] => destruct b
         end;
    (split; [|reflexivity]);
    match goal with
    | |- _ <= fst (rand _ ?lo ?hi _) <= _ =>
        pose proof (rand_range random random_range lo hi k ltac:(lia)); lia
    end.
Qed.

Lemma thinkingPause_overall (d : Z) (k : nat) :
  d <= fst (Human.thinkingPause random d k) <= d + 500 /\
  (S k <= snd (Human.thinkingPause random d k) <= S (S k))%nat.
Proof.
  unfold Human.thinkingPause, gbind, Math_random, gret.
  destruct (Qlt_le_dec (random k) (5 # 100)) as [Hlt|Hge].
  - pose proof (rand_range random random_range 200 500 (S k) ltac:(lia)) as Hr.
    unfold rand, gbind, Math_random, gret in *. cbn [fst snd] in *. lia.
  - cbn [fst snd]. lia.
Qed.

(** X8: [humanType] types the characters of the text in order, one
    keystroke each; the sleep after a keystroke is never shorter than the
    delay of its class; the whole text takes between 30 and 750 ms per
    character; and two or three random draws are used per character. *)
Theorem humanType_whole_text (text : list char) (k : nat) :
  let r := humanType random text k in
  map ks_char r.1 = text /\
  Forall (fun ks => ks_classDelay ks <= ks_sleep ks) r.1 /\
  30 * Z.of_nat (length text) <= total (map ks_sleep r.1)
    <= 750 * Z.of_nat (length text) /\
  (k + 2 * length text <= r.2 <= k + 3 * length text)%nat.
Proof.
  revert k. induction text as [|c rest IH]; intros k.
  - cbn. repeat split; try constructor; lia.
  - cbv zeta. cbn [humanType]. unfold gbind.
    destruct (keyDelay_overall c k) as [Hd Hk].
    destruct (keyDelay random c k) as [d k1]. cbn [fst snd] in Hd, Hk. subst k1.
    destruct (thinkingPause_overall d (S k)) as [Hp Hk].
    destruct (Human.thinkingPause random d (S k)) as [d' k2]. cbn [fst snd] in Hp, Hk.
    specialize (IH k2). cbv zeta in IH.
    destruct (humanType random rest k2) as [ks k3].
    cbn [gret fst snd] in *. destruct IH as (IH1 & IH2 & IH3 & IH4).
    cbn [map total foldr ks_char ks_sleep length]. fold (total (map ks_sleep ks)).
    split; [by rewrite IH1|]. split.
    { constructor; [cbn [ks_classDelay ks_sleep]; lia|exact IH2]. }
    split; lia.
Qed.

End Typing.

(** X1 at [rand(2, 12)] and [randf(-10, 10)] with every draw equal to 1/2. *)
Lemma rand_randf_within_bounds_witness :
  (forall k : nat, (0 <= steady k < 1)%Q) /\
  2 <= 12 /\ (- (10) <= 10)%Q /\
  2 <= fst (rand steady 2 12 0%nat) <= 12 /\
  (- (10) <= fst (randf steady (- (10)) 10 0%nat) <= 10)%Q.
Proof.
  assert (Hrange : forall k : nat, (0 <= steady k < 1)%Q)
    by (intros k; unfold steady; lra).
  assert (H1 : 2 <= 12) by lia.
  assert (H2 : (- (10) <= 10)%Q) by lra.
  pose proof (rand_randf_within_bounds steady Hrange) as [Hr Hf].
  pose proof (Hr 2 12 0%nat H1) as [Hr1 _].
  pose proof (Hf (- (10))%Q 10%Q 0%nat H2) as (Hf1 & _).
  exact (conj Hrange (conj H1 (conj H2 (conj Hr1 Hf1)))).
Defined.

(** X3 for two moves on a page with no viewport and no stored position. *)
Lemma humanMouseMove_chains_witness :
  (forall k : nat, (0 <= steady k < 1)%Q) /\
  0 <= 1280 /\ 0 <= 720 /\
  let r := fst (humanMouseMove steady exactFloat None None 100 200 0%nat) in
  let r' := fst (humanMouseMove steady exactFloat None (Some (mm_lastMousePos r))
                   300 50 40%nat) in
  mm_start r' = mkPoint 100 200 /\
  exists x y : Z,
    mm_start r = mkPoint (inject_Z x) (inject_Z y) /\
    0 <= x <= 1280 /\ 0 <= y <= 720.
Proof.
  assert (Hrange : forall k : nat, (0 <= steady k < 1)%Q)
    by (intros k; unfold steady; lra).
  assert (Hw : 0 <= 1280) by lia. assert (Hh : 0 <= 720) by lia.
  pose proof (humanMouseMove_chains steady Hrange exactFloat None None
                100 200 300 50 0%nat 40%nat) as (_ & _ & _ & Hs & _ & Hv).
  exact (conj Hrange (conj Hw (conj Hh (conj Hs (Hv eq_refl Hw Hh))))).
Defined.

(** X4 for a default click at (100, 200). *)
Lemma humanClick_spec_witness :
  (forall k : nat, (0 <= steady k < 1)%Q) /\
  let c := fst (humanClick steady exactFloat None None 100 200
                  {| button := None; clickCount := None |} 0%nat) in
  mm_lastMousePos (ck_move c) = mkPoint (ck_x c) (ck_y c) /\
  40 <= ck_delay c <= 120.
Proof.
  assert (Hrange : forall k : nat, (0 <= steady k < 1)%Q)
    by (intros k; unfold steady; lra).
  pose proof (humanClick_spec steady Hrange exactFloat None None 100 200
                {| button := None; clickCount := None |} 0%nat)
    as (_ & Hm & _ & _ & Hd & _).
  exact (conj Hrange (conj Hm Hd)).
Defined.

(** X5 for [humanDelay(50, 300)] and a hover at (100, 200). *)
Lemma delays_and_hover_witness :
  (forall k : nat, (0 <= steady k < 1)%Q) /\
  50 <= 300 /\
  50 <= fst (humanDelay steady 50 300 0%nat) <= 300 /\
  150 <= (fst (humanHover steady exactFloat None None 100 200 0%nat)).2 <= 400.
Proof.
  assert (Hrange : forall k : nat, (0 <= steady k < 1)%Q)
    by (intros k; unfold steady; lra).
  assert (H : 50 <= 300) by lia.
  pose proof (delays_and_hover steady Hrange exactFloat None None 100 200 50 300 0%nat)
    as (Hd & _ & _ & _ & _ & Hp).
  exact (conj Hrange (conj H (conj (Hd H) Hp))).
Defined.

(** X6 for a scroll by 250: four wheel events. *)
Lemma humanScroll_wheels_witness :
  (forall k : nat, (0 <= steady k < 1)%Q) /\
  length (sc_wheels (fst (humanScroll steady 250 0 0%nat)))
  = Z.to_nat (Qceiling (totalStepsFor 250)).
Proof.
  assert (Hrange : forall k : nat, (0 <= steady k < 1)%Q)
    by (intros k; unfold steady; lra).
  pose proof (humanScroll_wheels steady Hrange 250 0 0%nat) as (Hl & _).
  exact (conj Hrange Hl).
Defined.

(** X7 for a scroll by 250: [totalSteps] is 25/8, four events of 80 each
    are sent, and the nominal distance 320 exceeds 250. *)
Lemma humanScroll_distance_witness :
  (forall k : nat, (0 <= steady k < 1)%Q) /\
  let n := inject_Z (Z.of_nat (length (sc_wheels (fst (humanScroll steady 250 0 0%nat))))) in
  ~ (n == totalStepsFor 250)%Q /\ ~ (250 == 0)%Q /\
  (Qabs 250 < Qabs (n * (250 / totalStepsFor 250)))%Q.
Proof.
  assert (Hrange : forall k : nat, (0 <= steady k < 1)%Q)
    by (intros k; unfold steady; lra).
  assert (H1 : ~ (inject_Z (Z.of_nat (length (sc_wheels
                    (fst (humanScroll steady 250 0 0%nat)))))
                  == totalStepsFor 250)%Q)
    by (vm_compute; discriminate).
  assert (H2 : ~ (250 == 0)%Q) by (vm_compute; discriminate).
  pose proof (humanScroll_distance steady Hrange 250 0 0%nat)
    as (_ & _ & _ & Hs).
  exact (conj Hrange (conj H1 (conj H2 (Hs H1 H2)))).
Defined.

(** X8 for the text [Hi 5!.] with every draw equal to 1/2. *)
Lemma humanType_whole_text_witness :
  (forall k : nat, (0 <= steady k < 1)%Q) /\
  map ks_char (fst (humanType steady (codes "Hi 5!.") 0%nat)) = codes "Hi 5!.".
Proof.
  assert (Hrange : forall k : nat, (0 <= steady k < 1)%Q)
    by (intros k; unfold steady; lra).
  pose proof (humanType_whole_text steady Hrange (codes "Hi 5!.") 0%nat)
    as (Hm & _).
  exact (conj Hrange Hm).
Defined.

End HumanActionsFacts.

(* ================================================================== *)
(** * Further properties of the browser manager *)
(* ================================================================== *)

Module SessionFacts.
Import Manager ManagerFacts Scenarios.

Section WithDriver.

Variable drv : Driver.

Lemma after_nil w : after [] w = w.
Proof. unfold after. rewrite app_nil_r. by destruct w as [m []]. Qed.

Lemma after_after l1 l2 w : after l2 (after l1 w) = after (l1 ++ l2) w.
Proof. unfold after. cbn. by rewrite <- app_assoc. Qed.

Lemma emit_after a w : emit a w = (Ok tt, after [a] w).
Proof. reflexivity. Qed.

(** *** Spawning the real browser *)

Lemma pollLoop_exhausted (cdpUrl : string) (fuel attempt : nat) (w : World) :
  (attempt + fuel = 30)%nat ->
  (forall n, (attempt <= n < 30)%nat -> fetchOk drv n = false) ->
  pollLoop drv fuel cdpUrl attempt (interval * Z.of_nat attempt) w
  = (Ok maxWait, after (replicate fuel (ActFetch (cdpUrl +:+ "/json/version"))) w).
Proof.
  revert attempt w. induction fuel as [|fuel IH]; intros attempt w Hsum Hno.
  - cbn [pollLoop replicate]. rewrite after_nil. unfold ret.
    replace attempt with 30%nat by lia. reflexivity.
  - cbn [pollLoop replicate].
    replace (interval * Z.of_nat attempt <? maxWait) with true
      by (symmetry; apply Z.ltb_lt; unfold interval, maxWait; lia).
    unfold bind at 1. rewrite emit_after, (Hno attempt) by lia.
    replace (interval * Z.of_nat attempt + interval)
      with (interval * Z.of_nat (S attempt)) by lia.
    rewrite IH by (try lia; intros n Hn; apply Hno; lia).
    by rewrite after_after.
Qed.

Lemma pollLoop_answered (cdpUrl : string) (k fuel attempt : nat) (w : World) :
  (attempt + fuel = 30)%nat -> (attempt <= k < 30)%nat ->
  (forall n, (attempt <= n < k)%nat -> fetchOk drv n = false) ->
  fetchOk drv k = true ->
  pollLoop drv fuel cdpUrl attempt (interval * Z.of_nat attempt) w
  = (Ok (interval * Z.of_nat k),
     after (replicate (S (k - attempt)) (ActFetch (cdpUrl +:+ "/json/version"))) w).
Proof.
  revert attempt w. induction fuel as [|fuel IH]; intros attempt w Hsum Hk Hno Hyes.
  - lia.
  - cbn [pollLoop].
    replace (interval * Z.of_nat attempt <? maxWait) with true
      by (symmetry; apply Z.ltb_lt; unfold interval, maxWait; lia).
    unfold bind at 1. rewrite emit_after.
    destruct (decide (attempt = k)) as [->|Hne].
    + rewrite Hyes. by rewrite Nat.sub_diag.
    + rewrite (Hno attempt) by lia.
      replace (interval * Z.of_nat attempt + interval)
        with (interval * Z.of_nat (S attempt)) by lia.
      rewrite IH by (try lia; try done; intros n Hn; apply Hno; lia).
      rewrite after_after.
      replace (S (k - attempt)) with (S (S (k - S attempt))) by lia.
      reflexivity.
Qed.

(** X9: when none of the 30 polls of the debugging endpoint answers,
    [spawnChromeAndConnect] throws the start-up timeout error after
    spawning the browser and polling exactly 30 times; it never attaches,
    and it leaves the spawned process running and held by the manager. *)
Theorem spawnChromeAndConnect_timeout (w : World) (userDataDir port : string) :
  tableChannel (mgr w) = true ->
  (forall n, (n < 30)%nat -> fetchOk drv n = false) ->
  spawnChromeAndConnect drv userDataDir port w
  = (Throw (Error spawnTimeout),
     after (ActSpawn (resolveChromePath drv (mgr w)) (spawnArgs (mgr w) userDataDir port)
            :: replicate 30 (ActFetch (("http://localhost:" +:+ port) +:+ "/json/version")))
       (mkWorld (set_chromeProcess true (mgr w)) (env w))).
Proof.
  intros _ Hno. unfold spawnChromeAndConnect.
  unfold bind at 1, this at 1. unfold bind at 1. rewrite emit_after.
  unfold bind at 1, update at 1. unfold bind at 1.
  change (Z.to_nat (maxWait / interval)) with (0 + 30)%nat.
  change 0 with (interval * Z.of_nat 0) at 1.
  rewrite (pollLoop_exhausted _ 30 0) by (try lia; intros n Hn; apply Hno; lia).
  change (maxWait <=? maxWait) with true. cbv beta iota. unfold throw.
  f_equal. unfold after. cbn. by rewrite <- app_assoc.
Qed.

(** X10: when the poll number [k] (counted from 0, below 30) is the first
    that answers, [spawnChromeAndConnect] spawns the browser with the
    debugging port and the profile directory, polls [k + 1] times and then
    attaches to [http://localhost:<port>]; it returns the launch message
    when the attach succeeds and throws the error of the attach otherwise. *)
Theorem spawnChromeAndConnect_attaches (w : World) (userDataDir port : string) (k : nat) :
  tableChannel (mgr w) = true ->
  (k < 30)%nat ->
  (forall n, (n < k)%nat -> fetchOk drv n = false) ->
  fetchOk drv k = true ->
  let cdpUrl := "http://localhost:" +:+ port in
  let w1 :=
    after (ActSpawn (resolveChromePath drv (mgr w)) (spawnArgs (mgr w) userDataDir port)
           :: replicate (S k) (ActFetch (cdpUrl +:+ "/json/version")))
      (mkWorld (set_chromeProcess true (mgr w)) (env w)) in
  spawnChromeAndConnect drv userDataDir port w
  = match connectCDP drv (Some cdpUrl) w1 with
    | (Ok _, w2) =>
        (Ok ("Launched real " +:+ orElse (Opt.channel (options (mgr w))) "chrome"
             +:+ " with your profile and connected via CDP at " +:+ cdpUrl), w2)
    | (Throw e, w2) => (Throw e, w2)
    end.
Proof.
  intros _ Hk Hno Hyes cdpUrl w1. unfold spawnChromeAndConnect.
  unfold bind at 1, this at 1. unfold bind at 1. rewrite emit_after.
  unfold bind at 1, update at 1. unfold bind at 1.
  change (Z.to_nat (maxWait / interval)) with (0 + 30)%nat.
  change 0 with (interval * Z.of_nat 0) at 1.
  rewrite (pollLoop_answered _ k 30 0) by (try lia; try done; intros n Hn; apply Hno; lia).
  replace (maxWait <=? interval * Z.of_nat k) with false
    by (symmetry; apply Z.leb_gt; unfold interval, maxWait; lia).
  rewrite Nat.sub_0_r. unfold bind. fold cdpUrl.
  match goal with
  | |- context [connectCDP drv (Some cdpUrl) ?w0] =>
      replace w0 with w1
        by (unfold w1, after; cbn; by rewrite <- app_assoc)
  end.
  destruct (connectCDP drv (Some cdpUrl) w1) as [[[]|e] w2]; reflexivity.
Qed.

(** X11: with no attach URL and a profile directory configured, a
    persistent launch that is rejected with a message mentioning the
    non-default data directory or remote debugging (also when the message
    mentions a lock as well) makes [launchPersistent] throw an error marked
    [needsCdpFallback], and [connect] then carries on as
    [spawnChromeAndConnect] on that directory and port 9222, from the world
    the failed launch left: the result of [connect] is the result of the
    spawn, and no temporary browser is launched. *)
Theorem connect_recovers_by_spawning (w : World) (dir msg : string) (err : JsError) :
  truthy (Opt.cdpUrl (options (mgr w))) = false ->
  Opt.userDataDir (options (mgr w)) = Some dir -> dir <> "" ->
  launchPersistentContext drv (getBrowserType (mgr w)) dir = inl err ->
  message err = Some msg ->
  includes "non-default data directory" msg || includes "remote debugging" msg = true ->
  exists w1,
    launchPersistent drv None w
    = (Throw {| message := Some ("NEEDS_CDP_FALLBACK: " +:+ msg);
                needsCdpFallback := true |}, w1) /\
    trace (env w1) = trace (env w)
                     ++ [ActLaunchPersistentContext (getBrowserType (mgr w)) dir] /\
    connect drv w = spawnChromeAndConnect drv dir "9222" w1.
Proof.
  intros Hcdp Hdir Hne Hlaunch Hmsg Hpipe.
  destruct (launchPersistent_rejected drv w dir err Hdir Hne Hlaunch)
    as (w1 & Hlp & Htrace).
  assert (Hcatch : launchPersistentCatch err
                   = {| message := Some ("NEEDS_CDP_FALLBACK: " +:+ msg);
                        needsCdpFallback := true |}).
  { unfold launchPersistentCatch, messageIncludes. rewrite Hmsg, Hpipe. done. }
  rewrite Hcatch in Hlp.
  exists w1. split; [exact Hlp|]. split; [exact Htrace|].
  unfold connect. unfold bind at 1. unfold this at 1.
  rewrite Hcdp, Hdir, (truthy_Some dir Hne).
  unfold tryCatch. unfold bind at 1. rewrite Hlp. reflexivity.
Qed.

(** *** The path of the browser to spawn *)

Lemma find_first {A} (f : A -> bool) (l : list A) (x : A) :
  List.find f l = Some x ->
  exists i : nat,
    l !! i = Some x /\ f x = true /\
    forall (j : nat) (y : A), (j < i)%nat -> l !! j = Some y -> f y = false.
Proof.
  induction l as [|a l IH]; [discriminate|]. cbn [List.find].
  destruct (f a) eqn:Ha.
  - intros [= ->]. exists 0%nat. split; [done|]. split; [done|]. intros; lia.
  - intros Hfind. destruct (IH Hfind) as (i & Hi & Hx & Hbefore).
    exists (S i). split; [done|]. split; [done|].
    intros [|j] y Hj Hy; [by injection Hy as <-|].
    apply (Hbefore j); [lia|done].
Qed.

(** X12: [resolveChromePath] returns a configured executable path as it
    is, without looking at the disk.  Otherwise, for a channel of its
    table (no channel stands for [chrome]), it returns the first candidate
    of the channel that exists on disk, and when none exists a bare
    program name: [msedge.exe] for the channel [msedge] only, [chrome.exe]
    for the others, [msedge-dev] included. *)
Theorem resolveChromePath_spec (m : BrowserManager) :
  let r := resolveChromePath drv m in
  let channel := orElse (Opt.channel (options m)) "chrome" in
  (forall p, Opt.executablePath (options m) = Some p -> p <> "" -> r = p) /\
  (truthy (Opt.executablePath (options m)) = false ->
   channel ∈ tableChannels ->
   (exists i : nat,
       chromeCandidates drv channel !! i = Some r /\ existsSync drv r = true /\
       forall (j : nat) (q : string), (j < i)%nat ->
         chromeCandidates drv channel !! j = Some q -> existsSync drv q = false) \/
   ((forall q, q ∈ chromeCandidates drv channel -> existsSync drv q = false) /\
    r = if String.eqb channel "msedge" then "msedge.exe" else "chrome.exe")).
Proof.
  intros r channel. subst r. unfold resolveChromePath. fold channel.
  split.
  - intros p Hp Hne. rewrite Hp, (truthy_Some p Hne). reflexivity.
  - intros Hexe _. rewrite Hexe.
    destruct (List.find (existsSync drv) (chromeCandidates drv channel)) as [p|] eqn:Hfind.
    + left. by apply find_first.
    + right. split; [|reflexivity].
      intros q Hq. apply list_elem_of_In in Hq.
      exact (find_none _ _ Hfind q Hq).
Qed.

(** *** Cleanup *)

Lemma getContext_none (w : World) :
  context (mgr w) = None -> getContext w = (Throw (Error notConnected), w).
Proof. intros H. unfold getContext, bind, this. by rewrite H. Qed.

Lemma getContext_some (w : World) (ctx : Context) :
  context (mgr w) = Some ctx -> getContext w = (Ok ctx, w).
Proof. intros H. unfold getContext, bind, this. by rewrite H. Qed.

(** X13: [close] always returns normally.  It closes the context and the
    browser when there is one and kills a spawned process when one is held,
    in this order; afterwards no page is registered, no log buffer is
    reachable and the manager is disconnected, while the page-id counter,
    the blocked patterns, the options and the recording flag are kept.  A
    second [close] does nothing, and [newPage] then throws the
    not-connected error without any effect. *)
Theorem close_resets (w : World) :
  exists w',
    close w = (Ok tt, w') /\
    pages (mgr w') = ∅ /\ consoleLogs (mgr w') = ∅ /\ networkLogs (mgr w') = ∅ /\
    context (mgr w') = None /\ browser (mgr w') = None /\
    chromeProcess (mgr w') = false /\
    nextPageId (mgr w') = nextPageId (mgr w) /\
    blockedPatterns (mgr w') = blockedPatterns (mgr w) /\
    options (mgr w') = options (mgr w) /\
    isRecordingVideo (mgr w') = isRecordingVideo (mgr w) /\
    trace (env w')
    = trace (env w)
      ++ match context (mgr w) with Some _ => [ActCloseContext] | None => [] end
      ++ match browser (mgr w) with Some _ => [ActCloseBrowser] | None => [] end
      ++ (if chromeProcess (mgr w) then [ActKill] else []) /\
    close w' = (Ok tt, w') /\
    forall url, newPage drv url w' = (Throw (Error notConnected), w').
Proof.
  destruct w as [[b c ps n o cl nl bp rv cp] e].
  unfold close. unfold bind at 1, this at 1. cbn [mgr context browser chromeProcess].
  destruct c as [c|], b as [b|], cp;
    (eexists; split; [reflexivity|]); cbn;
    repeat match goal with |- _ /\ _ => split end;
    first [ reflexivity
          | by rewrite <- ?app_assoc, ?app_nil_r
          | by destruct e
          | intros url; unfold newPage; unfold bind at 1;
            by rewrite getContext_none ].
Qed.

(** X14: [closePage] of a registered id closes that page and forgets the
    id: the registry and both log maps lose it and keep every other id, the
    counter is untouched, and the arrays that held the logs stay as they
    are for whoever still holds them.  Afterwards the id is unknown to
    [getOrCreatePage], and a console message delivered to the listener of
    that id is dropped.  (For a page registered under this id only, so
    that the close event of the page concerns no other id.) *)
Theorem closePage_forgets (w : World) (pageId : Z) (page : PageHandle) :
  pages (mgr w) !! pageId = Some page ->
  listeners (env w) !! page = Some [pageId] ->
  exists w',
    closePage pageId w = (Ok tt, w') /\
    pages (mgr w') = delete pageId (pages (mgr w)) /\
    consoleLogs (mgr w') = delete pageId (consoleLogs (mgr w)) /\
    networkLogs (mgr w') = delete pageId (networkLogs (mgr w)) /\
    nextPageId (mgr w') = nextPageId (mgr w) /\
    trace (env w') = trace (env w) ++ [ActClosePage page] /\
    consoleArrays (env w') = consoleArrays (env w) /\
    networkArrays (env w') = networkArrays (env w) /\
    (exists e, getOrCreatePage drv (Some pageId) w' = (Throw e, w')) /\
    forall msg now, onConsole pageId msg now w' = (Ok tt, w').
Proof.
  intros Hpage _. unfold closePage. unfold bind at 1, this at 1. rewrite Hpage.
  eexists. split; [reflexivity|]. cbn.
  repeat (split; [reflexivity|]). split.
  - unfold getOrCreatePage, bind, this. cbn. rewrite lookup_delete_eq.
    eexists. reflexivity.
  - intros msg now. unfold onConsole, bind, this, getEnv. cbn.
    by rewrite lookup_delete_eq.
Qed.

(** X15: [listPages] drops from the registry exactly the pages whose query
    throws and lists the others, one entry per remaining id; it leaves the
    log maps, the counter and the browser as they are (the buffers of a
    dropped page stay reachable), leaves the titles empty when they are not
    asked for, and a second call lists the same pages and drops nothing. *)
Theorem listPages_purges (w : World) (titles : bool) :
  exists w' r,
    listPages drv titles w = (Ok r, w') /\
    (forall id page,
       pages (mgr w') !! id = Some page
       <-> pages (mgr w) !! id = Some page /\ pageGone drv page = false) /\
    ps_id <$> r ≡ₚ (map_to_list (pages (mgr w'))).*1 /\
    (titles = false -> Forall (fun s => ps_title s = "") r) /\
    consoleLogs (mgr w') = consoleLogs (mgr w) /\
    networkLogs (mgr w') = networkLogs (mgr w) /\
    nextPageId (mgr w') = nextPageId (mgr w) /\
    env w' = env w /\
    listPages drv titles w' = (Ok r, w').
Proof.
  unfold listPages, bind, this, getEnv, update, ret. cbn [mgr env fst snd].
  eexists _, _. split; [reflexivity|]. cbn [mgr env pages set_pages consoleLogs
    networkLogs nextPageId].
  split; [|split; [|split; [|repeat (split; [reflexivity|])]]].
  - intros id page. rewrite map_lookup_filter_Some. cbn. tauto.
  - rewrite <- list_fmap_compose. reflexivity.
  - intros ->. apply Forall_fmap, Forall_true. done.
  - set (alive := filter _ (pages (mgr w))).
    assert (Hidem : filter (fun kv : Z * PageHandle => pageGone drv kv.2 = false) alive
                    = alive).
    { apply map_filter_id. intros id page Hin. subst alive.
      apply map_lookup_filter_Some in Hin. tauto. }
    rewrite Hidem. destruct w as [[] ?]. reflexivity.
Qed.

(** *** Route blocking *)

(** X16: [addBlockedPattern] only appends to the list of patterns, keeping
    duplicates, and [clearBlockedPatterns] only empties it: neither installs
    nor removes a route.  [applyRouteBlocking] throws the not-connected
    error without effect on a disconnected manager, and on a connected one
    installs one route per pattern, in order, each time it is called. *)
Theorem route_blocking (w : World) (pattern : string) :
  addBlockedPattern pattern w
  = (Ok tt, mkWorld (set_blockedPatterns (blockedPatterns (mgr w) ++ [pattern]) (mgr w))
              (env w)) /\
  clearBlockedPatterns w
  = (Ok tt, mkWorld (set_blockedPatterns [] (mgr w)) (env w)) /\
  (context (mgr w) = None ->
   applyRouteBlocking w = (Throw (Error notConnected), w)) /\
  (forall ctx, context (mgr w) = Some ctx ->
   (applyRouteBlocking ;; applyRouteBlocking) w
   = (Ok tt, after ((ActRoute <$> blockedPatterns (mgr w))
                    ++ (ActRoute <$> blockedPatterns (mgr w))) w)).
Proof.
  split; [reflexivity|]. split; [reflexivity|]. split.
  - intros Hctx. unfold applyRouteBlocking. unfold bind at 1.
    by rewrite getContext_none.
  - intros ctx Hctx. unfold bind. rewrite (applyRouteBlocking_eq w ctx Hctx).
    rewrite (applyRouteBlocking_eq _ ctx) by exact Hctx.
    unfold after. cbn. by rewrite <- app_assoc.
Qed.

(** *** Storage state *)

(** X17: the storage operations fail without doing anything: loading a
    file that does not exist throws the file-not-found error, loading a
    file that does not parse throws the parse error, and loading or saving
    on a disconnected manager throws the not-connected error; in each case
    the world is left as it was (no cookie is added, no file is written). *)
Theorem storage_state_failures (w : World) (filePath : string) :
  (existsSync drv filePath = false ->
   loadStorageState drv filePath w
   = (Throw (Error ("File not found: " +:+ filePath)), w)) /\
  (forall err, existsSync drv filePath = true -> readJson drv filePath = inl err ->
   loadStorageState drv filePath w = (Throw err, w)) /\
  (forall state, existsSync drv filePath = true -> readJson drv filePath = inr state ->
   context (mgr w) = None ->
   loadStorageState drv filePath w = (Throw (Error notConnected), w)) /\
  (context (mgr w) = None ->
   saveStorageState filePath w = (Throw (Error notConnected), w)).
Proof.
  split; [|split; [|split]].
  - intros H. unfold loadStorageState. by rewrite H.
  - intros err H1 H2. unfold loadStorageState. by rewrite H1, H2.
  - intros state H1 H2 Hctx. unfold loadStorageState. rewrite H1, H2.
    unfold bind at 1. by rewrite getContext_none.
  - intros Hctx. unfold saveStorageState. unfold bind at 1.
    by rewrite getContext_none.
Qed.

Lemma setItems_union (entries : list (string * string)) (area : gmap string string) :
  setItems entries area = list_to_map (reverse entries) ∪ area.
Proof.
  revert area. induction entries as [|[n v] entries IH]; intros area.
  - unfold setItems. cbn [foldl]. change (reverse []) with (@nil (string * string)).
    by rewrite list_to_map_nil, (left_id_L ∅ (∪)).
  - unfold setItems in *. cbn [foldl]. rewrite IH.
    rewrite reverse_cons, list_to_map_app. cbn [fst snd].
    rewrite <- (assoc_L (∪)). f_equal.
    rewrite list_to_map_cons, list_to_map_nil, insert_empty. cbn [fst snd].
    by rewrite <- insert_union_singleton_l.
Qed.

Lemma setItems_map_to_list (m area : gmap string string) :
  setItems (map_to_list m) area = m ∪ area.
Proof.
  rewrite setItems_union. f_equal.
  rewrite <- (list_to_map_to_list m) at 2. symmetry.
  apply list_to_map_proper; [apply NoDup_fst_map_to_list|].
  symmetry. apply reverse_Permutation.
Qed.

Lemma entriesFor_saved (o : string) (l : list (string * gmap string string)) :
  NoDup l.*1 ->
  entriesFor o ((fun kv => {| os_origin := kv.1;
                              os_localStorage := Some (map_to_list kv.2) |}) <$> l)
  = map_to_list (default ∅ ((list_to_map l : gmap string (gmap string string)) !! o)).
Proof.
  induction l as [|[k m] l IH]; intros Hnd.
  - cbn [fmap list_fmap entriesFor flat_map list_to_map foldr].
    rewrite lookup_empty. cbn [default from_option]. by rewrite map_to_list_empty.
  - cbn [fmap list_fmap entriesFor flat_map os_origin os_localStorage fst snd nullish].
    apply NoDup_cons in Hnd as [Hk Hnd]. cbn [list_to_map foldr fst snd].
    fold (entriesFor o ((fun kv : string * gmap string string =>
            {| os_origin := kv.1; os_localStorage := Some (map_to_list kv.2) |}) <$> l)).
    rewrite (IH Hnd). destruct (String.eqb_spec o k) as [->|Hne].
    + rewrite lookup_insert_eq. cbn [default from_option id].
      rewrite (not_elem_of_list_to_map_1 _ _ Hk). cbn.
      by rewrite map_to_list_empty, app_nil_r.
    + by rewrite lookup_insert_ne.
Qed.

(** X18: saving and loading round-trip.  [saveStorageState] on a connected
    manager writes one file holding the cookies and, for every origin, the
    entries of its local storage.  Loading such a file into a connected
    session whose first open page is at the origin [o] adds the saved
    cookies and leaves the storage of [o] as the saved one laid over what
    was there: every saved key has its saved value and every other key
    stays. *)
Theorem storage_state_round_trip (w0 w : World) (filePath : string)
    (ctx0 ctx : Context) (page0 : PageHandle) (rest : list PageHandle) :
  context (mgr w0) = Some ctx0 ->
  existsSync drv filePath = true ->
  readJson drv filePath = inr (ctx_storageState (env w0)) ->
  context (mgr w) = Some ctx ->
  contextPages (env w) = page0 :: rest ->
  saveStorageState filePath w0
  = (Ok tt, after [ActWriteFile filePath (ctx_storageState (env w0))] w0) /\
  exists w',
    loadStorageState drv filePath w = (Ok tt, w') /\
    cookies (env w') = cookies (env w) ++ cookies (env w0) /\
    let o := pageOrigin drv (env w) page0 in
    default ∅ (localStorage (env w') !! o)
    = default ∅ (localStorage (env w0) !! o) ∪ default ∅ (localStorage (env w) !! o).
Proof.
  intros Hctx0 Hexists Hread Hctx Hpages. split.
  { unfold saveStorageState. unfold bind at 1. rewrite (getContext_some _ _ Hctx0).
    reflexivity. }
  unfold loadStorageState. rewrite Hexists, Hread.
  unfold bind at 1. rewrite (getContext_some _ _ Hctx).
  unfold bind at 1, emit at 1, updateEnv at 1.
  unfold bind at 1, updateEnv at 1. cbn [mgr env].
  set (w1 := mkWorld (mgr w) _).
  destruct (origins_loop drv (nullish (ss_origins (ctx_storageState (env w0))) [])
              page0 rest w1) as (w' & Hrun & Hrel); [done|].
  exists w'. split; [exact Hrun|].
  destruct Hrel as (_ & _ & _ & R4 & _ & R6).
  split; [by rewrite R4|].
  cbv zeta. change (pageOrigin drv (env w1) page0) with (pageOrigin drv (env w) page0) in R6.
  rewrite R6. cbn [ctx_storageState ss_origins nullish].
  rewrite entriesFor_saved by apply NoDup_fst_map_to_list.
  rewrite list_to_map_to_list, setItems_map_to_list. reflexivity.
Qed.

(** *** Requests and responses *)

Lemma onResponse_appends (w : World) (pageId : Z) (l : Loc)
    (b : list NetworkLogEntry) (response : Response) (now now' : Z) :
  networkLogs (mgr w) !! pageId = Some l ->
  networkArrays (env w) !! l = Some b ->
  (length b < 500)%nat ->
  let pending := default ∅ (pendingRequests (env w) !! pageId) in
  let w' := (onResponse pageId response now now' w).2 in
  networkBuffer w' pageId
  = Some (b ++ [networkEntry (pending !! resp_url response) response now now']) /\
  default ∅ (pendingRequests (env w') !! pageId) = delete (resp_url response) pending /\
  networkLogs (mgr w') = networkLogs (mgr w).
Proof.
  intros Hl Hb Hlen pending w'. subst w'.
  unfold onResponse, bind, this, getEnv, updateEnv, ret. cbn [fst snd mgr env].
  rewrite Hl, Hb. cbn [default from_option id].
  replace (Z.of_nat (length b) <? 500) with true by (symmetry; apply Z.ltb_lt; lia).
  cbn [fst snd mgr env]. unfold networkBuffer. cbn [mgr env]. rewrite Hl.
  cbn. by rewrite !lookup_insert_eq.
Qed.

(** X19: a response is logged with the method, the resource type and the
    start time of the pending request to the same URL on that page, and
    uses that request up: its duration is the time from the request to the
    clock reading taken after logging.  A response with no pending request
    is logged as a [GET] of type [other] without duration.  Of two
    requests to one URL before any response only the later is remembered,
    so the first response is timed from the later request and the second
    response has no duration. *)
Theorem responses_pair_with_requests (w : World) (pageId : Z) (l : Loc)
    (b : list NetworkLogEntry) (request : Request) (response : Response)
    (t0 t0' t1 t2 t3 t4 : Z) :
  networkLogs (mgr w) !! pageId = Some l ->
  networkArrays (env w) !! l = Some b ->
  (length b + 1 < 500)%nat ->
  resp_url response = req_url request ->
  let logged (duration : option Z) (now : Z) :=
    {| nl_url := req_url request;
       nl_method := orElse (Some (req_method request)) "GET";
       nl_status := Some (resp_status response);
       nl_resourceType := orElse (Some (req_resourceType request)) "other";
       nl_timestamp := now;
       nl_duration := duration |} in
  let unmatched (now : Z) :=
    {| nl_url := req_url request; nl_method := "GET";
       nl_status := Some (resp_status response); nl_resourceType := "other";
       nl_timestamp := now; nl_duration := None |} in
  let w1 := (onRequest pageId request t0 w).2 in
  let w2 := (onResponse pageId response t1 t2 w1).2 in
  let v1 := (onRequest pageId request t0' w1).2 in
  let v2 := (onResponse pageId response t1 t2 v1).2 in
  let v3 := (onResponse pageId response t3 t4 v2).2 in
  networkBuffer w2 pageId = Some (b ++ [logged (Some (t2 - t0)) t1]) /\
  default ∅ (pendingRequests (env w2) !! pageId) !! req_url request = None /\
  (default ∅ (pendingRequests (env w) !! pageId) !! req_url request = None ->
   networkBuffer (onResponse pageId response t1 t2 w).2 pageId
   = Some (b ++ [unmatched t1])) /\
  networkBuffer v3 pageId
  = Some (b ++ [logged (Some (t2 - t0')) t1] ++ [unmatched t3]).
Proof.
  intros Hl Hb Hlen Hurl logged unmatched w1 w2 v1 v2 v3.
  assert (H1 : networkLogs (mgr w1) !! pageId = Some l /\
               networkArrays (env w1) !! l = Some b /\
               default ∅ (pendingRequests (env w1) !! pageId) !! req_url request
               = Some {| pr_url := req_url request; pr_method := req_method request;
                         pr_resourceType := req_resourceType request;
                         pr_timestamp := t0 |}).
  { subst w1. unfold onRequest, updateEnv. cbn.
    split; [done|]. split; [done|]. rewrite lookup_insert_eq.
    cbn [default from_option id]. by rewrite lookup_insert_eq. }
  destruct H1 as (Hl1 & Hb1 & Hp1).
  assert (H1' : networkLogs (mgr v1) !! pageId = Some l /\
                networkArrays (env v1) !! l = Some b /\
                default ∅ (pendingRequests (env v1) !! pageId) !! req_url request
                = Some {| pr_url := req_url request; pr_method := req_method request;
                          pr_resourceType := req_resourceType request;
                          pr_timestamp := t0' |}).
  { subst v1. unfold onRequest at 1, updateEnv. cbn [snd mgr env].
    split; [exact Hl1|]. split; [exact Hb1|]. cbn. rewrite lookup_insert_eq.
    cbn [default from_option id]. by rewrite lookup_insert_eq. }
  destruct H1' as (Hl1' & Hb1' & Hp1').
  split; [|split; [|split]].
  - destruct (onResponse_appends w1 pageId l b response t1 t2 Hl1 Hb1 ltac:(lia))
      as (Hbuf & _). fold w2 in Hbuf. rewrite Hbuf. unfold networkEntry.
    rewrite Hurl, Hp1. reflexivity.
  - destruct (onResponse_appends w1 pageId l b response t1 t2 Hl1 Hb1 ltac:(lia))
      as (_ & Hpend & _). fold w2 in Hpend. rewrite Hpend, Hurl.
    apply lookup_delete_eq.
  - intros Hnone.
    destruct (onResponse_appends w pageId l b response t1 t2 Hl Hb ltac:(lia))
      as (Hbuf & _). rewrite Hbuf. unfold networkEntry.
    rewrite Hurl, Hnone. reflexivity.
  - destruct (onResponse_appends v1 pageId l b response t1 t2 Hl1' Hb1' ltac:(lia))
      as (Hbuf & Hpend & Hlogs). fold v2 in Hbuf, Hpend, Hlogs.
    assert (Hl2 : networkLogs (mgr v2) !! pageId = Some l) by (by rewrite Hlogs).
    apply networkBuffer_Some in Hbuf as (l' & Hl' & Hbuf).
    rewrite Hl2 in Hl'. injection Hl' as <-.
    destruct (onResponse_appends v2 pageId l _ response t3 t4 Hl2 Hbuf
                ltac:(rewrite length_app; cbn; lia)) as (Hbuf3 & _).
    fold v3 in Hbuf3. rewrite Hbuf3, Hpend. unfold networkEntry.
    rewrite Hurl, Hp1', lookup_delete_eq. rewrite <- app_assoc. reflexivity.
Qed.

(** *** The close event of a page *)

Lemma onClose_loop (ids : list Z) (w : World) :
  forEach ids onClose w
  = (Ok tt, mkWorld (set_networkLogs (foldl (fun m id => delete id m) (networkLogs (mgr w)) ids)
                       (set_consoleLogs
                          (foldl (fun m id => delete id m) (consoleLogs (mgr w)) ids)
                          (mgr w)))
              (env w)).
Proof.
  revert w. induction ids as [|id ids IH]; intros w.
  - cbn. by destruct w as [[] ?].
  - cbn [forEach]. unfold bind at 1. unfold onClose at 1, bind, update.
    rewrite IH. reflexivity.
Qed.

Lemma foldl_delete_lookup {A} (ids : list Z) (m : gmap Z A) (id : Z) :
  foldl (fun m id => delete id m) m ids !! id
  = if bool_decide (id ∈ ids) then None else m !! id.
Proof.
  revert m. induction ids as [|i ids IH]; intros m; [done|].
  cbn [foldl]. rewrite IH. destruct (decide (id = i)) as [->|Hne].
  - rewrite lookup_delete_eq, (bool_decide_eq_true_2 (i ∈ i :: ids)) by left.
    by destruct (bool_decide (i ∈ ids)).
  - rewrite lookup_delete_ne by done.
    destruct (decide (id ∈ ids)) as [Hin|Hnin].
    + rewrite (bool_decide_eq_true_2 _ Hin).
      by rewrite (bool_decide_eq_true_2 (id ∈ i :: ids)) by (by right).
    + rewrite (bool_decide_eq_false_2 _ Hnin).
      rewrite (bool_decide_eq_false_2 (id ∈ i :: ids)); [done|].
      intros Hin. inversion Hin; subst; done.
Qed.

(** X20: when a page emits its close event, the listeners installed on it
    drop the console and network buffers of their page ids from the log
    maps and nothing else: the registry still holds the closed page under
    its id, so [getOrCreatePage] with that id still returns it, the logs of
    other ids are kept, and the browser side is untouched. *)
Theorem page_close_event_keeps_registry (w : World) (page : PageHandle)
    (ids : list Z) :
  listeners (env w) !! page = Some ids ->
  exists w',
    pageEmit page EvClose w = (Ok tt, w') /\
    (forall id, id ∈ ids ->
       consoleLogs (mgr w') !! id = None /\ networkLogs (mgr w') !! id = None) /\
    (forall id, id ∉ ids ->
       consoleLogs (mgr w') !! id = consoleLogs (mgr w) !! id /\
       networkLogs (mgr w') !! id = networkLogs (mgr w) !! id) /\
    pages (mgr w') = pages (mgr w) /\
    nextPageId (mgr w') = nextPageId (mgr w) /\
    env w' = env w /\
    forall id, pages (mgr w) !! id = Some page ->
      getOrCreatePage drv (Some id) w'
      = (Ok {| rp_id := id; rp_page := Some page |}, w').
Proof.
  intros Hids. unfold pageEmit. unfold bind at 1, getEnv at 1. rewrite Hids.
  cbn [default from_option id].
  change (forEach ids _) with (forEach ids onClose). rewrite onClose_loop.
  eexists. split; [reflexivity|]. cbn.
  split; [|split; [|repeat (split; [reflexivity|])]].
  - intros id Hin. rewrite !foldl_delete_lookup.
    by rewrite bool_decide_eq_true_2.
  - intros id Hnin. rewrite !foldl_delete_lookup.
    by rewrite bool_decide_eq_false_2.
  - intros id Hpage. unfold getOrCreatePage, bind, this. cbn. by rewrite Hpage.
Qed.

(** *** Opening a page that fails to load *)


(** *** Attaching to a running browser *)

Lemma openContext_loop (urls : list string) (w : World) :
  exists w',
    forEach urls (fun url =>
      updateEnv (fun e =>
        let page := nextHandle e in
        set_nextHandle (S page)
          (set_pageUrl (<[page := url]> (pageUrl e))
             (set_contextPages (contextPages e ++ [page]) e)))) w
    = (Ok tt, w') /\
    mgr w' = mgr w /\
    trace (env w') = trace (env w) /\
    contextPages (env w')
    = contextPages (env w) ++ seq (nextHandle (env w)) (length urls) /\
    (forall (i : nat) u, urls !! i = Some u ->
       pageUrl (env w') !! (nextHandle (env w) + i)%nat = Some u) /\
    (forall p, (p < nextHandle (env w))%nat ->
       pageUrl (env w') !! p = pageUrl (env w) !! p).
Proof.
  revert w. induction urls as [|u urls IH]; intros w.
  - exists w. split; [reflexivity|]. cbn. rewrite app_nil_r. repeat split; done.
  - cbn [forEach]. unfold bind at 1, updateEnv at 1.
    match goal with |- context [forEach urls _ ?w0] => destruct (IH w0)
      as (w' & Hrun & Hm & Ht & Hp & Hu & Hold) end.
    cbn [mgr env trace contextPages nextHandle pageUrl set_nextHandle set_pageUrl
         set_contextPages] in Hm, Ht, Hp, Hu, Hold.
    exists w'. split; [exact Hrun|]. split; [exact Hm|]. split; [exact Ht|].
    split; [|split].
    + rewrite Hp, <- app_assoc. reflexivity.
    + intros [|i] u' Hi.
      * injection Hi as <-. rewrite Nat.add_0_r, Hold by lia.
        apply lookup_insert_eq.
      * replace (nextHandle (env w) + S i)%nat with (S (nextHandle (env w)) + i)%nat
          by lia.
        by apply Hu.
    + intros p Hlt. rewrite Hold by lia. apply lookup_insert_ne. lia.
Qed.

Lemma openContext_spec (urls : list string) (w : World) :
  exists w',
    openContext urls w = (Ok tt, w') /\
    mgr w' = mgr w /\
    trace (env w') = trace (env w) /\
    contextPages (env w') = seq (nextHandle (env w)) (length urls) /\
    (forall (i : nat) u, urls !! i = Some u ->
       pageUrl (env w') !! (nextHandle (env w) + i)%nat = Some u).
Proof.
  unfold openContext. unfold bind at 1, updateEnv at 1.
  match goal with |- context [forEach urls _ ?w0] =>
    destruct (openContext_loop urls w0) as (w' & Hrun & Hm & Ht & Hp & Hu & _) end.
  exists w'. split; [exact Hrun|]. split; [exact Hm|]. split; [exact Ht|].
  split; [exact Hp|exact Hu].
Qed.

Lemma trackExisting_loop (ps : list PageHandle) (w : World) :
  exists w',
    forEach ps (fun page => let* _ := trackPage page in ret tt) w = (Ok tt, w') /\
    nextPageId (mgr w') = nextPageId (mgr w) + Z.of_nat (length ps) /\
    browser (mgr w') = browser (mgr w) /\
    context (mgr w') = context (mgr w) /\
    contextPages (env w') = contextPages (env w) /\
    pageUrl (env w') = pageUrl (env w) /\
    (forall (i : nat) p, ps !! i = Some p ->
       pages (mgr w') !! (nextPageId (mgr w) + Z.of_nat i) = Some p) /\
    (forall id, id < nextPageId (mgr w) -> pages (mgr w') !! id = pages (mgr w) !! id).
Proof.
  revert w. induction ps as [|p ps IH]; intros w.
  - exists w. split; [reflexivity|]. cbn. rewrite Z.add_0_r. repeat split; done.
  - cbn [forEach]. unfold bind at 1. unfold bind at 1. rewrite trackPage_eq.
    cbv beta iota zeta. unfold ret at 1.
    match goal with |- context [forEach ps _ ?w0] => destruct (IH w0)
      as (w' & Hrun & Hn & Hb & Hc & Hcp & Hpu & Hnew & Hold) end.
    cbn [mgr env nextPageId browser context contextPages pageUrl pages]
      in Hn, Hb, Hc, Hcp, Hpu, Hnew, Hold.
    exists w'. split; [exact Hrun|]. cbn [length].
    split; [lia|]. split; [exact Hb|]. split; [exact Hc|]. split; [exact Hcp|].
    split; [exact Hpu|]. split.
    + intros [|i] q Hi.
      * injection Hi as <-. rewrite Z.add_0_r, Hold by lia. apply lookup_insert_eq.
      * replace (nextPageId (mgr w) + Z.of_nat (S i))
          with (nextPageId (mgr w) + 1 + Z.of_nat i) by lia.
        by apply Hnew.
    + intros id Hlt. rewrite Hold by lia. apply lookup_insert_ne. lia.
Qed.

(** X22: attaching to a running browser takes the first of its contexts
    and registers every page open in it, in order, under consecutive ids
    starting at the current counter; the counter advances by the number of
    pages, and ids registered before the attach stay registered.  When
    the browser has no context, a new one is created and no page is
    registered. *)
Theorem connectCDP_registers_open_pages (w : World) (cdpUrl : option string)
    (url : string) :
  nullish cdpUrl (nullish (Opt.cdpUrl (options (mgr w))) "http://localhost:9222") = url ->
  (forall urls others, connectOverCDP drv url = inr (urls :: others) ->
   exists w',
     connectCDP drv cdpUrl w = (Ok tt, w') /\
     browser (mgr w') = Some (CdpBrowser url) /\
     context (mgr w') = Some (ReusedContext url) /\
     nextPageId (mgr w') = nextPageId (mgr w) + Z.of_nat (length urls) /\
     length (contextPages (env w')) = length urls /\
     (forall (i : nat) u, urls !! i = Some u ->
        exists page,
          contextPages (env w') !! i = Some page /\
          pages (mgr w') !! (nextPageId (mgr w) + Z.of_nat i) = Some page /\
          pageUrl (env w') !! page = Some u) /\
     (forall id, id < nextPageId (mgr w) ->
        pages (mgr w') !! id = pages (mgr w) !! id)) /\
  (connectOverCDP drv url = inr [] ->
   connectCDP drv cdpUrl w
   = (Ok tt, after [ActConnectOverCDP url; ActNewContext; ActOnPage]
               (mkWorld (set_context (Some (FreshContext (CdpBrowser url)))
                           (set_browser (Some (CdpBrowser url)) (mgr w)))
                  (set_contextPages [] (env w))))).
Proof.
  intros Hurl. split.
  - intros urls others Hattach.
    unfold connectCDP. unfold bind at 1, this at 1. rewrite Hurl.
    unfold bind at 1. rewrite emit_after. rewrite Hattach.
    unfold bind at 1, update at 1. unfold bind at 1. unfold bind at 1.
    unfold bind at 1, update at 1.
    match goal with |- context [openContext urls ?w0] =>
      destruct (openContext_spec urls w0) as (w1 & Hrun1 & Hm1 & Ht1 & Hp1 & Hu1) end.
    rewrite Hrun1. unfold trackExistingPages. unfold bind at 1, getEnv at 1.
    destruct (trackExisting_loop (contextPages (env w1)) w1)
      as (w2 & Hrun2 & Hn2 & Hb2 & Hc2 & Hcp2 & Hpu2 & Hnew2 & Hold2).
    rewrite Hrun2. rewrite emit_after.
    cbn [mgr env contextPages nextHandle set_contextPages app] in Hm1, Hp1, Hu1.
    rewrite Hm1 in Hn2, Hb2, Hc2, Hnew2, Hold2.
    cbn [mgr nextPageId browser context pages set_context set_browser] in Hn2, Hb2, Hc2,
      Hnew2, Hold2.
    eexists. split; [reflexivity|]. cbn [after mgr env contextPages pageUrl set_trace].
    assert (Hlen : length (contextPages (env w1)) = length urls)
      by (by rewrite Hp1, length_seq).
    split; [exact Hb2|]. split; [exact Hc2|]. split; [by rewrite Hn2, Hlen|].
    split; [by rewrite Hcp2|]. split; [|exact Hold2].
    intros i u Hi. exists (nextHandle (env w) + i)%nat.
    assert (Hi' : contextPages (env w1) !! i = Some (nextHandle (env w) + i)%nat).
    { rewrite Hp1. apply lookup_seq. split; [done|]. by apply lookup_lt_Some in Hi. }
    split; [by rewrite Hcp2|]. split; [by apply Hnew2|].
    rewrite Hpu2. by apply Hu1.
  - intros Hattach.
    unfold connectCDP. unfold bind at 1, this at 1. rewrite Hurl.
    unfold bind at 1. rewrite emit_after. rewrite Hattach.
    unfold after, emit, updateEnv. cbn. by rewrite <- !app_assoc.
Qed.

End WithDriver.

(** X9 for a new manager and a browser that never answers. *)
Lemma spawnChromeAndConnect_timeout_witness :
  tableChannel (mgr (initial noOptions)) = true /\
  (forall n, (n < 30)%nat -> fetchOk offline n = false) /\
  (spawnChromeAndConnect offline "/home/me/profile" "9222" (initial noOptions)).1
  = Throw (Error spawnTimeout).
Proof.
  assert (H1 : tableChannel (mgr (initial noOptions)) = true) by reflexivity.
  assert (H2 : forall n, (n < 30)%nat -> fetchOk offline n = false)
    by (intros n _; reflexivity).
  pose proof (spawnChromeAndConnect_timeout offline (initial noOptions)
                "/home/me/profile" "9222" H1 H2) as E.
  exact (conj H1 (conj H2 (f_equal fst E))).
Defined.

(** X10 for a browser that answers the first poll. *)
Lemma spawnChromeAndConnect_attaches_witness :
  tableChannel (mgr (initial noOptions)) = true /\
  (0 < 30)%nat /\
  (forall n, (n < 0)%nat -> fetchOk twoTabs n = false) /\
  fetchOk twoTabs 0 = true /\
  (spawnChromeAndConnect twoTabs "/home/me/profile" "9222" (initial noOptions)).1
  = Ok "Launched real chrome with your profile and connected via CDP at http://localhost:9222".
Proof.
  assert (H1 : tableChannel (mgr (initial noOptions)) = true) by reflexivity.
  assert (H2 : (0 < 30)%nat) by lia.
  assert (H3 : forall n, (n < 0)%nat -> fetchOk twoTabs n = false)
    by (intros n Hn; lia).
  assert (H4 : fetchOk twoTabs 0 = true) by reflexivity.
  pose proof (spawnChromeAndConnect_attaches twoTabs (initial noOptions)
                "/home/me/profile" "9222" 0 H1 H2 H3 H4) as E.
  cbv zeta in E.
  refine (conj H1 (conj H2 (conj H3 (conj H4 _)))).
  rewrite E. vm_compute. reflexivity.
Defined.

(** X11 for a profile that is the default data directory of the browser. *)
Lemma connect_recovers_by_spawning_witness :
  truthy (Opt.cdpUrl (options (mgr (initial withProfile)))) = false /\
  Opt.userDataDir (options (mgr (initial withProfile))) = Some "/home/me/profile" /\
  "/home/me/profile" <> "" /\
  includes "non-default data directory"
    "DevTools remote debugging requires a non-default data directory."
  || includes "remote debugging"
       "DevTools remote debugging requires a non-default data directory." = true /\
  exists w1,
    connect pipeRefused (initial withProfile)
    = spawnChromeAndConnect pipeRefused "/home/me/profile" "9222" w1.
Proof.
  assert (H1 : truthy (Opt.cdpUrl (options (mgr (initial withProfile)))) = false)
    by reflexivity.
  assert (H2 : Opt.userDataDir (options (mgr (initial withProfile)))
               = Some "/home/me/profile") by reflexivity.
  assert (H3 : "/home/me/profile" <> "") by discriminate.
  assert (H4 : includes "non-default data directory"
                 "DevTools remote debugging requires a non-default data directory."
               || includes "remote debugging"
                    "DevTools remote debugging requires a non-default data directory."
               = true) by (vm_compute; reflexivity).
  destruct (connect_recovers_by_spawning pipeRefused (initial withProfile)
              "/home/me/profile"
              "DevTools remote debugging requires a non-default data directory."
              (Error "DevTools remote debugging requires a non-default data directory.")
              H1 H2 H3 eq_refl eq_refl H4) as (w1 & _ & _ & E).
  exact (conj H1 (conj H2 (conj H3 (conj H4 (ex_intro _ w1 E))))).
Defined.

(** X12 for a new manager on a machine without any of the candidates. *)
Lemma resolveChromePath_spec_witness :
  truthy (Opt.executablePath (options (new_BrowserManager noOptions))) = false /\
  "chrome" ∈ tableChannels /\
  resolveChromePath offline (new_BrowserManager noOptions) = "chrome.exe".
Proof.
  assert (H1 : truthy (Opt.executablePath (options (new_BrowserManager noOptions)))
               = false) by reflexivity.
  assert (H2 : "chrome" ∈ tableChannels) by constructor.
  destruct (resolveChromePath_spec offline (new_BrowserManager noOptions))
    as (_ & Hr).
  destruct (Hr H1 H2) as [(i & _ & Hex & _)|(_ & E)].
  - discriminate Hex.
  - exact (conj H1 (conj H2 E)).
Defined.

(** X13 for a session attached to a browser with two tabs. *)
Lemma close_resets_witness :
  exists w',
    close (attachedTo twoTabs) = (Ok tt, w') /\
    pages (mgr w') = ∅ /\ nextPageId (mgr w') = 3.
Proof.
  destruct (close_resets twoTabs (attachedTo twoTabs))
    as (w' & E & Hp & _ & _ & _ & _ & _ & Hn & _).
  exists w'. split; [exact E|]. split; [exact Hp|]. rewrite Hn.
  vm_compute. reflexivity.
Defined.

(** X14 for the first tab of that session. *)
Lemma closePage_forgets_witness :
  pages (mgr (attachedTo twoTabs)) !! 1 = Some 0%nat /\
  listeners (env (attachedTo twoTabs)) !! 0%nat = Some [1] /\
  exists w',
    closePage 1 (attachedTo twoTabs) = (Ok tt, w') /\
    pages (mgr w') = delete 1 (pages (mgr (attachedTo twoTabs))).
Proof.
  assert (H1 : pages (mgr (attachedTo twoTabs)) !! 1 = Some 0%nat)
    by (vm_compute; reflexivity).
  assert (H2 : listeners (env (attachedTo twoTabs)) !! 0%nat = Some [1])
    by (vm_compute; reflexivity).
  destruct (closePage_forgets twoTabs (attachedTo twoTabs) 1 0%nat H1 H2)
    as (w' & E & Hp & _).
  exact (conj H1 (conj H2 (ex_intro _ w' (conj E Hp)))).
Defined.

(** X15 for that session. *)
Lemma listPages_purges_witness :
  false = false /\
  exists w' r,
    listPages twoTabs false (attachedTo twoTabs) = (Ok r, w') /\
    Forall (fun s => ps_title s = "") r /\
    env w' = env (attachedTo twoTabs).
Proof.
  destruct (listPages_purges twoTabs (attachedTo twoTabs) false)
    as (w' & r & E & _ & _ & Ht & _ & _ & _ & He & _).
  exact (conj eq_refl (ex_intro _ w' (ex_intro _ r (conj E (conj (Ht eq_refl) He))))).
Defined.

(** X16 for that session, and for a new manager. *)
Lemma route_blocking_witness :
  context (mgr (initial noOptions)) = None /\
  applyRouteBlocking (initial noOptions)
  = (Throw (Error notConnected), initial noOptions) /\
  context (mgr (attachedTo twoTabs)) = Some (ReusedContext "http://localhost:9222") /\
  ((applyRouteBlocking ;; applyRouteBlocking) (attachedTo twoTabs)).1 = Ok tt.
Proof.
  assert (H1 : context (mgr (initial noOptions)) = None) by reflexivity.
  assert (H2 : context (mgr (attachedTo twoTabs))
               = Some (ReusedContext "http://localhost:9222"))
    by (vm_compute; reflexivity).
  destruct (route_blocking (initial noOptions) "*.png") as (_ & _ & Hd & _).
  destruct (route_blocking (attachedTo twoTabs) "*.png") as (_ & _ & _ & Hc).
  exact (conj H1 (conj (Hd H1) (conj H2 (f_equal fst (Hc _ H2))))).
Defined.

(** X17 for a file that does not exist. *)
Lemma storage_state_failures_witness :
  existsSync offline "state.json" = false /\
  context (mgr (initial noOptions)) = None /\
  loadStorageState offline "state.json" (initial noOptions)
  = (Throw (Error "File not found: state.json"), initial noOptions) /\
  saveStorageState "state.json" (initial noOptions)
  = (Throw (Error notConnected), initial noOptions).
Proof.
  assert (H1 : existsSync offline "state.json" = false) by reflexivity.
  assert (H2 : context (mgr (initial noOptions)) = None) by reflexivity.
  destruct (storage_state_failures offline (initial noOptions) "state.json")
    as (Hl & _ & _ & Hs).
  exact (conj H1 (conj H2 (conj (Hl H1) (Hs H2)))).
Defined.

(** X18 for the snapshot on disk loaded into the session with two tabs. *)
Lemma storage_state_round_trip_witness :
  context (mgr savedSession) = Some (FreshContext (LaunchedBrowser chromium)) /\
  existsSync twoTabs "state.json" = true /\
  readJson twoTabs "state.json" = inr (ctx_storageState (env savedSession)) /\
  context (mgr (attachedTo twoTabs)) = Some (ReusedContext "http://localhost:9222") /\
  contextPages (env (attachedTo twoTabs)) = [0%nat; 1%nat] /\
  exists w',
    loadStorageState twoTabs "state.json" (attachedTo twoTabs) = (Ok tt, w') /\
    cookies (env w')
    = cookies (env (attachedTo twoTabs)) ++ cookies (env savedSession).
Proof.
  assert (H1 : context (mgr savedSession)
               = Some (FreshContext (LaunchedBrowser chromium))) by reflexivity.
  assert (H2 : existsSync twoTabs "state.json" = true) by reflexivity.
  assert (H3 : readJson twoTabs "state.json" = inr (ctx_storageState (env savedSession)))
    by (vm_compute; reflexivity).
  assert (H4 : context (mgr (attachedTo twoTabs))
               = Some (ReusedContext "http://localhost:9222"))
    by (vm_compute; reflexivity).
  assert (H5 : contextPages (env (attachedTo twoTabs)) = [0%nat; 1%nat])
    by (vm_compute; reflexivity).
  destruct (storage_state_round_trip twoTabs savedSession (attachedTo twoTabs)
              "state.json" _ _ 0%nat [1%nat] H1 H2 H3 H4 H5)
    as (_ & w' & E & Hc & _).
  exact (conj H1 (conj H2 (conj H3 (conj H4 (conj H5
           (ex_intro _ w' (conj E Hc))))))).
Defined.

(** X19 for a request and its response on the first tab. *)
Lemma responses_pair_with_requests_witness :
  let request := {| req_url := "https://a.example/api"; req_method := "POST";
                    req_resourceType := "xhr" |} in
  let response := {| resp_url := "https://a.example/api"; resp_status := 200 |} in
  networkLogs (mgr (attachedTo twoTabs)) !! 1 = Some 1%nat /\
  networkArrays (env (attachedTo twoTabs)) !! 1%nat = Some [] /\
  (length (@nil NetworkLogEntry) + 1 < 500)%nat /\
  resp_url response = req_url request /\
  networkBuffer
    (onResponse 1 response 130 135 (onRequest 1 request 100 (attachedTo twoTabs)).2).2 1
  = Some [ {| nl_url := "https://a.example/api"; nl_method := "POST";
              nl_status := Some 200; nl_resourceType := "xhr";
              nl_timestamp := 130; nl_duration := Some 35 |} ].
Proof.
  intros request response.
  assert (H1 : networkLogs (mgr (attachedTo twoTabs)) !! 1 = Some 1%nat)
    by (vm_compute; reflexivity).
  assert (H2 : networkArrays (env (attachedTo twoTabs)) !! 1%nat = Some [])
    by (vm_compute; reflexivity).
  assert (H3 : (length (@nil NetworkLogEntry) + 1 < 500)%nat) by (cbn; lia).
  assert (H4 : resp_url response = req_url request) by reflexivity.
  destruct (responses_pair_with_requests (attachedTo twoTabs) 1 1%nat [] request
              response 100 110 130 135 140 145 H1 H2 H3 H4) as (E & _).
  exact (conj H1 (conj H2 (conj H3 (conj H4 E)))).
Defined.

(** X20 for the close event of the first tab. *)
Lemma page_close_event_keeps_registry_witness :
  listeners (env (attachedTo twoTabs)) !! 0%nat = Some [1] /\
  pages (mgr (attachedTo twoTabs)) !! 1 = Some 0%nat /\
  exists w',
    pageEmit 0%nat EvClose (attachedTo twoTabs) = (Ok tt, w') /\
    getOrCreatePage twoTabs (Some 1) w'
    = (Ok {| rp_id := 1; rp_page := Some 0%nat |}, w').
Proof.
  assert (H1 : listeners (env (attachedTo twoTabs)) !! 0%nat = Some [1])
    by (vm_compute; reflexivity).
  assert (H2 : pages (mgr (attachedTo twoTabs)) !! 1 = Some 0%nat)
    by (vm_compute; reflexivity).
  destruct (page_close_event_keeps_registry twoTabs (attachedTo twoTabs) 0%nat [1] H1)
    as (w' & E & _ & _ & _ & _ & _ & Hg).
  exact (conj H1 (conj H2 (ex_intro _ w' (conj E (Hg 1 H2))))).
Defined.


(** X22 for a new manager and the browser with two tabs. *)
Lemma connectCDP_registers_open_pages_witness :
  nullish None (nullish (Opt.cdpUrl (options (mgr (initial noOptions))))
                  "http://localhost:9222") = "http://localhost:9222" /\
  connectOverCDP twoTabs "http://localhost:9222"
  = inr [["https://a.example"; "https://b.example"]] /\
  exists w',
    connectCDP twoTabs None (initial noOptions) = (Ok tt, w') /\
    nextPageId (mgr w') = 1 + 2.
Proof.
  assert (H1 : nullish None (nullish (Opt.cdpUrl (options (mgr (initial noOptions))))
                               "http://localhost:9222") = "http://localhost:9222")
    by reflexivity.
  assert (H2 : connectOverCDP twoTabs "http://localhost:9222"
               = inr [["https://a.example"; "https://b.example"]]) by reflexivity.
  destruct (connectCDP_registers_open_pages twoTabs (initial noOptions) None
              "http://localhost:9222" H1) as (Hreg & _).
  destruct (Hreg _ _ H2) as (w' & E & _ & _ & Hn & _).
  exact (conj H1 (conj H2 (ex_intro _ w' (conj E Hn)))).
Defined.

End SessionFacts.

(* ================================================================== *)
(** * Properties of the views of the log tools *)
(* ================================================================== *)

Module ToolsFacts.
Import Manager Tools.

Lemma slice_prefix {A} (n : Z) (l : list A) :
  0 <= n -> slice 0 n l = take (Z.to_nat n) l.
Proof.
  intros Hn. unfold slice, sliceIndex.
  change (0 <? 0) with false. cbv iota.
  replace (n <? 0) with false by (symmetry; apply Z.ltb_ge; lia).
  replace (Z.min 0 (Z.of_nat (length l))) with 0 by lia.
  change (Z.to_nat 0) with 0%nat. rewrite Z.sub_0_r, drop_0.
  destruct (Z.le_gt_cases n (Z.of_nat (length l))).
  - by rewrite Z.min_l by lia.
  - rewrite Z.min_r by lia. rewrite Nat2Z.id.
    rewrite !take_ge by lia. reflexivity.
Qed.

Lemma sliceFrom_spec {A} (start : Z) (l : list A) :
  sliceFrom start l
  = drop (Z.to_nat (sliceIndex (Z.of_nat (length l)) start)) l.
Proof.
  unfold sliceFrom, slice.
  set (len := Z.of_nat (length l)). set (from := sliceIndex len start).
  assert (Hfrom : 0 <= from <= len).
  { unfold from, sliceIndex. destruct (start <? 0) eqn:E; lia. }
  replace (sliceIndex len len) with len
    by (unfold sliceIndex; replace (len <? 0) with false
          by (symmetry; apply Z.ltb_ge; lia); lia).
  apply take_ge. rewrite length_drop. lia.
Qed.

Lemma lastEntries_spec {A} (n : Z) (l : list A) :
  (0 < n -> sliceFrom (- n) l = drop (length l - Z.to_nat n) l /\
            (length (sliceFrom (- n) l) <= Z.to_nat n)%nat) /\
  (n = 0 -> sliceFrom (- n) l = l) /\
  (n < 0 -> sliceFrom (- n) l = drop (Z.to_nat (- n)) l).
Proof.
  rewrite sliceFrom_spec. unfold sliceIndex. split; [|split].
  - intros Hn. replace (- n <? 0) with true by (symmetry; apply Z.ltb_lt; lia).
    replace (Z.to_nat (Z.max (Z.of_nat (length l) + - n) 0))
      with (length l - Z.to_nat n)%nat by lia.
    split; [reflexivity|]. rewrite length_drop. lia.
  - intros ->. change (- 0 <? 0) with false. cbv iota.
    replace (Z.min (- 0) (Z.of_nat (length l))) with 0 by lia. apply drop_0.
  - intros Hn. replace (- n <? 0) with false by (symmetry; apply Z.ltb_ge; lia).
    destruct (Z.le_gt_cases (- n) (Z.of_nat (length l))).
    + by rewrite Z.min_l by lia.
    + rewrite Z.min_r by lia. rewrite Nat2Z.id. by rewrite !drop_ge by lia.
Qed.

Lemma filter_sublist {A} (f : A -> bool) (l : list A) :
  sublist (List.filter f l) l.
Proof.
  induction l as [|x l IH]; [constructor|]. cbn [List.filter].
  destruct (f x); by constructor.
Qed.

(** X23: [truncate] returns a text of at most [max] code units unchanged;
    a longer one is cut to its first [max] code units followed by three
    dots, so the result has [max + 3] code units: never more than that, and
    more than the text itself when the text is only one or two code units
    over the limit. *)
Theorem truncate_spec (text : list Human.char) (max : Z) :
  0 <= max ->
  (Z.of_nat (length text) <= max -> truncate text max = text) /\
  (max < Z.of_nat (length text) ->
   truncate text max = take (Z.to_nat max) text ++ dots /\
   Z.of_nat (length (truncate text max)) = max + 3) /\
  Z.of_nat (length (truncate text max)) <= max + 3 /\
  (max < Z.of_nat (length text) < max + 3 ->
   (length text < length (truncate text max))%nat).
Proof.
  intros Hmax. unfold truncate.
  destruct (Z.leb_spec (Z.of_nat (length text)) max) as [Hle|Hgt].
  - split; [done|]. split; [lia|]. split; lia.
  - rewrite slice_prefix by done.
    assert (Hlen : Z.of_nat (length (take (Z.to_nat max) text ++ dots)) = max + 3).
    { rewrite length_app, length_take. cbn [dots length]. lia. }
    split; [lia|]. split; [done|]. split; lia.
Qed.

Lemma filter_bool {A} (f : A -> bool) (P : A -> Prop) `{!forall x, Decision (P x)}
    (l : list A) :
  (forall x, f x = true <-> P x) -> List.filter f l = filter P l.
Proof.
  intros Hf. induction l as [|x l IH]; [reflexivity|].
  cbn [List.filter]. rewrite filter_cons, IH.
  destruct (f x) eqn:E, (decide (P x)) as [HP|HP]; try reflexivity.
  - exfalso. apply HP, Hf, E.
  - apply Hf in HP. congruence.
Qed.

(** X24: the log tools show the entries that pass their filters, cut to
    the last [maxEntries] of them (50 when no number is given), in the
    order of the buffer.  The console tool keeps the entries of the level
    asked for, all of them when the level is absent, empty or [all]; the
    network tool keeps the entries whose URL contains the filter text and,
    of these, the entries of the resource type asked for, an absent or
    empty filter keeping everything.  A positive [maxEntries = n] shows
    the last [n] of the kept entries, all of them when there are no more
    than [n]; but [maxEntries = 0] shows all of them rather than none, and
    a negative [maxEntries = -k] shows all but the first [k]. *)
Theorem log_views_show_last_entries (level urlFilter resourceType : option string)
    (maxEntries : option Z) (clogs : list ConsoleLogEntry)
    (nlogs : list NetworkLogEntry) :
  let n := nullish maxEntries 50 in
  let lastOf := fun (A : Type) (kept : list A) =>
    if decide (0 < n) then drop (length kept - Z.to_nat n) kept
    else drop (Z.to_nat (- n)) kept in
  let ofLevel :=
    match level with
    | Some lv => if decide (lv = "" \/ lv = "all") then clogs
                 else filter (fun l => cl_type l = lv) clogs
    | None => clogs
    end in
  let byUrl :=
    match urlFilter with
    | Some f => if decide (f = "") then nlogs
                else filter (fun l => includes f (nl_url l) = true) nlogs
    | None => nlogs
    end in
  let byType :=
    match resourceType with
    | Some t => if decide (t = "") then byUrl
                else filter (fun l => nl_resourceType l = t) byUrl
    | None => byUrl
    end in
  consoleLogView level maxEntries clogs = lastOf _ ofLevel /\
  networkLogView urlFilter resourceType maxEntries nlogs = lastOf _ byType /\
  (forall (A : Type) (kept : list A),
     lastOf A kept `suffix_of` kept /\
     (0 < n -> length (lastOf A kept) = Nat.min (Z.to_nat n) (length kept)) /\
     (n = 0 -> lastOf A kept = kept) /\
     (n < 0 -> lastOf A kept = drop (Z.to_nat (- n)) kept)) /\
  (truthy level = false -> maxEntries = Some 0 ->
   consoleLogView level maxEntries clogs = clogs).
Proof.
  intros n lastOf ofLevel byUrl byType.
  assert (Hview : forall A (kept : list A), sliceFrom (- n) kept = lastOf A kept).
  { intros A kept. subst lastOf. cbv beta.
    destruct (lastEntries_spec n kept) as (Hpos & Hzero & Hneg).
    destruct (decide (0 < n)) as [Hn|Hn]; [by apply Hpos|].
    destruct (decide (n = 0)) as [Hz|Hz].
    - rewrite (Hzero Hz), Hz. reflexivity.
    - apply Hneg. lia. }
  split; [|split; [|split]].
  - unfold consoleLogView. fold n. rewrite Hview. f_equal. subst ofLevel.
    destruct level as [lv|]; [|reflexivity]. cbn [truthy nullish].
    destruct (decide (lv = "" \/ lv = "all")) as [[->| ->]|Hlv]; [reflexivity..|].
    assert (lv <> "" /\ lv <> "all") as [H1 H2] by tauto.
    apply String.eqb_neq in H1, H2. rewrite H1, H2. cbn [negb andb].
    apply filter_bool. intros l. apply String.eqb_eq.
  - unfold networkLogView. fold n. rewrite Hview. f_equal. subst byType byUrl.
    assert (Hurl : (if truthy urlFilter
                    then List.filter (fun l => includes (nullish urlFilter "") (nl_url l)) nlogs
                    else nlogs)
                   = match urlFilter with
                     | Some f => if decide (f = "") then nlogs
                                 else filter (fun l => includes f (nl_url l) = true) nlogs
                     | None => nlogs
                     end).
    { destruct urlFilter as [f|]; [|reflexivity]. cbn [truthy nullish].
      destruct (decide (f = "")) as [->|Hf]; [reflexivity|].
      apply String.eqb_neq in Hf. rewrite Hf. cbn [negb].
      apply filter_bool. done. }
    cbv zeta. rewrite Hurl.
    destruct resourceType as [t|]; [|reflexivity]. cbn [truthy nullish].
    destruct (decide (t = "")) as [->|Ht]; [reflexivity|].
    apply String.eqb_neq in Ht. rewrite Ht. cbn [negb].
    apply filter_bool. intros l. apply String.eqb_eq.
  - intros A kept. rewrite <- Hview.
    destruct (lastEntries_spec n kept) as (Hpos & Hzero & Hneg).
    split; [rewrite sliceFrom_spec; apply suffix_drop|].
    split; [|split; [exact Hzero|exact Hneg]].
    intros Hn. destruct (Hpos Hn) as [E _]. rewrite E, length_drop. lia.
  - intros Hl ->. unfold consoleLogView. rewrite Hl. cbn [andb nullish].
    destruct (lastEntries_spec 0 clogs) as (_ & Hz & _). by apply Hz.
Qed.

(** X23 for a text of 11 code units cut at 10. *)
Lemma truncate_spec_witness :
  0 <= 10 /\
  10 < Z.of_nat (length (Human.codes "hello world")) < 10 + 3 /\
  (length (Human.codes "hello world")
   < length (truncate (Human.codes "hello world") 10))%nat.
Proof.
  assert (H1 : 0 <= 10) by lia.
  assert (H2 : 10 < Z.of_nat (length (Human.codes "hello world")) < 10 + 3)
    by (cbn; lia).
  destruct (truncate_spec (Human.codes "hello world") 10 H1) as (_ & _ & _ & Hlonger).
  exact (conj H1 (conj H2 (Hlonger H2))).
Defined.

(** X24 for [maxEntries = 0] on the first three of the numbered messages. *)
Lemma log_views_show_last_entries_witness :
  truthy None = false /\
  consoleLogView None (Some 0) ((fun mn => consoleEntry mn.1 mn.2) <$> numbered 3)
  = (fun mn => consoleEntry mn.1 mn.2) <$> numbered 3.
Proof.
  destruct (log_views_show_last_entries None None None (Some 0)
              ((fun mn => consoleEntry mn.1 mn.2) <$> numbered 3) [])
    as (_ & _ & _ & Hall).
  exact (conj eq_refl (Hall eq_refl eq_refl)).
Defined.

End ToolsFacts.
